(** * ChatterBox TTS API server: voice ingestion and synthesis pipeline

    A shallow embedding of [src/tts-server/server.py]: the audio
    normaliser [convert_to_voice_format], the start-up engine life cycle
    [startup_event] and the request handlers [upload_voice],
    [generate_tts], [list_voices] and [delete_voice].

    Samples are numpy [float64] values, embedded as Rocq's primitive
    binary64 floats.  Handlers run in a state-and-exception monad over a
    [World] holding the global [tts_model], the file system and a log of
    the calls made to the outside (model loading, synthesis, files). *)

From Stdlib Require Import ZArith List String Ascii Floats Uint63 Lia.
From stdpp Require Import base option list gmap strings pretty.

Local Open Scope string_scope.
Local Open Scope list_scope.
Local Open Scope Z_scope.

(** ** Python exceptions and results *)

(** [HTTPException] is FastAPI's; [PyException cls msg] is any other
    subclass of [Exception]; [CancelledError] derives from
    [BaseException] only, so [except Exception] lets it through. *)
Inductive exn : Type :=
| HTTPException (status_code : Z) (detail : string)
| PyException (cls : string) (msg : string)
| CancelledError.

Inductive result (A : Type) : Type :=
| Ret (a : A)
| Raise (e : exn).
Arguments Ret {A} a.
Arguments Raise {A} e.

Definition is_Exception (e : exn) : bool :=
  match e with
  | CancelledError => false
  | _ => true
  end.

(** [str(e)]: Starlette prints an [HTTPException] as "status: detail". *)
Definition str_exn (e : exn) : string :=
  match e with
  | HTTPException s d => pretty s +:+ ": " +:+ d
  | PyException _ msg => msg
  | CancelledError => ""
  end.

Definition raises {A} (r : result A) : Prop :=
  match r with Ret _ => False | Raise _ => True end.

Definition status_of {A} (r : result A) : option Z :=
  match r with
  | Raise (HTTPException s _) => Some s
  | _ => None
  end.

(** ** float64 helpers *)

(** [float(z)] for a Python int below 2^63 in magnitude. *)
Definition float_of_Z (z : Z) : float :=
  if z <? 0 then PrimFloat.opp (PrimFloat.of_uint63 (Uint63.of_Z (- z)))
  else PrimFloat.of_uint63 (Uint63.of_Z z).

(** [int(x)]: truncation toward zero; raises on nan and on infinities. *)
Definition py_int (x : float) : result Z :=
  match Prim2SF x with
  | S754_zero _ => Ret 0
  | S754_finite s m e =>
      let a := if 0 <=? e then Z.shiftl (Z.pos m) e else Z.shiftr (Z.pos m) (- e) in
      Ret (if s then - a else a)
  | S754_infinity _ => Raise (PyException "OverflowError" "cannot convert float infinity to integer")
  | S754_nan => Raise (PyException "ValueError" "cannot convert float NaN to integer")
  end.

(** [a / b] on Python ints: true division, a float. *)
Definition py_truediv (a b : Z) : result float :=
  if b =? 0 then Raise (PyException "ZeroDivisionError" "division by zero")
  else Ret (PrimFloat.div (float_of_Z a) (float_of_Z b)).

(** [np.maximum]: a nan operand wins. *)
Definition np_maximum (a b : float) : float :=
  if PrimFloat.is_nan a then a
  else if PrimFloat.is_nan b then b
  else if PrimFloat.ltb a b then b else a.

(** What numpy raises for the maximum of an empty array. *)
Definition empty_max_error : exn :=
  PyException "ValueError"
    "zero-size array to reduction operation maximum which has no identity".

(** [np.max] of a one-dimensional array. *)
Definition np_max (a : list float) : result float :=
  match a with
  | [] => Raise empty_max_error
  | x :: xs => Ret (fold_left np_maximum xs x)
  end.

Definition np_abs (a : list float) : list float := map PrimFloat.abs a.

(** numpy's pairwise summation of a contiguous run of [float64]: below
    eight entries a plain loop from zero; up to 128 entries eight
    running sums, combined as a tree, then the entries left over; above
    that the two halves, the first a multiple of eight long. *)
Definition sum8 (r : list float) : float :=
  match r with
  | [r0; r1; r2; r3; r4; r5; r6; r7] =>
      PrimFloat.add
        (PrimFloat.add (PrimFloat.add r0 r1) (PrimFloat.add r2 r3))
        (PrimFloat.add (PrimFloat.add r4 r5) (PrimFloat.add r6 r7))
  | _ => 0%float
  end.

Fixpoint add_blocks (k : nat) (r a : list float) : list float * list float :=
  match k with
  | O => (r, a)
  | S k' => add_blocks k' (zip_with PrimFloat.add r (firstn 8 a)) (skipn 8 a)
  end.

Definition block_sum (a : list float) : float :=
  let '(r, rest) := add_blocks (length a / 8 - 1) (firstn 8 a) (skipn 8 a) in
  fold_left PrimFloat.add rest (sum8 r).

Fixpoint pairwise_sum (fuel : nat) (a : list float) : float :=
  let n := length a in
  if (n <? 8)%nat then fold_left PrimFloat.add a 0%float
  else if (n <=? 128)%nat then block_sum a
  else
    match fuel with
    | O => block_sum a
    | S fuel' =>
        let n2 := (n / 2 - (n / 2) mod 8)%nat in
        PrimFloat.add (pairwise_sum fuel' (firstn n2 a)) (pairwise_sum fuel' (skipn n2 a))
    end.

(** [np.add.reduce] over one row: the reduction starts from the
    identity [0.0] and adds the row's pairwise sum to it. *)
Definition row_sum (row : list float) : float :=
  PrimFloat.add 0%float (pairwise_sum (length row) row).

(** One entry of [np.mean(a, axis=1)]: the row's sum over its width. *)
Definition row_mean (row : list float) : float :=
  PrimFloat.div (row_sum row) (float_of_Z (Z.of_nat (length row))).

(** ** Waveforms as [soundfile.read] returns them

    A one-channel file gives a one-dimensional array; a file with more
    channels gives a two-dimensional one, a row of channel values per
    time index. *)
Inductive Audio : Type :=
| Mono (samples : list float)
| Multi (frames : list (list float)).

(** [len(audio_data)] *)
Definition audio_len (a : Audio) : nat :=
  match a with
  | Mono s => length s
  | Multi f => length f
  end.

(** The literal [0.85]. *)
Definition peak_target : float := 0x1.b333333333333p-1%float.

Section Normalizer.

(** [SCIPY_AVAILABLE], set when the module is imported. *)
Variable SCIPY_AVAILABLE : bool.

(** [scipy.signal.resample], an external routine. *)
Variable signal_resample : list float -> Z -> result (list float).

(** Lines 58-59: [if len(audio_data.shape) > 1: np.mean(axis=1)]. *)
Definition to_mono (a : Audio) : list float :=
  match a with
  | Mono s => s
  | Multi f => map row_mean f
  end.

(** Line 64: [int(len(audio_data) * ratio)] with
    [ratio = target_sample_rate / original_sr]. *)
Definition num_samples (len : nat) (original_sr target_sample_rate : Z) : result Z :=
  match py_truediv target_sample_rate original_sr with
  | Raise e => Raise e
  | Ret ratio => py_int (PrimFloat.mul (float_of_Z (Z.of_nat len)) ratio)
  end.

(** Lines 62-65. *)
Definition resample_step (audio_data : list float) (original_sr target_sample_rate : Z)
  : result (list float) :=
  if negb (original_sr =? target_sample_rate) && SCIPY_AVAILABLE then
    match num_samples (length audio_data) original_sr target_sample_rate with
    | Raise e => Raise e
    | Ret n => signal_resample audio_data n
    end
  else Ret audio_data.

(** Lines 68-72. *)
Definition peak_normalize (audio_data : list float) : result (list float) :=
  match np_max (np_abs audio_data) with
  | Raise e => Raise e
  | Ret peak =>
      if PrimFloat.ltb 0%float peak
      then Ret (map (fun x => PrimFloat.mul x (PrimFloat.div peak_target peak)) audio_data)
      else Ret audio_data
  end.

Definition convert_to_voice_format (audio_data : Audio) (original_sr target_sample_rate : Z)
  : result (list float) :=
  match resample_step (to_mono audio_data) original_sr target_sample_rate with
  | Raise e => Raise e
  | Ret resampled => peak_normalize resampled
  end.

End Normalizer.


(** A stand-in for [scipy.signal.resample] with its length contract
    only: [num] entries, each the nearest earlier input sample. *)
Definition index_resample (x : list float) (num : Z) : result (list float) :=
  if num <=? 0 then Raise (PyException "ValueError" "Invalid number of data points specified")
  else Ret (map (fun i => nth (i * length x / Z.to_nat num)%nat x 0%float)
                (seq 0 (Z.to_nat num))).

(** ** Paths, as [pathlib] on a POSIX host *)

(** [s.split(c)] *)
Fixpoint split_on (c : ascii) (s : string) : list string :=
  match s with
  | EmptyString => [EmptyString]
  | String a s' =>
      if Ascii.eqb a c then EmptyString :: split_on c s'
      else match split_on c s' with
           | h :: t => String a h :: t
           | [] => [String a EmptyString]
           end
  end.

(** [c in s] *)
Fixpoint contains (c : ascii) (s : string) : bool :=
  match s with
  | EmptyString => false
  | String a s' => Ascii.eqb a c || contains c s'
  end.

(** [s.rfind(c)] *)
Fixpoint rfind (c : ascii) (s : string) : option nat :=
  match s with
  | EmptyString => None
  | String a s' =>
      match rfind c s' with
      | Some i => Some (S i)
      | None => if Ascii.eqb a c then Some 0%nat else None
      end
  end.

(** A path as [pathlib] holds it: its anchor (the root: "", "/" or "//") and the
    components after it. *)
Record PurePath : Type := {
  anchor : string;
  parts : list string
}.

Definition is_absolute (p : PurePath) : bool := negb (String.eqb (anchor p) "").

(** The root of a path string: exactly two leading slashes are kept as
    "//", any other number of them is one "/". *)
Definition path_root (s : string) : string :=
  match s with
  | String "/" (String "/" (String "/" _)) => "/"
  | String "/" (String "/" _) => "//"
  | String "/" _ => "/"
  | _ => ""
  end.

(** [Path(s)]: empty and "." components are dropped, ".." is kept. *)
Definition Path (s : string) : PurePath :=
  {| anchor := path_root s;
     parts := List.filter (fun c => negb (String.eqb c "" || String.eqb c "."))
                (split_on "/" s) |}.

(** [p / s]: an absolute right operand replaces the left one. *)
Definition joinpath (p : PurePath) (s : string) : PurePath :=
  let q := Path s in
  if is_absolute q then q
  else {| anchor := anchor p; parts := parts p ++ parts q |}.

(** [str(p)] *)
Definition str_path (p : PurePath) : string :=
  match parts p with
  | [] => if is_absolute p then anchor p else "."
  | c :: cs => anchor p +:+ fold_left (fun acc d => acc +:+ "/" +:+ d) cs c
  end.

(** [PurePath.suffix] of a final component. *)
Definition name_suffix (name : string) : string :=
  match rfind "." name with
  | Some i =>
      if (0 <? i)%nat && (i <? String.length name - 1)%nat
      then substring i (String.length name - i) name
      else ""
  | None => ""
  end.

(** [PurePath.stem] of a final component. *)
Definition name_stem (name : string) : string :=
  substring 0 (String.length name - String.length (name_suffix name)) name.

(** [p.suffix] *)
Definition path_suffix (p : PurePath) : string :=
  name_suffix (List.last (parts p) "").

(** [s.lstrip('.')] *)
Fixpoint lstrip_dots (s : string) : string :=
  match s with
  | String "." s' => lstrip_dots s'
  | _ => s
  end.

(** [os.path.splitext(name)[1]] of a file name: from its last dot on,
    leading dots left aside; empty when no dot is left. *)
Definition splitext_ext (name : string) : string :=
  let body := lstrip_dots name in
  match rfind "." body with
  | Some i => substring i (String.length body - i) body
  | None => ""
  end.

Definition VOICES_DIR : PurePath := Path "./voices".

(** A character is a code point below 256.  The file system takes no
    name longer than [NAME_MAX] bytes, counted in UTF-8, and no call
    takes a name with a zero byte. *)
Definition NAME_MAX : nat := 255.
Definition NUL : ascii := Ascii.zero.

(** [len(s.encode())] *)
Fixpoint utf8_length (s : string) : nat :=
  match s with
  | EmptyString => 0
  | String c s' => ((if (nat_of_ascii c <? 128)%nat then 1 else 2) + utf8_length s')%nat
  end.

(** A file's place on disk: the components from the root, once the
    operating system has followed every "..".  Directories on the way
    are taken to exist and not to be symbolic links. *)
Definition FsPath : Type := list string.

Definition step_component (acc : FsPath) (c : string) : FsPath :=
  if String.eqb c ".." then removelast acc else acc ++ [c].

Definition os_resolve (cwd : FsPath) (p : PurePath) : FsPath :=
  fold_left step_component (parts p) (if is_absolute p then [] else cwd).

Fixpoint is_prefix (a b : list string) : bool :=
  match a, b with
  | [], _ => true
  | x :: a', y :: b' => String.eqb x y && is_prefix a' b'
  | _ :: _, [] => false
  end.

(** [p] lies strictly below the voices directory of the process. *)
Definition inside_voices (cwd : FsPath) (p : FsPath) : bool :=
  is_prefix (os_resolve cwd VOICES_DIR) p
  && (length (os_resolve cwd VOICES_DIR) <? length p)%nat.

(** [p] lies in the directory [tempfile] uses. *)
Definition in_tmpdir (p : FsPath) : bool :=
  match p with
  | [d; _] => String.eqb d "tmp"
  | _ => false
  end.

(** ** The world the handlers act on *)

Inductive Device : Type := cuda | cpu.

(** A loaded [ChatterboxTTS] instance. *)
Record Model : Type := {
  model_device : Device;
  model_sr : Z
}.

Definition Wav : Type := list float.

Inductive FileData : Type :=
| RawBytes (content : string)
| WavFile (samples : list float) (samplerate : Z).

(** Calls that leave the process. *)
Inductive Event : Type :=
| EvLoad (device : Device)
| EvSynth (text : string) (audio_prompt_path : option FsPath)
| EvUploadRead
| EvCreate (p : FsPath)
| EvWrite (p : FsPath)
| EvRead (p : FsPath)
| EvStat (p : FsPath)
| EvUnlink (p : FsPath).

Record World : Type := {
  tts_model : option Model;
  fs : gmap FsPath FileData;
  log : list Event
}.

Definition set_model (m : option Model) (w : World) : World :=
  {| tts_model := m; fs := fs w; log := log w |}.
Definition set_fs (f : gmap FsPath FileData) (w : World) : World :=
  {| tts_model := tts_model w; fs := f; log := log w |}.
Definition emit (e : Event) (w : World) : World :=
  {| tts_model := tts_model w; fs := fs w; log := log w ++ [e] |}.

(** The files an event touches. *)
Definition touched (e : Event) : list FsPath :=
  match e with
  | EvCreate p | EvWrite p | EvRead p | EvStat p | EvUnlink p => [p]
  | EvSynth _ (Some p) => [p]
  | _ => []
  end.

Definition is_synth (e : Event) : bool :=
  match e with EvSynth _ _ => true | _ => false end.
Definition is_load (e : Event) : bool :=
  match e with EvLoad _ => true | _ => false end.
Definition is_load_of (d : Device) (e : Event) : bool :=
  match e, d with
  | EvLoad cuda, cuda | EvLoad cpu, cpu => true
  | _, _ => false
  end.

(** What the process does not define itself.  [sf_decode ext bytes] is
    what [soundfile.read] makes of a file with the extension [ext] and
    the content [bytes]; [pcm16 x] is the value a sample [x] has when it
    is read back from a 16-bit PCM file, the encoding [soundfile.write]
    uses for WAV; [round2] is [round(x, 2)]. *)
Record Externals : Type := {
  CHATTERBOX_AVAILABLE : bool;
  SCIPY_AVAILABLE : bool;
  cwd : FsPath;
  from_pretrained : Device -> result Model;
  model_generate : Model -> string -> option FileData -> float -> float -> result Wav;
  signal_resample : list float -> Z -> result (list float);
  sf_decode : string -> string -> result (Audio * Z);
  pcm16 : float -> float;
  ta_encode : Wav -> Z -> result FileData;
  round2 : float -> float
}.

(** ** The monad of the handlers *)

Definition M (A : Type) : Type := World -> World * result A.

#[export] Instance M_ret : MRet M := fun A a w => (w, Ret a).
#[export] Instance M_bind : MBind M := fun A B k m w =>
  match m w with
  | (w', Ret a) => k a w'
  | (w', Raise e) => (w', Raise e)
  end.

Definition raise {A} (e : exn) : M A := fun w => (w, Raise e).
Definition lift {A} (r : result A) : M A := fun w => (w, r).
Definition get_world : M World := fun w => (w, Ret w).
Definition modify (f : World -> World) : M unit := fun w => (f w, Ret tt).

(** [try: body except Exception as e: handler e] *)
Definition try_except {A} (body : M A) (handler : exn -> M A) : M A := fun w =>
  match body w with
  | (w', Raise e) => if is_Exception e then handler e w' else (w', Raise e)
  | r => r
  end.

(** [try: body finally: cleanup] *)
Definition try_finally {A} (body : M A) (cleanup : M unit) : M A := fun w =>
  let '(w1, r) := body w in
  match cleanup w1 with
  | (w2, Ret _) => (w2, r)
  | (w2, Raise e) => (w2, Raise e)
  end.

(** ** Requests and responses *)

(** FastAPI's [UploadFile]: the client's file name, and what
    [await file.read()] gives (the bytes, or the exception it raises). *)
Record UploadFile : Type := {
  filename : option string;
  read_outcome : result string
}.

Record UploadResponse : Type := {
  up_success : bool;
  up_voice_name : string;
  up_path : string;
  up_duration_seconds : float;
  up_sample_rate : Z
}.

Record FileResponse : Type := {
  fr_path : FsPath;
  fr_media_type : string;
  fr_filename : string
}.

Record VoiceInfo : Type := {
  vi_name : string;
  vi_duration_seconds : float;
  vi_sample_rate : Z
}.

Record DeleteResponse : Type := {
  del_success : bool;
  del_message : string
}.

Record RootResponse : Type := {
  root_status : string;
  root_model_loaded : bool;
  root_chatterbox_available : bool
}.

Inductive Request : Type :=
| GetRoot
| PostUploadVoice (file : UploadFile) (voice_name : string)
| PostGenerate (text : string) (voice_name : option string) (exaggeration cfg_weight : float)
| GetVoices
| DeleteVoice (voice_name : string).

Inductive Response : Type :=
| RespRoot (r : RootResponse)
| RespUpload (r : UploadResponse)
| RespFile (r : FileResponse)
| RespVoices (voices : list VoiceInfo)
| RespDelete (r : DeleteResponse).

(** The name [tempfile] would try in its [n]-th round. *)
Definition tmp_path (n : nat) (suffix : string) : FsPath :=
  ["tmp"; "tmp" +:+ pretty n +:+ suffix].

(** A temporary name not yet in use: [tempfile] opens with [O_EXCL] and
    tries again on a clash. *)
Definition fresh_tmp (f : gmap FsPath FileData) (suffix : string) : option FsPath :=
  List.find (fun p => match f !! p with None => true | Some _ => false end)
    (map (fun n => tmp_path n suffix) (seq 0 (S (size f)))).

(** The names [tempfile] makes: "tmp", eight random characters, the
    suffix. *)
Definition tmp_name_length (suffix : string) : nat := (3 + 8 + utf8_length suffix)%nat.

(** Why [tempfile] cannot make a file with this suffix, when it cannot. *)
Definition tmp_error (suffix : string) : option exn :=
  if contains NUL suffix then Some (PyException "ValueError" "embedded null byte")
  else if (NAME_MAX <? tmp_name_length suffix)%nat
       then Some (PyException "OSError" "[Errno 36] File name too long")
       else None.

(** Why [sf.write] cannot write to [p], when it cannot: the format is
    taken from the extension of the file name, and the file has to be
    opened.  Every path the server writes ends in ".wav", so that of the
    formats only WAV matters.  A zero byte in the path is not modelled:
    the statements about stored voices leave such names out. *)
Definition sf_write_error (p : PurePath) : option exn :=
  let name := List.last (parts p) "" in
  if String.eqb (splitext_ext name) "" then
    Some (PyException "TypeError"
            ("No format specified and unable to get format from file extension: '"
             +:+ str_path p +:+ "'"))
  else if (NAME_MAX <? utf8_length name)%nat then
    Some (PyException "LibsndfileError"
            ("Error opening '" +:+ str_path p +:+ "': System error."))
  else None.

Section Server.

Variable X : Externals.

Definition resolve (p : PurePath) : FsPath := os_resolve (cwd X) p.

(** *** Calls to the outside *)

(** [ChatterboxTTS.from_pretrained(device=d)] *)
Definition load_model (d : Device) : M Model := fun w =>
  (emit (EvLoad d) w, from_pretrained X d).

(** [tts_model.generate(text, audio_prompt_path=..., ...)]; the engine
    opens the prompt file itself. *)
Definition synthesize (m : Model) (text : string) (prompt : option FsPath)
    (exaggeration cfg_weight : float) : M Wav := fun w =>
  (emit (EvSynth text prompt) w,
   match prompt with
   | None => model_generate X m text None exaggeration cfg_weight
   | Some p =>
       match fs w !! p with
       | Some d => model_generate X m text (Some d) exaggeration cfg_weight
       | None => Raise (PyException "FileNotFoundError" "No such file or directory")
       end
   end).

(** [await file.read()] *)
Definition file_read (file : UploadFile) : M string := fun w =>
  (emit EvUploadRead w, read_outcome file).

(** [p.exists()], [os.path.exists(p)], for a path the file system can
    look up.  ([Path.exists] raises [OSError] on a component longer than
    [NAME_MAX]; the statements about [delete_voice] leave such names
    out.) *)
Definition path_exists (p : FsPath) : M bool := fun w =>
  (emit (EvStat p) w, Ret (match fs w !! p with Some _ => true | None => false end)).

(** [p.unlink()], [os.unlink(p)] *)
Definition unlink (p : FsPath) : M unit := fun w =>
  match fs w !! p with
  | Some _ => (emit (EvUnlink p) (set_fs (delete p (fs w)) w), Ret tt)
  | None => (emit (EvUnlink p) w,
             Raise (PyException "FileNotFoundError" "No such file or directory"))
  end.

Definition write_file (p : FsPath) (d : FileData) : M unit :=
  modify (fun w => emit (EvWrite p) (set_fs (<[p := d]> (fs w)) w)).

(** [tempfile.NamedTemporaryFile(delete=False, suffix=...)]: the file
    exists, empty, from this call on, unless no file of that suffix can
    be made. *)
Definition NamedTemporaryFile (suffix : string) : M FsPath := fun w =>
  match tmp_error suffix with
  | Some e => (w, Raise e)
  | None =>
      match fresh_tmp (fs w) suffix with
      | Some p => (emit (EvCreate p) (set_fs (<[p := RawBytes ""]> (fs w)) w), Ret p)
      | None => (w, Raise (PyException "FileExistsError" "No usable temporary file name found"))
      end
  end.

(** [sf.read(p)] *)
Definition sf_read (p : FsPath) : M (Audio * Z) := fun w =>
  (emit (EvRead p) w,
   match fs w !! p with
   | None => Raise (PyException "LibsndfileError" "Error opening file: System error.")
   | Some (RawBytes b) => sf_decode X (splitext_ext (List.last p "")) b
   | Some (WavFile s sr) => Ret (Mono s, sr)
   end).

(** [sf.write(p, data, samplerate)]: a WAV file of 16-bit samples. *)
Definition sf_write (p : PurePath) (data : list float) (samplerate : Z) : M unit :=
  match sf_write_error p with
  | Some e => raise e
  | None => write_file (resolve p) (WavFile (map (pcm16 X) data) samplerate)
  end.

(** [ta.save(p, wav, sr)] *)
Definition ta_save (p : FsPath) (wav : Wav) (sr : Z) : M unit :=
  d ← lift (ta_encode X wav sr); write_file p d.

(** *** Lines 75-95 *)
Definition startup_event : M unit :=
  if negb (CHATTERBOX_AVAILABLE X) then mret tt
  else
    try_except
      (m ← load_model cuda; modify (set_model (Some m)))
      (fun e =>
         try_except
           (m ← load_model cpu; modify (set_model (Some m)))
           (fun e2 => mret tt)).

(** *** Lines 98-105 *)
Definition root : M RootResponse :=
  w ← get_world;
  mret {| root_status := "running";
          root_model_loaded := match tts_model w with Some _ => true | None => false end;
          root_chatterbox_available := CHATTERBOX_AVAILABLE X |}.

(** *** Lines 108-152 *)
Definition upload_voice (file : UploadFile) (voice_name : string) : M UploadResponse :=
  w ← get_world;
  match tts_model w with
  | None => raise (HTTPException 503 "TTS model not loaded")
  | Some _ =>
      suffix ← match filename file with
               | Some n => mret (path_suffix (Path n))
               | None => raise (PyException "TypeError"
                           "expected str, bytes or os.PathLike object, not NoneType")
               end;
      temp_input ← NamedTemporaryFile suffix;
      try_finally
        (try_except
           (content ← file_read file;
            write_file temp_input (RawBytes content);;
            '(audio_data, original_sr) ← sf_read temp_input;
            converted_audio ← lift (convert_to_voice_format (SCIPY_AVAILABLE X)
                                      (signal_resample X) audio_data original_sr 24000);
            let output_path := joinpath VOICES_DIR (voice_name +:+ ".wav") in
            sf_write output_path converted_audio 24000;;
            duration ← lift (py_truediv (Z.of_nat (length converted_audio)) 24000);
            mret {| up_success := true;
                    up_voice_name := voice_name;
                    up_path := str_path output_path;
                    up_duration_seconds := round2 X duration;
                    up_sample_rate := 24000 |})
           (fun e => raise (HTTPException 500
                              ("Failed to process voice: " +:+ str_exn e))))
        (present ← path_exists temp_input;
         if present : bool then unlink temp_input else mret tt)
  end.

(** *** Lines 155-214 *)
Definition generate_tts (text : string) (voice_name : option string)
    (exaggeration cfg_weight : float) : M FileResponse :=
  w ← get_world;
  match tts_model w with
  | None => raise (HTTPException 503 "TTS model not loaded")
  | Some model =>
      if String.eqb text "" then raise (HTTPException 400 "Text is required")
      else
        try_except
          (reference_voice ←
             match voice_name with
             | Some name =>
                 if String.eqb name "" then mret None
                 else
                   let voice_path := resolve (joinpath VOICES_DIR (name +:+ ".wav")) in
                   present ← path_exists voice_path;
                   if present : bool then mret (Some voice_path)
                   else raise (HTTPException 404 ("Voice '" +:+ name +:+ "' not found"))
             | None => mret None
             end;
           wav ← synthesize model text reference_voice exaggeration cfg_weight;
           output_file ← NamedTemporaryFile ".wav";
           ta_save output_file wav (model_sr model);;
           mret {| fr_path := output_file;
                   fr_media_type := "audio/wav";
                   fr_filename := "generated_audio.wav" |})
          (fun e => raise (HTTPException 500
                             ("Failed to generate TTS: " +:+ str_exn e)))
  end.

(** *** Lines 217-233 *)
Definition is_voice_file (p : FsPath) : bool :=
  let name := List.last p "" in
  bool_decide (removelast p = resolve VOICES_DIR)
  && match p with [] => false | _ => true end
  && (4 <=? String.length name)%nat
  && String.eqb (substring (String.length name - 4) 4 name) ".wav".

Definition voice_entry (p : FsPath) : M (option VoiceInfo) := fun w =>
  match sf_read p w with
  | (w', Ret (audio_data, sr)) =>
      (w', Ret match py_truediv (Z.of_nat (audio_len audio_data)) sr with
               | Ret duration =>
                   Some {| vi_name := name_stem (List.last p "");
                           vi_duration_seconds := round2 X duration;
                           vi_sample_rate := sr |}
               | Raise _ => None
               end)
  | (w', Raise _) => (w', Ret None)
  end.

Fixpoint voice_entries (ps : list FsPath) : M (list VoiceInfo) :=
  match ps with
  | [] => mret []
  | p :: ps' =>
      v ← voice_entry p;
      vs ← voice_entries ps';
      mret (match v with Some i => i :: vs | None => vs end)
  end.

Definition list_voices : M (list VoiceInfo) :=
  w ← get_world;
  voice_entries (List.filter is_voice_file (map fst (map_to_list (fs w)))).

(** *** Lines 236-248 *)
Definition delete_voice (voice_name : string) : M DeleteResponse :=
  let voice_path := resolve (joinpath VOICES_DIR (voice_name +:+ ".wav")) in
  present ← path_exists voice_path;
  if present : bool then
    try_except
      (unlink voice_path;;
       mret {| del_success := true;
               del_message := "Voice '" +:+ voice_name +:+ "' deleted" |})
      (fun e => raise (HTTPException 500 ("Failed to delete voice: " +:+ str_exn e)))
  else raise (HTTPException 404 ("Voice '" +:+ voice_name +:+ "' not found")).

(** *** The application: one handler per route *)
Definition handle (rq : Request) : M Response :=
  match rq with
  | GetRoot => r ← root; mret (RespRoot r)
  | PostUploadVoice file voice_name => r ← upload_voice file voice_name; mret (RespUpload r)
  | PostGenerate text voice_name exaggeration cfg_weight =>
      r ← generate_tts text voice_name exaggeration cfg_weight; mret (RespFile r)
  | GetVoices => r ← list_voices; mret (RespVoices r)
  | DeleteVoice voice_name => r ← delete_voice voice_name; mret (RespDelete r)
  end.

(** Requests served one after the other, with each one's outcome. *)
Fixpoint serve (rqs : list Request) (w : World) : World * list (result Response) :=
  match rqs with
  | [] => (w, [])
  | rq :: rqs' =>
      let '(w1, r) := handle rq w in
      let '(w2, rs) := serve rqs' w1 in
      (w2, r :: rs)
  end.

(** The process from its start: [tts_model = None], then the start-up
    hook, then the requests. *)
Definition boot (disk : gmap FsPath FileData) : World :=
  fst (startup_event {| tts_model := None; fs := disk; log := [] |}).

End Server.

(** ** A concrete deployment, for evaluating the handlers *)

(** [round(x, 2)] on a float: the decimal with two places nearest to
    [x], ties to the even one, and then the float nearest to that
    decimal. *)
Definition py_round2 (x : float) : float :=
  match Prim2SF x with
  | S754_finite s m e =>
      if 0 <=? e then x
      else
        let n := Z.pos m * 100 in
        let d := Z.shiftl 1 (- e) in
        let q := n / d in
        let r2 := 2 * (n mod d) in
        let q' := if r2 <? d then q
                  else if d <? r2 then q + 1
                  else if Z.even q then q else q + 1 in
        match q' with
        | Z.pos h => SF2Prim (SFdiv prec emax (S754_finite s h 0) (S754_finite false 100 0))
        | _ => if s then (-0)%float else 0%float
        end
  | _ => x
  end.

(** A sample as a 16-bit file gives it back: scaled by 2^31, rounded to
    an integer (ties to even), cut to its upper 16 bits, clipped, and
    divided by 2^15. *)
Definition pcm16_clip (x : float) : float :=
  match Prim2SF x with
  | S754_finite s m e =>
      let k := e + 31 in
      let a := if 0 <=? k then Z.shiftl (Z.pos m) k
               else
                 let d := Z.shiftl 1 (- k) in
                 let q := Z.pos m / d in
                 let r2 := 2 * (Z.pos m mod d) in
                 if r2 <? d then q
                 else if d <? r2 then q + 1
                 else if Z.even q then q else q + 1 in
      let v := if s then - a else a in
      PrimFloat.div (float_of_Z (Z.max (-32768) (Z.min 32767 (Z.shiftr v 16))))
        (float_of_Z 32768)
  | S754_infinity s => PrimFloat.div (float_of_Z (if s then -32768 else 32767)) (float_of_Z 32768)
  | _ => 0%float
  end.

(** Both devices load; the engine answers every text with two samples;
    uploads are headerless unsigned 8-bit mono PCM at 24 kHz, whatever
    the extension (an empty body is not audio). *)
Definition pcm8_decode (b : string) : result (Audio * Z) :=
  if String.eqb b "" then Raise (PyException "LibsndfileError" "Format not recognised.")
  else Ret (Mono (map (fun c => PrimFloat.div
                                  (float_of_Z (Z.of_N (N_of_ascii c) - 128))
                                  (float_of_Z 128))
                      (list_ascii_of_string b)), 24000).

Definition lab (loads : Device -> bool) : Externals :=
  {| CHATTERBOX_AVAILABLE := true;
     SCIPY_AVAILABLE := true;
     cwd := ["srv"; "tts"];
     from_pretrained := fun d =>
       if loads d then Ret {| model_device := d; model_sr := 24000 |}
       else Raise (PyException "RuntimeError" "device not available");
     model_generate := fun _ _ _ _ _ => Ret [0x1p-2%float; (-0x1p-2)%float];
     signal_resample := index_resample;
     sf_decode := fun _ => pcm8_decode;
     pcm16 := pcm16_clip;
     ta_encode := fun wav sr => Ret (WavFile wav sr);
     round2 := py_round2 |}.

Definition lab_ready : Externals := lab (fun _ => true).
Definition lab_failed : Externals := lab (fun _ => false).

Definition upload_of (name body : string) : UploadFile :=
  {| filename := Some name; read_outcome := Ret body |}.

(** The same deployment with an engine that raises on every text, and
    with an encoder that cannot write. *)
Definition lab_engine_down : Externals :=
  {| CHATTERBOX_AVAILABLE := true;
     SCIPY_AVAILABLE := true;
     cwd := ["srv"; "tts"];
     from_pretrained := from_pretrained lab_ready;
     model_generate := fun _ _ _ _ _ => Raise (PyException "RuntimeError" "CUDA out of memory");
     signal_resample := index_resample;
     sf_decode := fun _ => pcm8_decode;
     pcm16 := pcm16_clip;
     ta_encode := ta_encode lab_ready;
     round2 := py_round2 |}.

Definition lab_encoder_down : Externals :=
  {| CHATTERBOX_AVAILABLE := true;
     SCIPY_AVAILABLE := true;
     cwd := ["srv"; "tts"];
     from_pretrained := from_pretrained lab_ready;
     model_generate := model_generate lab_ready;
     signal_resample := index_resample;
     sf_decode := fun _ => pcm8_decode;
     pcm16 := pcm16_clip;
     ta_encode := fun _ _ => Raise (PyException "RuntimeError" "Couldn't open the output file");
     round2 := py_round2 |}.

(** The same deployment without the chatterbox package: the import at
    the top of the module failed. *)
Definition lab_no_package : Externals :=
  {| CHATTERBOX_AVAILABLE := false;
     SCIPY_AVAILABLE := true;
     cwd := ["srv"; "tts"];
     from_pretrained := from_pretrained lab_ready;
     model_generate := model_generate lab_ready;
     signal_resample := index_resample;
     sf_decode := fun _ => pcm8_decode;
     pcm16 := pcm16_clip;
     ta_encode := ta_encode lab_ready;
     round2 := py_round2 |}.

(** The model the lab loads on [cuda], and what its upload of "abc"
    decodes and converts to. *)
Definition lab_model : Model := {| model_device := cuda; model_sr := 24000 |}.
Definition abc_audio : Audio :=
  Mono [(-0x1.fp-3)%float; (-0x1.ep-3)%float; (-0x1.dp-3)%float].
Definition abc_converted : list float :=
  [(-0x1.b333333333333p-1)%float; (-0x1.a5294a5294a53p-1)%float;
   (-0x1.971f6171f6172p-1)%float].

(** ** Vocabulary of the statements *)

(** The file a voice name stands for. *)
Definition voice_file (X : Externals) (voice_name : string) : FsPath :=
  resolve X (joinpath VOICES_DIR (voice_name +:+ ".wav")).

(** The devices [from_pretrained] was called with, in order. *)
Definition load_attempts (w : World) : list Device :=
  omap (fun e => match e with EvLoad d => Some d | _ => None end) (log w).

(** How often the engine was asked to synthesise. *)
Definition synth_calls (w : World) : nat := length (List.filter is_synth (log w)).

(** The answer of a handler that finds no model. *)
Definition model_not_loaded : exn := HTTPException 503 "TTS model not loaded".

(** An event a handler may emit: no model load, and only files in the
    temporary directory or files satisfying [Q]. *)
Definition allowed_on (Q : FsPath -> Prop) (e : Event) : Prop :=
  is_load e = false /\ forall p, In p (touched e) -> Q p \/ in_tmpdir p = true.

(** [footprint Q w w']: from [w] to [w'] the global model is untouched,
    the log only grew, and every new event is allowed on [Q]. *)
Definition footprint (Q : FsPath -> Prop) (w w' : World) : Prop :=
  tts_model w' = tts_model w
  /\ exists evs, log w' = log w ++ evs /\ Forall (allowed_on Q) evs.

(** [m] stays within the footprint from every world. *)
Definition respects (Q : FsPath -> Prop) {A} (m : M A) : Prop :=
  forall w, footprint Q w (fst (m w)).

(** [m] returns only values that satisfy [P]. *)
Definition returns {A} (P : A -> Prop) (m : M A) : Prop :=
  forall w a, snd (m w) = Ret a -> P a.

(** From [w] to [w'] the log only grew, and every file touched since
    lies in the temporary directory or satisfies [Q]. *)
Definition only_touches (Q : FsPath -> Prop) (w w' : World) : Prop :=
  exists evs,
    log w' = log w ++ evs
    /\ forall e p, In e evs -> In p (touched e) -> Q p \/ in_tmpdir p = true.

(** A temporary file of the request that starts in [w]: it lies in
    the temporary directory and was not there when the request began. *)
Definition own_tmp (w : World) (p : FsPath) : Prop :=
  in_tmpdir p = true /\ fs w !! p = None.

(** A file the request that starts in [w] may use: the file [vf], or a
    temporary file of its own. *)
Definition owned (vf : FsPath) (w : World) (p : FsPath) : Prop :=
  p = vf \/ own_tmp w p.

(** From [w] to [w'] the request kept to the file [vf] and to temporary
    files of its own: the log only grew, every file touched since is
    [vf] or such a temporary file, and every other file is on disk as it
    was. *)
Definition keeps_to (vf : FsPath) (w w' : World) : Prop :=
  (exists evs,
      log w' = log w ++ evs
      /\ forall e p, In e evs -> In p (touched e) -> owned vf w p)
  /\ (forall q, q <> vf -> ~ own_tmp w q -> fs w' !! q = fs w !! q).

(** [m], run in a world that a request has reached from [w0] while
    keeping to [vf], leaves such a world. *)
Definition stays (vf : FsPath) (w0 : World) {A} (m : M A) : Prop :=
  forall w, keeps_to vf w0 w -> keeps_to vf w0 (fst (m w)).

(** There, [m] returns only values that satisfy [P]. *)
Definition yields (vf : FsPath) (w0 : World) {A} (P : A -> Prop) (m : M A) : Prop :=
  forall w a, keeps_to vf w0 w -> snd (m w) = Ret a -> P a.

(** The request kept to the voices directory (and to its temporary
    files). *)
Definition confined (X : Externals) (w w' : World) : Prop :=
  only_touches (fun p => inside_voices (cwd X) p = true) w w'.

(** What [tts_model] holds once [startup_event] is over. *)
Definition startup_model (X : Externals) : option Model :=
  if CHATTERBOX_AVAILABLE X then
    match from_pretrained X cuda with
    | Ret m => Some m
    | Raise e =>
        if is_Exception e then
          match from_pretrained X cpu with
          | Ret m => Some m
          | Raise _ => None
          end
        else None
    end
  else None.

(** The loads [startup_event] attempts, in order. *)
Definition startup_attempts (X : Externals) : list Device :=
  if CHATTERBOX_AVAILABLE X then
    match from_pretrained X cuda with
    | Ret _ => [cuda]
    | Raise e => if is_Exception e then [cuda; cpu] else [cuda]
    end
  else [].

(** A voice name made of dots only, the empty one included: the file
    name [<name>.wav] then has no extension for [os.path.splitext]. *)
Fixpoint only_dots (s : string) : bool :=
  match s with
  | EmptyString => true
  | String c s' => Ascii.eqb c "." && only_dots s'
  end.

(** A voice name that is the name of one file in the voices directory:
    no separator, no zero byte, and [<name>.wav] within [NAME_MAX]. *)
Definition plain_name (voice_name : string) : bool :=
  negb (contains "/" voice_name) && negb (contains NUL voice_name)
  && (utf8_length voice_name + 4 <=? NAME_MAX)%nat.

(** What the [try] block of [upload_voice] computes from the request
    body before it stores anything: read, decode as a file with the
    extension [ext], convert. *)
Definition upload_pipeline (X : Externals) (file : UploadFile) (ext : string)
  : result (list float) :=
  match read_outcome file with
  | Raise e => Raise e
  | Ret content =>
      match sf_decode X ext content with
      | Raise e => Raise e
      | Ret (audio_data, original_sr) =>
          convert_to_voice_format (SCIPY_AVAILABLE X) (signal_resample X)
            audio_data original_sr 24000
      end
  end.

(** What keeps the [try] block of [upload_voice] from storing the
    voice, if anything: a failure to read, decode or convert, or a file
    name that [sf.write] refuses. *)
Definition upload_failure (X : Externals) (file : UploadFile) (ext voice_name : string)
  : option exn :=
  match upload_pipeline X file ext with
  | Raise e => Some e
  | Ret _ => sf_write_error (joinpath VOICES_DIR (voice_name +:+ ".wav"))
  end.

(** What the caller of a handler's [try ... except Exception] sees when
    the block raised [e]: the handler's 500, or [e] itself when [e] is
    not an [Exception]. *)
Definition wrapped (prefix : string) (e : exn) : exn :=
  if is_Exception e then HTTPException 500 (prefix +:+ str_exn e) else e.

(** The voice file [generate_tts] looks for: none when no name, or an
    empty one, is given. *)
Definition reference_path (X : Externals) (voice_name : option string) : option FsPath :=
  match voice_name with
  | Some name => if String.eqb name "" then None else Some (voice_file X name)
  | None => None
  end.

(** The entry [list_voices] makes for the file at [p] on the disk [f]:
    none when the file cannot be read or its sample rate is 0. *)
Definition voice_info (X : Externals) (f : gmap FsPath FileData) (p : FsPath)
  : option VoiceInfo :=
  match
    match f !! p with
    | None => Raise (PyException "LibsndfileError" "Error opening file: System error.")
    | Some (RawBytes b) => sf_decode X (splitext_ext (List.last p "")) b
    | Some (WavFile s sr) => Ret (Mono s, sr)
    end
  with
  | Ret (audio_data, sr) =>
      match py_truediv (Z.of_nat (audio_len audio_data)) sr with
      | Ret duration =>
          Some {| vi_name := name_stem (List.last p "");
                  vi_duration_seconds := round2 X duration;
                  vi_sample_rate := sr |}
      | Raise _ => None
      end
  | Raise _ => None
  end.

(** The files [VOICES_DIR.glob("*.wav")] yields. *)
Definition voice_paths (X : Externals) (w : World) : list FsPath :=
  List.filter (is_voice_file X) (map fst (map_to_list (fs w))).

(** * The Stable Diffusion client, [src/generate_image.py] *)

(** ** Characters and strings

    A character is a code point below 256; [isalnum] and [isspace] are
    Python's [str.isalnum] and [str.isspace] on that range. *)

Definition in_range (lo hi : nat) (c : ascii) : bool :=
  (lo <=? nat_of_ascii c)%nat && (nat_of_ascii c <=? hi)%nat.

Definition isalnum (c : ascii) : bool :=
  in_range 48 57 c || in_range 65 90 c || in_range 97 122 c
  || in_range 170 170 c || in_range 178 179 c || in_range 181 181 c
  || in_range 185 186 c || in_range 188 190 c || in_range 192 214 c
  || in_range 216 246 c || in_range 248 255 c.

Definition isspace (c : ascii) : bool :=
  in_range 9 13 c || in_range 28 32 c || in_range 133 133 c || in_range 160 160 c.

(** ["".join(c for c in s if keep(c))] *)
Fixpoint str_filter (keep : ascii -> bool) (s : string) : string :=
  match s with
  | EmptyString => EmptyString
  | String c s' => if keep c then String c (str_filter keep s') else str_filter keep s'
  end.

(** [s.rstrip()] *)
Fixpoint rstrip (s : string) : string :=
  match s with
  | EmptyString => EmptyString
  | String c s' =>
      match rstrip s' with
      | EmptyString => if isspace c then EmptyString else String c EmptyString
      | t => String c t
      end
  end.

(** [s.rstrip(c)] for a single character [c] *)
Fixpoint rstrip_char (c : ascii) (s : string) : string :=
  match s with
  | EmptyString => EmptyString
  | String a s' =>
      match rstrip_char c s' with
      | EmptyString => if Ascii.eqb a c then EmptyString else String a EmptyString
      | t => String a t
      end
  end.

(** [s.startswith(c)], [s.endswith(c)] for a single character *)
Definition startswith (c : ascii) (s : string) : bool :=
  match s with
  | String a _ => Ascii.eqb a c
  | EmptyString => false
  end.

Fixpoint endswith (c : ascii) (s : string) : bool :=
  match s with
  | EmptyString => false
  | String a EmptyString => Ascii.eqb a c
  | String _ s' => endswith c s'
  end.

(** The test of line 220: [c.isalnum() or c in (' ', '-', '_')]. *)
Definition keeps (c : ascii) : bool :=
  isalnum c || Ascii.eqb c " " || Ascii.eqb c "-" || Ascii.eqb c "_".

(** Line 220. *)
Definition safe_prompt (prompt_prefix : string) : string :=
  rstrip (str_filter keeps prompt_prefix).

(** [f"{n:03d}"] for a count [n]: decimal, padded with zeros to three
    digits. *)
Definition format_03d (n : nat) : string :=
  string_of_list_ascii (repeat "0"%char (3 - String.length (pretty n))) +:+ pretty n.

(** Line 221, for the image at index [i]. *)
Definition image_filename (prompt_prefix : string) (i : nat) : string :=
  safe_prompt prompt_prefix +:+ "_" +:+ format_03d (i + 1) +:+ ".png".

(** [os.path.join(a, b)] on a POSIX host. *)
Definition os_path_join (a b : string) : string :=
  if startswith "/" b then b
  else if String.eqb a "" || endswith "/" a then a +:+ b
  else a +:+ "/" +:+ b.

(** ** Saving the images *)

(** A decoded picture, as [PIL.Image.open] gives it. *)
Record Image : Type := {
  img_width : Z;
  img_height : Z;
  img_pixels : string
}.

(** What the client does not define itself: the process directory,
    [os.makedirs(output_dir, exist_ok=True)], [base64.b64decode]
    followed by [Image.open], and the PNG encoder behind [image.save],
    which either raises, leaving no file, or gives the bytes that are
    written.  What [print] writes to the terminal is left out. *)
Record ImageLib : Type := {
  image_cwd : FsPath;
  makedirs : string -> result unit;
  image_open : string -> result Image;
  png_encode : Image -> result FileData
}.

Section SaveImages.

Variable Y : ImageLib.

(** [image.save(filepath, "PNG")] *)
Definition image_save (image : Image) (filepath : string) : M unit :=
  data ← lift (png_encode Y image);
  write_file (os_resolve (image_cwd Y) (Path filepath)) data.

(** Lines 214-230: one turn of the loop, at index [i]. *)
Definition save_image (output_dir prompt_prefix : string) (i : nat)
    (base64_image : string) (saved_paths : list string) : M (list string) :=
  try_except
    (image ← lift (image_open Y base64_image);
     let filename := image_filename prompt_prefix i in
     let filepath := os_path_join output_dir filename in
     image_save image filepath;;
     mret (saved_paths ++ [filepath]))
    (fun e => mret saved_paths).

(** Lines 213-230: [for i, base64_image in enumerate(base64_images)]. *)
Fixpoint save_loop (output_dir prompt_prefix : string) (i : nat)
    (base64_images : list string) (saved_paths : list string) : M (list string) :=
  match base64_images with
  | [] => mret saved_paths
  | base64_image :: rest =>
      saved_paths' ← save_image output_dir prompt_prefix i base64_image saved_paths;
      save_loop output_dir prompt_prefix (S i) rest saved_paths'
  end.

(** Lines 198-232. *)
Definition _save_images (base64_images : list string) (output_dir prompt_prefix : string)
  : M (list string) :=
  lift (makedirs Y output_dir);;
  save_loop output_dir prompt_prefix 0 base64_images [].

End SaveImages.

(** Every character of [s] passes [f]. *)
Fixpoint all_chars (f : ascii -> bool) (s : string) : bool :=
  match s with
  | EmptyString => true
  | String c s' => f c && all_chars f s'
  end.

(** A decimal digit. *)
Definition is_digit (c : ascii) : bool := in_range 48 57 c.

(** The characters a file name of [_save_images] is made of. *)
Definition filename_char (c : ascii) : bool := keeps c || Ascii.eqb c ".".

(** Where the image at index [i] is saved. *)
Definition image_path (output_dir prompt_prefix : string) (i : nat) : string :=
  os_path_join output_dir (image_filename prompt_prefix i).

(** Whether [base64_image] gets through lines 216-225: it decodes and
    opens, and the picture is saved. *)
Definition saves_image (Y : ImageLib) (base64_image : string) : bool :=
  match image_open Y base64_image with
  | Ret image => match png_encode Y image with Ret _ => true | Raise _ => false end
  | Raise _ => false
  end.

(** The indexes, counted from [i], of the images that get through. *)
Fixpoint saved_positions (Y : ImageLib) (i : nat) (base64_images : list string) : list nat :=
  match base64_images with
  | [] => []
  | base64_image :: rest =>
      (if saves_image Y base64_image then [i] else []) ++ saved_positions Y (S i) rest
  end.

(** The file behind the path of the image at index [i]. *)
Definition image_file (Y : ImageLib) (output_dir prompt_prefix : string) (i : nat) : FsPath :=
  os_resolve (image_cwd Y) (Path (image_path output_dir prompt_prefix i)).

(** A picture library for evaluating [_save_images]: the empty string
    is no picture, every other string is a picture of one pixel. *)
Definition studio : ImageLib :=
  {| image_cwd := ["srv"];
     makedirs := fun _ => Ret tt;
     image_open := fun b =>
       if String.eqb b "" then
         Raise (PyException "UnidentifiedImageError" "cannot identify image file")
       else Ret {| img_width := 1; img_height := 1; img_pixels := b |};
     png_encode := fun image => Ret (RawBytes (img_pixels image)) |}.

(** ** The constructor *)

(** Line 17: [self.base_url = base_url.rstrip('/')]. *)
Definition init_base_url (base_url : string) : string := rstrip_char "/" base_url.

(** [c * k] for a character [c]. *)
Definition str_repeat (c : ascii) (k : nat) : string := string_of_list_ascii (repeat c k).

(** ** The request payload *)

(** The values the payload is made of. *)
#[local] Unset Elimination Schemes.
Inductive json : Type :=
| JNone
| JBool (b : bool)
| JInt (z : Z)
| JFloat (x : float)
| JStr (s : string)
| JList (items : list json)
| JDict (entries : list (string * json)).
#[local] Set Elimination Schemes.

(** A [dict] keeps its keys in the order of their first assignment. *)
Fixpoint dict_get (key : string) (d : list (string * json)) : option json :=
  match d with
  | [] => None
  | (k, v) :: rest => if String.eqb k key then Some v else dict_get key rest
  end.

Fixpoint dict_set (key : string) (v : json) (d : list (string * json)) : list (string * json) :=
  match d with
  | [] => [(key, v)]
  | (k, v') :: rest =>
      if String.eqb k key then (k, v) :: rest else (k, v') :: dict_set key v rest
  end.

(** [float(z)] for any Python int: the nearest float, ties to even. *)
Definition py_float (z : Z) : result float :=
  let x := SF2Prim (binary_normalize prec emax z 0 false) in
  match Prim2SF x with
  | S754_infinity _ => Raise (PyException "OverflowError" "int too large to convert to float")
  | _ => Ret x
  end.

(** Lines 97-98: [int(width * hr_scale)]. *)
Definition hr_resize (side : Z) (hr_scale : float) : result Z :=
  match py_float side with
  | Ret x => py_int (PrimFloat.mul x hr_scale)
  | Raise e => Raise e
  end.

(** Lines 112-147: the settings of the first model. *)
Definition first_model_args (ad_model : string) : json :=
  JDict [("ad_model", JStr ad_model);
         ("ad_prompt", JStr "");
         ("ad_negative_prompt", JStr "");
         ("ad_confidence", JFloat 0x1.3333333333333p-2);
         ("ad_mask_k_largest", JInt 0);
         ("ad_mask_min_ratio", JFloat 0);
         ("ad_mask_max_ratio", JFloat 1);
         ("ad_dilate_erode", JInt 4);
         ("ad_x_offset", JInt 0);
         ("ad_y_offset", JInt 0);
         ("ad_mask_merge_invert", JStr "None");
         ("ad_mask_blur", JInt 4);
         ("ad_denoising_strength", JFloat 0x1.999999999999ap-2);
         ("ad_inpaint_only_masked", JBool true);
         ("ad_inpaint_only_masked_padding", JInt 32);
         ("ad_use_inpaint_width_height", JBool false);
         ("ad_inpaint_width", JInt 832);
         ("ad_inpaint_height", JInt 1216);
         ("ad_use_steps", JBool false);
         ("ad_steps", JInt 28);
         ("ad_use_cfg_scale", JBool false);
         ("ad_cfg_scale", JFloat 7);
         ("ad_use_sampler", JBool false);
         ("ad_sampler", JStr "DPM++ 2M");
         ("ad_use_noise_multiplier", JBool false);
         ("ad_noise_multiplier", JFloat 1);
         ("ad_use_clip_skip", JBool false);
         ("ad_clip_skip", JInt 1);
         ("ad_restore_face", JBool false);
         ("ad_controlnet_model", JStr "None");
         ("ad_controlnet_module", JStr "None");
         ("ad_controlnet_weight", JFloat 1);
         ("ad_controlnet_guidance_start", JFloat 0);
         ("ad_controlnet_guidance_end", JFloat 1)].

(** Lines 153-167: the settings of a further model. *)
Definition extra_model_args (model : string) : json :=
  JDict [("ad_model", JStr model);
         ("ad_prompt", JStr "");
         ("ad_negative_prompt", JStr "");
         ("ad_confidence", JFloat 0x1.3333333333333p-2);
         ("ad_mask_blur", JInt 4);
         ("ad_denoising_strength", JFloat 0x1.999999999999ap-2);
         ("ad_inpaint_only_masked", JBool true);
         ("ad_inpaint_only_masked_padding", JInt 32);
         ("ad_use_inpaint_width_height", JBool false);
         ("ad_use_steps", JBool false);
         ("ad_use_cfg_scale", JBool false);
         ("ad_use_sampler", JBool false);
         ("ad_restore_face", JBool false)].

(** Lines 150-167: [for i, model in enumerate(adetailer_models[1:], 1)],
    entered at index [i] with the models still to come. *)
Fixpoint more_models (i : nat) (models : list string) (adetailer_args : list json)
  : list json :=
  match models with
  | [] => adetailer_args
  | model :: rest =>
      if (3 <=? i)%nat then adetailer_args
      else more_models (S i) rest (adetailer_args ++ [extra_model_args model])
  end.

(** Lines 106-167. *)
Definition adetailer_args (adetailer_models : list string) : result (list json) :=
  match adetailer_models with
  | [] => Raise (PyException "IndexError" "list index out of range")
  | first :: rest =>
      Ret (more_models 1 rest ([JBool true; JBool false] ++ [first_model_args first]))
  end.

(** The arguments of [generate_hires_image]. *)
Record HiResArgs : Type := {
  prompt : string;
  negative_prompt : string;
  width : Z;
  height : Z;
  hr_scale : float;
  hr_upscaler : string;
  steps : Z;
  hr_second_pass_steps : Z;
  cfg_scale : float;
  hr_cfg : float;
  sampler_name : string;
  scheduler : string;
  seed : Z;
  batch_size : Z;
  save_images : bool;
  output_dir : string;
  denoising_strength : float;
  use_adetailer : bool;
  adetailer_models : option (list string)
}.

(** Lines 70-173: the payload of the request. *)
Definition build_payload (a : HiResArgs) : result (list (string * json)) :=
  let models := match adetailer_models a with
                | None => ["face_yolov8n.pt"]
                | Some models => models
                end in
  match hr_resize (width a) (hr_scale a) with
  | Raise e => Raise e
  | Ret hr_resize_x =>
      match hr_resize (height a) (hr_scale a) with
      | Raise e => Raise e
      | Ret hr_resize_y =>
          let payload :=
            [("prompt", JStr (prompt a));
             ("negative_prompt", JStr (negative_prompt a));
             ("width", JInt (width a));
             ("height", JInt (height a));
             ("steps", JInt (steps a));
             ("cfg_scale", JFloat (cfg_scale a));
             ("sampler_name", JStr (sampler_name a));
             ("scheduler", JStr (scheduler a));
             ("seed", JInt (seed a));
             ("batch_size", JInt (batch_size a));
             ("n_iter", JInt 1);
             ("enable_hr", JBool true);
             ("hr_scale", JFloat (hr_scale a));
             ("hr_upscaler", JStr (hr_upscaler a));
             ("hr_second_pass_steps", JInt (hr_second_pass_steps a));
             ("hr_cfg", JFloat (hr_cfg a));
             ("hr_additional_modules", JList [JStr "Use same choices"]);
             ("denoising_strength", JFloat (denoising_strength a));
             ("hr_resize_x", JInt hr_resize_x);
             ("hr_resize_y", JInt hr_resize_y);
             ("send_images", JBool true);
             ("save_images", JBool false)] in
          if use_adetailer a then
            match adetailer_args models with
            | Raise e => Raise e
            | Ret args =>
                Ret (dict_set "alwayson_scripts"
                       (JDict [("ADetailer", JDict [("args", JList args)])]) payload)
            end
          else Ret payload
      end
  end.

(** The call [generate_hires_image(prompt)], every other argument left
    to its default (lines 22-40). *)
Definition default_args (prompt : string) : HiResArgs :=
  {| prompt := prompt;
     negative_prompt := "";
     width := 832;
     height := 1216;
     hr_scale := 0x1.8p+0;
     hr_upscaler := "remacri_original";
     steps := 30;
     hr_second_pass_steps := 15;
     cfg_scale := 7;
     hr_cfg := 5;
     sampler_name := "DPM++ 2M";
     scheduler := "Karras";
     seed := -1;
     batch_size := 1;
     save_images := true;
     output_dir := "output";
     denoising_strength := 0x1.6666666666666p-1;
     use_adetailer := true;
     adetailer_models := None |}.

(** The same call with other ADetailer settings. *)
Definition with_adetailer (use : bool) (models : option (list string)) (a : HiResArgs)
  : HiResArgs :=
  {| prompt := prompt a;
     negative_prompt := negative_prompt a;
     width := width a;
     height := height a;
     hr_scale := hr_scale a;
     hr_upscaler := hr_upscaler a;
     steps := steps a;
     hr_second_pass_steps := hr_second_pass_steps a;
     cfg_scale := cfg_scale a;
     hr_cfg := hr_cfg a;
     sampler_name := sampler_name a;
     scheduler := scheduler a;
     seed := seed a;
     batch_size := batch_size a;
     save_images := save_images a;
     output_dir := output_dir a;
     denoising_strength := denoising_strength a;
     use_adetailer := use;
     adetailer_models := models |}.

(** * Properties of the normaliser *)

Lemma resample_step_same_rate scipy rs (a : list float) (rate : Z) :
  resample_step scipy rs a rate rate = Ret a.
Proof.
  unfold resample_step. now rewrite Z.eqb_refl.
Qed.

Lemma resample_step_no_scipy rs (a : list float) (sr target : Z) :
  resample_step false rs a sr target = Ret a.
Proof.
  unfold resample_step. now rewrite andb_false_r.
Qed.


Lemma peak_normalize_empty : peak_normalize [] = Raise empty_max_error.
Proof. reflexivity. Qed.

(** A successful peak normalisation keeps the sample count. *)
Lemma peak_normalize_length (a out : list float) :
  peak_normalize a = Ret out -> length out = length a.
Proof.
  unfold peak_normalize.
  destruct (np_max (np_abs a)) as [peak | e]; [ | discriminate].
  destruct (PrimFloat.ltb 0 peak); intros [= <-]; [apply length_map | reflexivity].
Qed.

(** On at least one sample it does succeed. *)
Lemma peak_normalize_returns (a : list float) :
  a <> [] -> exists out, peak_normalize a = Ret out /\ length out = length a.
Proof.
  intros Hne. destruct a as [ | x xs]; [contradiction | ].
  unfold peak_normalize. cbn [np_abs map np_max].
  destruct (PrimFloat.ltb 0 _); eexists; split; try reflexivity.
  cbn [length]. now rewrite length_map.
Qed.

(** Each sample is multiplied by [0.85 / peak] when the peak is
    positive, and left as it is otherwise. *)
Lemma peak_normalize_scales (x : float) (xs : list float) :
  let peak := fold_left np_maximum (np_abs xs) (PrimFloat.abs x) in
  peak_normalize (x :: xs) =
  Ret (if PrimFloat.ltb 0 peak
       then map (fun s => PrimFloat.mul s (PrimFloat.div peak_target peak)) (x :: xs)
       else x :: xs).
Proof.
  intros peak. subst peak. unfold peak_normalize, np_max, np_abs. cbn [map].
  destruct (PrimFloat.ltb 0 _); reflexivity.
Qed.

Lemma to_mono_length (a : Audio) : length (to_mono a) = audio_len a.
Proof. destruct a; [reflexivity | apply length_map]. Qed.

(** Channel reduction: one output sample per time index, the mean of
    that index's channel values; the rest of the pipeline sees only it. *)
Lemma convert_multi_is_convert_of_means scipy rs (frames : list (list float)) (sr target : Z) :
  to_mono (Multi frames) = map row_mean frames
  /\ convert_to_voice_format scipy rs (Multi frames) sr target =
     convert_to_voice_format scipy rs (Mono (map row_mean frames)) sr target.
Proof. split; reflexivity. Qed.

(** Two channels: the sum is built up from zero, so that the mean of
    two negative zeros is the positive zero. *)
Lemma row_mean_stereo (l r : float) :
  row_mean [l; r]
  = PrimFloat.div
      (PrimFloat.add 0%float (PrimFloat.add (PrimFloat.add 0%float l) r)) 2%float.
Proof. reflexivity. Qed.

(** At the target rate a multi-channel input with at least one frame
    comes back mono, one sample per frame: the channel means, scaled by
    the peak factor. *)
Lemma convert_multi_same_rate scipy rs (frames : list (list float)) (target : Z) :
  frames <> [] ->
  exists out,
    convert_to_voice_format scipy rs (Multi frames) target target = Ret out
    /\ peak_normalize (map row_mean frames) = Ret out
    /\ length out = length frames.
Proof.
  intros Hne. unfold convert_to_voice_format. rewrite resample_step_same_rate.
  destruct (peak_normalize_returns (to_mono (Multi frames))) as (out & Hout & Hlen).
  - destruct frames; [contradiction | discriminate].
  - exists out. repeat split; [exact Hout | exact Hout | ].
    rewrite Hlen. apply to_mono_length.
Qed.

(** C3, as the code has it. Without SciPy the resampling step is
    skipped whatever the two rates are: the result is the peak-normalised
    mono audio, never an error about a missing capability, and on a
    non-empty input it has the input's own number of samples. *)
Theorem convert_without_scipy_skips_resampling :
  forall rs (a : Audio) (sr target : Z),
    convert_to_voice_format false rs a sr target = peak_normalize (to_mono a)
    /\ (audio_len a <> 0%nat ->
        exists out, convert_to_voice_format false rs a sr target = Ret out
                    /\ length out = audio_len a).
Proof.
  intros rs a sr target.
  assert (Heq : convert_to_voice_format false rs a sr target = peak_normalize (to_mono a)).
  { unfold convert_to_voice_format. now rewrite resample_step_no_scipy. }
  split; [exact Heq | ].
  intros Hlen. rewrite Heq.
  destruct (peak_normalize_returns (to_mono a)) as (out & Hout & Hl).
  - intros Hnil. apply Hlen. rewrite <- to_mono_length, Hnil. reflexivity.
  - exists out. split; [exact Hout | ]. rewrite Hl. apply to_mono_length.
Qed.

Lemma convert_without_scipy_skips_resampling_witness :
  exists out,
    convert_to_voice_format false index_resample
      (Mono [0x1p-1%float; (-0x1p-2)%float]) 48000 24000 = Ret out
    /\ length out = 2%nat.
Proof.
  apply (proj2 (convert_without_scipy_skips_resampling index_resample
                  (Mono [0x1p-1%float; (-0x1p-2)%float]) 48000 24000)).
  discriminate.
Defined.

(** C3 as stated fails: a 48 kHz input, no SciPy, target 24 kHz; the
    call returns the two samples, peak-scaled and not resampled, and
    raises nothing. *)
Lemma convert_without_scipy_returns_audio :
  48000 <> 24000
  /\ convert_to_voice_format false index_resample
       (Mono [0x1p-1%float; (-0x1p-2)%float]) 48000 24000
     = Ret [0x1.b333333333333p-1%float; (-0x1.b333333333333p-2)%float]
  /\ ~ raises (convert_to_voice_format false index_resample
                 (Mono [0x1p-1%float; (-0x1p-2)%float]) 48000 24000).
Proof.
  split; [discriminate | ]. split; [vm_compute; reflexivity | ].
  vm_compute. tauto.
Qed.

(** C5 at its failing input. A waveform of no samples at the target
    rate: [np.max] of the empty array raises [ValueError]; nothing is
    returned. *)
Theorem convert_zero_length_raises :
  forall scipy rs (target : Z),
    convert_to_voice_format scipy rs (Mono []) target target = Raise empty_max_error.
Proof.
  intros scipy rs target. unfold convert_to_voice_format.
  rewrite resample_step_same_rate. reflexivity.
Qed.

(** C8 at its failing input. A multi-channel file of no frames at the
    target rate: the channel means are an empty array, and [np.max]
    raises on it; no mono waveform of zero samples comes back. *)
Theorem convert_zero_frames_raises :
  forall scipy rs (target : Z),
    to_mono (Multi []) = []
    /\ convert_to_voice_format scipy rs (Multi []) target target = Raise empty_max_error.
Proof.
  intros scipy rs target. split; [reflexivity | ].
  unfold convert_to_voice_format. rewrite resample_step_same_rate. reflexivity.
Qed.






(** * Properties of the handlers *)

(** ** Strings and paths *)

Lemma length_append (a b : string) :
  String.length (a +:+ b) = (String.length a + String.length b)%nat.
Proof. induction a as [ | c a IH]; simpl; [reflexivity | now rewrite IH]. Qed.

Lemma contains_append (c : ascii) (a b : string) :
  contains c (a +:+ b) = contains c a || contains c b.
Proof.
  induction a as [ | x a IH]; simpl; [reflexivity | ].
  rewrite IH. now rewrite orb_assoc.
Qed.

Lemma split_on_no_separator (c : ascii) (s : string) :
  contains c s = false -> split_on c s = [s].
Proof.
  induction s as [ | a s IH]; simpl; [reflexivity | ].
  intros H. apply orb_false_iff in H as [Ha Hs].
  rewrite Ha, (IH Hs). reflexivity.
Qed.

Lemma wav_name_not_special (name : string) :
  String.eqb (name +:+ ".wav") "" = false
  /\ String.eqb (name +:+ ".wav") "." = false
  /\ String.eqb (name +:+ ".wav") ".." = false.
Proof.
  repeat split; apply String.eqb_neq; intros H;
    apply (f_equal String.length) in H; rewrite length_append in H; cbn in H; lia.
Qed.

Lemma path_root_plain (s : string) : contains "/" s = false -> path_root s = "".
Proof.
  destruct s as [ | a s]; [reflexivity | ].
  cbn [contains]. intros H. apply orb_false_iff in H as [Ha _].
  destruct a as [[] [] [] [] [] [] [] []]; try reflexivity. discriminate Ha.
Qed.

Lemma wav_name_relative (name : string) :
  contains "/" name = false ->
  is_absolute (Path (name +:+ ".wav")) = false.
Proof.
  intros H. unfold is_absolute, Path. cbn [anchor].
  rewrite path_root_plain; [reflexivity | ].
  rewrite contains_append, H. reflexivity.
Qed.

(** A name without a separator becomes the single component
    [name.wav] under [voices]. *)
Lemma joinpath_voices_plain (name : string) :
  contains "/" name = false ->
  joinpath VOICES_DIR (name +:+ ".wav")
  = {| anchor := ""; parts := ["voices"; name +:+ ".wav"] |}.
Proof.
  intros H. unfold joinpath. rewrite (wav_name_relative name H).
  change (anchor VOICES_DIR) with "". change (parts VOICES_DIR) with ["voices"].
  unfold Path at 1. cbn [parts app].
  rewrite split_on_no_separator by (rewrite contains_append, H; reflexivity).
  destruct (wav_name_not_special name) as (H0 & H1 & _).
  cbn [List.filter]. rewrite H0, H1. reflexivity.
Qed.

Lemma os_resolve_voices (cwd : FsPath) : os_resolve cwd VOICES_DIR = cwd ++ ["voices"].
Proof. reflexivity. Qed.

Lemma os_resolve_voice_plain (cwd : FsPath) (name : string) :
  contains "/" name = false ->
  os_resolve cwd (joinpath VOICES_DIR (name +:+ ".wav")) = cwd ++ ["voices"; name +:+ ".wav"].
Proof.
  intros H. rewrite (joinpath_voices_plain name H).
  unfold os_resolve, is_absolute. cbn [anchor parts fold_left String.eqb negb].
  unfold step_component at 2. cbn [String.eqb Ascii.eqb Bool.eqb].
  unfold step_component.
  destruct (wav_name_not_special name) as (_ & _ & H2). rewrite H2.
  now rewrite <- app_assoc.
Qed.

Lemma is_prefix_app (a b : list string) : is_prefix a (a ++ b) = true.
Proof.
  induction a as [ | x a IH]; cbn; [reflexivity | ].
  now rewrite String.eqb_refl, IH.
Qed.

Lemma inside_voices_child (cwd : FsPath) (f : string) :
  inside_voices cwd (cwd ++ ["voices"; f]) = true.
Proof.
  unfold inside_voices. rewrite os_resolve_voices.
  replace (cwd ++ ["voices"; f]) with ((cwd ++ ["voices"]) ++ [f])
    by now rewrite <- app_assoc.
  rewrite is_prefix_app. cbn [andb].
  apply Nat.ltb_lt. rewrite !length_app. cbn. lia.
Qed.

Lemma fresh_tmp_spec (f : gmap FsPath FileData) (suffix : string) (p : FsPath) :
  fresh_tmp f suffix = Some p -> in_tmpdir p = true /\ f !! p = None.
Proof.
  unfold fresh_tmp. intros H. apply find_some in H as [Hin Hfree].
  apply in_map_iff in Hin as (n & <- & _). split; [reflexivity | ].
  destruct (f !! tmp_path n suffix); [discriminate | reflexivity].
Qed.

(** ** What a handler may do to the world *)

Lemma footprint_refl Q w : footprint Q w w.
Proof.
  split; [reflexivity | ]. exists []. split; [now rewrite app_nil_r | constructor].
Qed.

Lemma footprint_trans Q a b c : footprint Q a b -> footprint Q b c -> footprint Q a c.
Proof.
  intros (Hm1 & e1 & Hl1 & Hf1) (Hm2 & e2 & Hl2 & Hf2). split; [congruence | ].
  exists (e1 ++ e2). split.
  - rewrite Hl2, Hl1. now rewrite <- app_assoc.
  - apply Forall_app. split; assumption.
Qed.

Lemma footprint_mono (Q Q' : FsPath -> Prop) w w' :
  (forall p, Q p -> Q' p) -> footprint Q w w' -> footprint Q' w w'.
Proof.
  intros HQ (Hm & evs & Hl & Hf). split; [exact Hm | ].
  exists evs. split; [exact Hl | ].
  eapply Forall_impl; [exact Hf | ].
  intros e (Hload & Hp). split; [exact Hload | ].
  intros p Hin. destruct (Hp p Hin); [left; auto | right; assumption].
Qed.

Lemma footprint_emit Q e w : allowed_on Q e -> footprint Q w (emit e w).
Proof.
  intros H. split; [reflexivity | ]. exists [e]. split; [reflexivity | ].
  constructor; [exact H | constructor].
Qed.

Lemma footprint_set_fs Q f w : footprint Q w (set_fs f w).
Proof.
  split; [reflexivity | ]. exists []. cbn. split; [now rewrite app_nil_r | constructor].
Qed.

Lemma allowed_on_path Q (e : Event) (p : FsPath) :
  is_load e = false -> touched e = [p] -> Q p \/ in_tmpdir p = true -> allowed_on Q e.
Proof.
  intros Hl Ht Hp. split; [exact Hl | ]. rewrite Ht. intros q [<- | []]. exact Hp.
Qed.

Lemma allowed_on_nothing Q (e : Event) :
  is_load e = false -> touched e = [] -> allowed_on Q e.
Proof. intros Hl Ht. split; [exact Hl | ]. rewrite Ht. intros q []. Qed.

Lemma respects_ret Q A (a : A) : respects Q (mret a : M A).
Proof. intros w. apply footprint_refl. Qed.

Lemma respects_raise Q A (e : exn) : respects Q (raise e : M A).
Proof. intros w. apply footprint_refl. Qed.

Lemma respects_lift Q A (r : result A) : respects Q (lift r).
Proof. intros w. apply footprint_refl. Qed.

Lemma respects_get_world Q : respects Q get_world.
Proof. intros w. apply footprint_refl. Qed.

Lemma respects_bind_post Q A B (P : A -> Prop) (m : M A) (k : A -> M B) :
  respects Q m -> returns P m -> (forall a, P a -> respects Q (k a)) ->
  respects Q (m ≫= k).
Proof.
  intros Hm HP Hk w. unfold mbind, M_bind.
  specialize (Hm w). specialize (HP w).
  destruct (m w) as [w1 [a | e]]; cbn in *; [ | exact Hm].
  eapply footprint_trans; [exact Hm | ]. apply Hk. now apply HP.
Qed.

Lemma respects_bind Q A B (m : M A) (k : A -> M B) :
  respects Q m -> (forall a, respects Q (k a)) -> respects Q (m ≫= k).
Proof.
  intros Hm Hk. apply (respects_bind_post Q A B (fun _ => True)); auto.
  intros w a _. exact I.
Qed.

Lemma respects_try_except Q A (body : M A) (handler : exn -> M A) :
  respects Q body -> (forall e, respects Q (handler e)) ->
  respects Q (try_except body handler).
Proof.
  intros Hb Hh w. unfold try_except. specialize (Hb w).
  destruct (body w) as [w1 [a | e]]; cbn in *; [exact Hb | ].
  destruct (is_Exception e); [ | exact Hb].
  eapply footprint_trans; [exact Hb | apply Hh].
Qed.

Lemma respects_try_finally Q A (body : M A) (cleanup : M unit) :
  respects Q body -> respects Q cleanup -> respects Q (try_finally body cleanup).
Proof.
  intros Hb Hc w. unfold try_finally. specialize (Hb w).
  destruct (body w) as [w1 r]. specialize (Hc w1). cbn in *.
  destruct (cleanup w1) as [w2 [[] | e]]; cbn in *;
    eapply footprint_trans; eassumption.
Qed.

(** ** Footprints of the calls to the outside *)

Section Footprints.

Variable X : Externals.
Variable Q : FsPath -> Prop.

Lemma respects_file_read file : respects Q (file_read file).
Proof. intros w. apply footprint_emit. now apply allowed_on_nothing. Qed.

Lemma respects_path_exists p :
  Q p \/ in_tmpdir p = true -> respects Q (path_exists p).
Proof. intros H w. apply footprint_emit. now apply (allowed_on_path Q _ p). Qed.

Lemma respects_unlink p :
  Q p \/ in_tmpdir p = true -> respects Q (unlink p).
Proof.
  intros H w. unfold unlink. destruct (fs w !! p); cbn.
  - eapply footprint_trans; [apply footprint_set_fs | ].
    apply footprint_emit. now apply (allowed_on_path Q _ p).
  - apply footprint_emit. now apply (allowed_on_path Q _ p).
Qed.

Lemma respects_write_file p d :
  Q p \/ in_tmpdir p = true -> respects Q (write_file p d).
Proof.
  intros H w. cbn.
  eapply footprint_trans; [apply footprint_set_fs | ].
  apply footprint_emit. now apply (allowed_on_path Q _ p).
Qed.

Lemma respects_sf_write p data sr :
  Q (resolve X p) \/ in_tmpdir (resolve X p) = true -> respects Q (sf_write X p data sr).
Proof.
  intros H. unfold sf_write.
  destruct (sf_write_error p); [apply respects_raise | now apply respects_write_file].
Qed.

Lemma respects_sf_read p :
  Q p \/ in_tmpdir p = true -> respects Q (sf_read X p).
Proof. intros H w. apply footprint_emit. now apply (allowed_on_path Q _ p). Qed.

Lemma respects_ta_save p wav sr :
  Q p \/ in_tmpdir p = true -> respects Q (ta_save X p wav sr).
Proof.
  intros H. apply respects_bind; [apply respects_lift | intros d].
  now apply respects_write_file.
Qed.

Lemma respects_NamedTemporaryFile suffix : respects Q (NamedTemporaryFile suffix).
Proof.
  intros w. unfold NamedTemporaryFile.
  destruct (tmp_error suffix); [apply footprint_refl | ].
  destruct (fresh_tmp (fs w) suffix) as [p | ] eqn:Hp; cbn; [ | apply footprint_refl].
  apply fresh_tmp_spec in Hp as [Hp _].
  eapply footprint_trans; [apply footprint_set_fs | ].
  apply footprint_emit. apply (allowed_on_path Q _ p); auto.
Qed.

Lemma returns_NamedTemporaryFile suffix :
  returns (fun p => in_tmpdir p = true) (NamedTemporaryFile suffix).
Proof.
  intros w p. unfold NamedTemporaryFile.
  destruct (tmp_error suffix); [discriminate | ].
  destruct (fresh_tmp (fs w) suffix) as [q | ] eqn:Hq; cbn; [ | discriminate].
  intros [= <-]. now apply fresh_tmp_spec in Hq as [Hq _].
Qed.

Lemma respects_synthesize m text prompt e c :
  (forall p, prompt = Some p -> Q p \/ in_tmpdir p = true) ->
  respects Q (synthesize X m text prompt e c).
Proof.
  intros H w. apply footprint_emit. destruct prompt as [p | ].
  - apply (allowed_on_path Q _ p); auto.
  - now apply allowed_on_nothing.
Qed.

End Footprints.

(** ** Footprints of the handlers *)

Lemma upload_voice_footprint X file name :
  respects (eq (voice_file X name)) (upload_voice X file name).
Proof.
  unfold upload_voice.
  apply respects_bind; [apply respects_get_world | intros w0].
  destruct (tts_model w0); [ | apply respects_raise].
  apply respects_bind;
    [destruct (filename file); [apply respects_ret | apply respects_raise] | intros suffix].
  apply (respects_bind_post _ _ _ (fun p => in_tmpdir p = true));
    [apply respects_NamedTemporaryFile | apply returns_NamedTemporaryFile | intros tmp Htmp].
  apply respects_try_finally.
  - apply respects_try_except; [ | intros e; apply respects_raise].
    apply respects_bind; [apply respects_file_read | intros content].
    apply respects_bind; [apply respects_write_file; now right | intros _].
    apply respects_bind; [apply respects_sf_read; now right | intros [audio sr]].
    apply respects_bind; [apply respects_lift | intros converted].
    apply respects_bind; [apply respects_sf_write; now left | intros _].
    apply respects_bind; [apply respects_lift | intros duration].
    apply respects_ret.
  - apply respects_bind; [apply respects_path_exists; now right | intros present].
    destruct present; [apply respects_unlink; now right | apply respects_ret].
Qed.

Lemma generate_tts_footprint X text name e c :
  respects (eq (voice_file X name)) (generate_tts X text (Some name) e c).
Proof.
  unfold generate_tts.
  apply respects_bind; [apply respects_get_world | intros w0].
  destruct (tts_model w0) as [model | ]; [ | apply respects_raise].
  destruct (String.eqb text ""); [apply respects_raise | ].
  apply respects_try_except; [ | intros ex; apply respects_raise].
  apply (respects_bind_post _ _ _ (fun r => r = None \/ r = Some (voice_file X name))).
  - destruct (String.eqb name ""); [apply respects_ret | ].
    apply respects_bind; [apply respects_path_exists; now left | intros present].
    destruct present; [apply respects_ret | apply respects_raise].
  - intros w r. destruct (String.eqb name ""); cbn; [intros [= <-]; now left | ].
    unfold mbind, M_bind, path_exists. cbn.
    destruct (fs w !! _); cbn; [intros [= <-]; now right | discriminate].
  - intros r Hr.
    apply respects_bind; [ | intros wav].
    { apply respects_synthesize. intros p ->. destruct Hr as [[=] | [= <-]]. now left. }
    apply (respects_bind_post _ _ _ (fun p => in_tmpdir p = true));
      [apply respects_NamedTemporaryFile | apply returns_NamedTemporaryFile | intros tmp Htmp].
    apply respects_bind; [apply respects_ta_save; now right | intros _].
    apply respects_ret.
Qed.

Lemma generate_tts_default_footprint X Q text e c :
  respects Q (generate_tts X text None e c).
Proof.
  unfold generate_tts.
  apply respects_bind; [apply respects_get_world | intros w0].
  destruct (tts_model w0) as [model | ]; [ | apply respects_raise].
  destruct (String.eqb text ""); [apply respects_raise | ].
  apply respects_try_except; [ | intros ex; apply respects_raise].
  apply (respects_bind_post _ _ _ (fun r => r = None));
    [apply respects_ret | intros w r [= <-]; reflexivity | intros r ->].
  apply respects_bind; [ | intros wav].
  { apply respects_synthesize. discriminate. }
  apply (respects_bind_post _ _ _ (fun p => in_tmpdir p = true));
    [apply respects_NamedTemporaryFile | apply returns_NamedTemporaryFile | intros tmp Htmp].
  apply respects_bind; [apply respects_ta_save; now right | intros _].
  apply respects_ret.
Qed.

Lemma delete_voice_footprint X name :
  respects (eq (voice_file X name)) (delete_voice X name).
Proof.
  unfold delete_voice.
  apply respects_bind; [apply respects_path_exists; now left | intros present].
  destruct present; [ | apply respects_raise].
  apply respects_try_except; [ | intros e; apply respects_raise].
  apply respects_bind; [apply respects_unlink; now left | intros _].
  apply respects_ret.
Qed.

Lemma voice_entries_footprint X ps : respects (fun _ => True) (voice_entries X ps).
Proof.
  induction ps as [ | p ps IH]; [apply respects_ret | ].
  cbn [voice_entries].
  apply respects_bind; [ | intros v].
  - intros w. unfold voice_entry.
    pose proof (respects_sf_read X (fun _ => True) p (or_introl I) w) as H.
    destruct (sf_read X p w) as [w1 [[a sr] | ex]]; exact H.
  - apply respects_bind; [exact IH | intros vs]. apply respects_ret.
Qed.

Lemma root_footprint X : respects (fun _ => True) (root X).
Proof.
  unfold root. apply respects_bind; [apply respects_get_world | intros w0].
  apply respects_ret.
Qed.

(** No handler assigns [tts_model] or loads a model. *)
Lemma handle_footprint X rq : respects (fun _ => True) (handle X rq).
Proof.
  assert (Hweak : forall A (Q : FsPath -> Prop) (m : M A),
             respects Q m -> respects (fun _ => True) m).
  { intros A Q m Hm w. eapply footprint_mono; [ | apply Hm]. auto. }
  destruct rq as [ | file name | text [name | ] e c | | name]; cbn [handle];
    (apply respects_bind; [ | intros r; apply respects_ret]).
  - apply root_footprint.
  - eapply Hweak, upload_voice_footprint.
  - eapply Hweak, generate_tts_footprint.
  - apply generate_tts_default_footprint.
  - unfold list_voices. apply respects_bind; [apply respects_get_world | intros w0].
    apply voice_entries_footprint.
  - eapply Hweak, delete_voice_footprint.
Qed.

Lemma serve_footprint X rqs w : footprint (fun _ => True) w (fst (serve X rqs w)).
Proof.
  revert w. induction rqs as [ | rq rqs IH]; intros w; [apply footprint_refl | ].
  cbn [serve]. pose proof (handle_footprint X rq w) as H.
  destruct (handle X rq w) as [w1 r]. specialize (IH w1).
  destruct (serve X rqs w1) as [w2 rs]. cbn in *.
  eapply footprint_trans; eassumption.
Qed.

(** ** The engine guard and the text guard *)

Lemma generate_tts_unloaded X text voice e c w :
  tts_model w = None ->
  generate_tts X text voice e c w = (w, Raise model_not_loaded).
Proof.
  intros H. unfold generate_tts, mbind, M_bind, get_world. now rewrite H.
Qed.

(** C10. While no model is loaded, [upload_voice] answers 503 "TTS
    model not loaded" and leaves the world as it was: the body was not
    read, no temporary file was made, no voice was written. *)
Theorem upload_voice_model_not_loaded :
  forall X file voice_name w,
    tts_model w = None ->
    upload_voice X file voice_name w = (w, Raise (HTTPException 503 "TTS model not loaded"))
    /\ ~ In EvUploadRead (drop (length (log w)) (log (fst (upload_voice X file voice_name w))))
    /\ fs (fst (upload_voice X file voice_name w)) = fs w.
Proof.
  intros X file voice_name w H.
  assert (Heq : upload_voice X file voice_name w
                = (w, Raise (HTTPException 503 "TTS model not loaded"))).
  { unfold upload_voice, mbind, M_bind, get_world. now rewrite H. }
  rewrite Heq. cbn [fst]. rewrite drop_all. repeat split; auto.
Qed.

(** C9. With a model loaded, an empty text is answered 400 "Text is
    required" and the world is as it was: the engine was not called. *)
Theorem generate_tts_empty_text :
  forall X voice e c w model,
    tts_model w = Some model ->
    generate_tts X "" voice e c w = (w, Raise (HTTPException 400 "Text is required"))
    /\ synth_calls (fst (generate_tts X "" voice e c w)) = synth_calls w.
Proof.
  intros X voice e c w model H.
  assert (Heq : generate_tts X "" voice e c w
                = (w, Raise (HTTPException 400 "Text is required"))).
  { unfold generate_tts, mbind, M_bind, get_world. now rewrite H. }
  rewrite Heq. split; reflexivity.
Qed.

(** ** An unknown voice *)

Lemma synth_calls_emit e w :
  synth_calls (emit e w) = (synth_calls w + if is_synth e then 1 else 0)%nat.
Proof.
  unfold synth_calls, emit. cbn [log]. rewrite List.filter_app, length_app. cbn.
  now destruct (is_synth e).
Qed.

(** C1 on the code. Engine loaded, text given, the named voice not on
    disk: the handler raises its 404 inside the [try], the
    [except Exception] clause catches it, and the caller gets 500 with
    the 404 quoted in the detail.  The engine is not called. *)
Theorem generate_tts_missing_voice_is_500 :
  forall X text name e c w model,
    tts_model w = Some model ->
    text <> "" -> name <> "" ->
    fs w !! voice_file X name = None ->
    generate_tts X text (Some name) e c w
    = (emit (EvStat (voice_file X name)) w,
       Raise (HTTPException 500
                ("Failed to generate TTS: 404: Voice '" +:+ name +:+ "' not found")))
    /\ status_of (snd (generate_tts X text (Some name) e c w)) = Some 500
    /\ synth_calls (fst (generate_tts X text (Some name) e c w)) = synth_calls w.
Proof.
  intros X text name e c w model Hm Ht Hn Hfs.
  assert (Heq : generate_tts X text (Some name) e c w
    = (emit (EvStat (voice_file X name)) w,
       Raise (HTTPException 500
                ("Failed to generate TTS: 404: Voice '" +:+ name +:+ "' not found")))).
  { unfold generate_tts, mbind, M_bind, get_world. rewrite Hm.
    apply String.eqb_neq in Ht, Hn. rewrite Ht, Hn.
    unfold try_except, path_exists. fold (voice_file X name). rewrite Hfs.
    reflexivity. }
  rewrite Heq. cbn [fst snd status_of]. repeat split.
  rewrite synth_calls_emit. cbn. lia.
Qed.

(** ** The temporary files *)

(** The [finally] clause of [upload_voice]: whatever the body did, the
    temporary input is not on disk afterwards. *)
Lemma try_finally_unlinks A (body : M A) (p : FsPath) (w : World) :
  fs (fst (try_finally body
             (present ← path_exists p; if present : bool then unlink p else mret tt) w)) !! p
  = None.
Proof.
  unfold try_finally. destruct (body w) as [w1 r].
  unfold mbind, M_bind, path_exists, unlink. cbn.
  destruct (fs w1 !! p) eqn:Hp; cbn.
  - rewrite Hp. cbn. apply lookup_delete_eq.
  - exact Hp.
Qed.

Lemma bind_apply A B (m : M A) (k : A -> M B) (w : World) :
  (m ≫= k) w
  = match m w with
    | (w', Ret a) => k a w'
    | (w', Raise e) => (w', Raise e)
    end.
Proof. reflexivity. Qed.

(** [upload_voice] removes the temporary file it creates, on every way
    out of the handler. *)
Lemma upload_voice_removes_temp X (file : UploadFile) (name n : string) (w : World) model tmp :
  tts_model w = Some model ->
  filename file = Some n ->
  fresh_tmp (fs w) (path_suffix (Path n)) = Some tmp ->
  fs (fst (upload_voice X file name w)) !! tmp = None.
Proof.
  intros Hm Hn Htmp.
  unfold upload_voice. rewrite bind_apply. unfold get_world. cbv beta iota.
  rewrite Hm, Hn. rewrite bind_apply. unfold mret at 1, M_ret at 1. cbv beta iota.
  rewrite bind_apply. unfold NamedTemporaryFile at 1. cbv beta iota.
  cbn [fs set_fs emit]. rewrite Htmp.
  destruct (tmp_error (path_suffix (Path n))).
  - cbn [fst fs]. apply (fresh_tmp_spec _ _ _ Htmp).
  - apply try_finally_unlinks.
Qed.

(** The part of [generate_tts] from the engine call on. *)
Lemma generate_tts_tail X model text (ref : option FsPath) e c (w1 w' : World) r :
  (wav ← synthesize X model text ref e c;
   output_file ← NamedTemporaryFile ".wav";
   ta_save X output_file wav (model_sr model);;
   mret {| fr_path := output_file;
           fr_media_type := "audio/wav";
           fr_filename := "generated_audio.wav" |}) w1 = (w', Ret r) ->
  in_tmpdir (fr_path r) = true
  /\ fs w1 !! fr_path r = None
  /\ is_Some (fs w' !! fr_path r)
  /\ log w' = log w1 ++ [EvSynth text ref; EvCreate (fr_path r); EvWrite (fr_path r)].
Proof.
  intros H.
  rewrite bind_apply in H. unfold synthesize at 1 in H. cbv beta iota in H.
  match type of H with match ?o with _ => _ end = _ => destruct o as [wav | ex] end;
    [ | discriminate].
  rewrite bind_apply in H. unfold NamedTemporaryFile at 1 in H.
  change (tmp_error ".wav") with (@None exn) in H. cbn [fs emit] in H.
  destruct (fresh_tmp (fs w1) ".wav") as [p | ] eqn:Hp; [ | discriminate].
  rewrite bind_apply in H. unfold ta_save in H. rewrite bind_apply in H.
  unfold lift at 1 in H. cbv beta iota in H.
  destruct (ta_encode X wav (model_sr model)) as [d | ex]; [ | discriminate].
  cbn in H. injection H as <- <-. cbn [fr_path fs log].
  apply fresh_tmp_spec in Hp as [Htmp Hfree].
  repeat split; try assumption.
  - cbn [fs emit set_fs]. rewrite lookup_insert_eq. eexists; reflexivity.
  - cbn [log emit set_fs]. rewrite <- !app_assoc. reflexivity.
Qed.

(** C4 on the code. Whenever [generate_tts] answers with a file, that
    file is a temporary one made by this request, and it is still on
    disk when the handler has returned: creating and writing it are the
    request's last two actions, and nothing unlinks it. *)
Theorem generate_tts_leaves_output_file :
  forall X text voice e c w w' r,
    generate_tts X text voice e c w = (w', Ret r) ->
    in_tmpdir (fr_path r) = true
    /\ fs w !! fr_path r = None
    /\ is_Some (fs w' !! fr_path r)
    /\ exists evs,
         log w' = log w ++ evs ++ [EvCreate (fr_path r); EvWrite (fr_path r)].
Proof.
  intros X text voice e c w w' r H.
  unfold generate_tts in H. rewrite bind_apply in H. unfold get_world in H.
  cbv beta iota in H.
  destruct (tts_model w) as [model | ]; [ | discriminate].
  destruct (String.eqb text ""); [discriminate | ].
  unfold try_except in H. rewrite bind_apply in H.
  assert (Hdone : forall w1 ref evs1,
            fs w1 = fs w -> log w1 = log w ++ evs1 ->
            match
              (wav ← synthesize X model text ref e c;
               output_file ← NamedTemporaryFile ".wav";
               ta_save X output_file wav (model_sr model);;
               mret {| fr_path := output_file;
                       fr_media_type := "audio/wav";
                       fr_filename := "generated_audio.wav" |}) w1
            with
            | (w2, Raise ex) =>
                if is_Exception ex
                then raise (HTTPException 500 ("Failed to generate TTS: " +:+ str_exn ex)) w2
                else (w2, Raise ex)
            | (w2, Ret a) => (w2, Ret a)
            end = (w', Ret r) ->
            in_tmpdir (fr_path r) = true
            /\ fs w !! fr_path r = None
            /\ is_Some (fs w' !! fr_path r)
            /\ exists evs,
                 log w' = log w ++ evs ++ [EvCreate (fr_path r); EvWrite (fr_path r)]).
  { intros w1 ref evs1 Hfs Hlog Hrun.
    match type of Hrun with match ?t with _ => _ end = _ =>
      destruct t as [w2 [a | ex]] eqn:Ht end.
    2:{ destruct (is_Exception ex); discriminate. }
    injection Hrun as -> ->.
    apply generate_tts_tail in Ht as (H1 & H2 & H3 & H4).
    rewrite Hfs in H2. repeat split; try assumption.
    exists (evs1 ++ [EvSynth text ref]). rewrite H4, Hlog.
    rewrite <- !app_assoc. reflexivity. }
  destruct voice as [name | ].
  - destruct (String.eqb name "").
    + apply (Hdone w None []); [reflexivity | now rewrite app_nil_r | exact H].
    + rewrite bind_apply in H. unfold path_exists at 1 in H. cbv beta iota in H.
      destruct (fs w !! _).
      * eapply (Hdone _ _ [_]); [ | | exact H]; reflexivity.
      * discriminate.
  - apply (Hdone w None []); [reflexivity | now rewrite app_nil_r | exact H].
Qed.

(** ** Voice names and the voices directory *)

Lemma footprint_only_touches Q w w' : footprint Q w w' -> only_touches Q w w'.
Proof.
  intros (_ & evs & Hlog & Hall). exists evs. split; [exact Hlog | ].
  intros e p He Hp. rewrite Forall_forall in Hall.
  apply (Hall e); [now apply list_elem_of_In | exact Hp].
Qed.

(** *** Keeping to one file and to one's own temporary files *)

Lemma keeps_to_refl vf w : keeps_to vf w w.
Proof.
  split; [ | auto]. exists []. split; [now rewrite app_nil_r | intros e p []].
Qed.

Lemma keeps_to_emit vf w0 w e :
  (forall p, In p (touched e) -> owned vf w0 p) ->
  keeps_to vf w0 w -> keeps_to vf w0 (emit e w).
Proof.
  intros He ((evs & Hlog & Hall) & Hfs). split; [ | exact Hfs].
  exists (evs ++ [e]). cbn [log emit]. split; [now rewrite Hlog, app_assoc | ].
  intros e' p Hin Hp. apply in_app_or in Hin as [Hin | [<- | []]]; eauto.
Qed.

Lemma keeps_to_set_fs vf w0 w f :
  (forall q, q <> vf -> ~ own_tmp w0 q -> f !! q = fs w !! q) ->
  keeps_to vf w0 w -> keeps_to vf w0 (set_fs f w).
Proof.
  intros Hf (Hlog & Hfs). split; [exact Hlog | ].
  intros q Hq Hown. cbn [fs set_fs]. rewrite (Hf q Hq Hown). now apply Hfs.
Qed.

Section Confinement.

Variable X : Externals.
Variable vf : FsPath.
Variable w0 : World.

Lemma stays_ret A (a : A) : stays vf w0 (mret a : M A).
Proof. intros w H. exact H. Qed.

Lemma stays_raise A (e : exn) : stays vf w0 (raise e : M A).
Proof. intros w H. exact H. Qed.

Lemma stays_lift A (r : result A) : stays vf w0 (lift r).
Proof. intros w H. exact H. Qed.

Lemma stays_get_world : stays vf w0 get_world.
Proof. intros w H. exact H. Qed.

Lemma stays_bind_post A B (P : A -> Prop) (m : M A) (k : A -> M B) :
  stays vf w0 m -> yields vf w0 P m -> (forall a, P a -> stays vf w0 (k a)) ->
  stays vf w0 (m ≫= k).
Proof.
  intros Hm HP Hk w Hw. unfold mbind, M_bind.
  specialize (Hm w Hw). specialize (HP w).
  destruct (m w) as [w1 [a | e]]; cbn in *; [ | exact Hm].
  apply Hk; [now apply HP | exact Hm].
Qed.

Lemma stays_bind A B (m : M A) (k : A -> M B) :
  stays vf w0 m -> (forall a, stays vf w0 (k a)) -> stays vf w0 (m ≫= k).
Proof.
  intros Hm Hk. apply (stays_bind_post A B (fun _ => True)); auto.
  intros w a _ _. exact I.
Qed.

Lemma stays_try_except A (body : M A) (handler : exn -> M A) :
  stays vf w0 body -> (forall e, stays vf w0 (handler e)) ->
  stays vf w0 (try_except body handler).
Proof.
  intros Hb Hh w Hw. unfold try_except. specialize (Hb w Hw).
  destruct (body w) as [w1 [a | e]]; cbn in *; [exact Hb | ].
  destruct (is_Exception e); [ | exact Hb]. now apply Hh.
Qed.

Lemma stays_try_finally A (body : M A) (cleanup : M unit) :
  stays vf w0 body -> stays vf w0 cleanup -> stays vf w0 (try_finally body cleanup).
Proof.
  intros Hb Hc w Hw. unfold try_finally. specialize (Hb w Hw).
  destruct (body w) as [w1 r]. specialize (Hc w1 Hb). cbn in *.
  destruct (cleanup w1) as [w2 [[] | e]]; exact Hc.
Qed.

Lemma owned_insert (p : FsPath) (d : FileData) (w : World) :
  owned vf w0 p ->
  forall q, q <> vf -> ~ own_tmp w0 q -> <[p := d]> (fs w) !! q = fs w !! q.
Proof.
  intros Hp q Hq Hown. apply lookup_insert_ne. intros ->.
  destruct Hp as [-> | Hp]; [now apply Hq | now apply Hown].
Qed.

Lemma owned_delete (p : FsPath) (w : World) :
  owned vf w0 p ->
  forall q, q <> vf -> ~ own_tmp w0 q -> delete p (fs w) !! q = fs w !! q.
Proof.
  intros Hp q Hq Hown. apply lookup_delete_ne. intros ->.
  destruct Hp as [-> | Hp]; [now apply Hq | now apply Hown].
Qed.

Lemma owned_touched (e : Event) (p : FsPath) :
  touched e = [p] -> owned vf w0 p -> forall q, In q (touched e) -> owned vf w0 q.
Proof. intros -> Hp q [<- | []]. exact Hp. Qed.

Lemma stays_file_read file : stays vf w0 (file_read file).
Proof. intros w Hw. apply keeps_to_emit; [intros p [] | exact Hw]. Qed.

Lemma stays_path_exists p : owned vf w0 p -> stays vf w0 (path_exists p).
Proof.
  intros Hp w Hw. apply keeps_to_emit; [ | exact Hw].
  now apply (owned_touched _ p).
Qed.

Lemma stays_unlink p : owned vf w0 p -> stays vf w0 (unlink p).
Proof.
  intros Hp w Hw. unfold unlink. destruct (fs w !! p); cbn [fst].
  - apply keeps_to_emit; [now apply (owned_touched _ p) | ].
    apply keeps_to_set_fs; [now apply owned_delete | exact Hw].
  - apply keeps_to_emit; [now apply (owned_touched _ p) | exact Hw].
Qed.

Lemma stays_write_file p d : owned vf w0 p -> stays vf w0 (write_file p d).
Proof.
  intros Hp w Hw. cbn.
  apply keeps_to_emit; [now apply (owned_touched _ p) | ].
  apply keeps_to_set_fs; [now apply owned_insert | exact Hw].
Qed.

Lemma stays_sf_read p : owned vf w0 p -> stays vf w0 (sf_read X p).
Proof.
  intros Hp w Hw. apply keeps_to_emit; [ | exact Hw].
  now apply (owned_touched _ p).
Qed.

Lemma stays_sf_write p data sr :
  owned vf w0 (resolve X p) -> stays vf w0 (sf_write X p data sr).
Proof.
  intros Hp. unfold sf_write.
  destruct (sf_write_error p); [apply stays_raise | now apply stays_write_file].
Qed.

Lemma stays_ta_save p wav sr : owned vf w0 p -> stays vf w0 (ta_save X p wav sr).
Proof.
  intros Hp. apply stays_bind; [apply stays_lift | intros d].
  now apply stays_write_file.
Qed.

Lemma stays_synthesize m text prompt e c :
  (forall p, prompt = Some p -> owned vf w0 p) ->
  stays vf w0 (synthesize X m text prompt e c).
Proof.
  intros Hp w Hw. apply keeps_to_emit; [ | exact Hw].
  destruct prompt as [p | ]; [ | intros q []].
  apply (owned_touched _ p); auto.
Qed.

(** A name that is free now was free when the request began, unless it
    is [vf]: the request has not removed any other file. *)
Lemma fresh_tmp_owned suffix p w :
  keeps_to vf w0 w -> fresh_tmp (fs w) suffix = Some p -> owned vf w0 p.
Proof.
  intros (_ & Hfs) Hp. apply fresh_tmp_spec in Hp as [Hdir Hfree].
  destruct (decide (p = vf)) as [-> | Hne]; [now left | right].
  split; [exact Hdir | ].
  destruct (fs w0 !! p) as [d | ] eqn:Hold; [ | reflexivity].
  rewrite (Hfs p Hne) in Hfree; [congruence | ].
  intros [_ Hnone]. congruence.
Qed.

Lemma stays_NamedTemporaryFile suffix : stays vf w0 (NamedTemporaryFile suffix).
Proof.
  intros w Hw. unfold NamedTemporaryFile.
  destruct (tmp_error suffix); [exact Hw | ].
  destruct (fresh_tmp (fs w) suffix) as [p | ] eqn:Hp; cbn [fst]; [ | exact Hw].
  pose proof (fresh_tmp_owned suffix p w Hw Hp) as Hown.
  apply keeps_to_emit; [now apply (owned_touched _ p) | ].
  apply keeps_to_set_fs; [now apply owned_insert | exact Hw].
Qed.

Lemma yields_NamedTemporaryFile suffix :
  yields vf w0 (owned vf w0) (NamedTemporaryFile suffix).
Proof.
  intros w p Hw. unfold NamedTemporaryFile.
  destruct (tmp_error suffix); [discriminate | ].
  destruct (fresh_tmp (fs w) suffix) as [q | ] eqn:Hq; cbn [snd]; [ | discriminate].
  intros [= <-]. now apply (fresh_tmp_owned suffix q w).
Qed.

End Confinement.

Lemma upload_voice_stays X file name w0 :
  stays (voice_file X name) w0 (upload_voice X file name).
Proof.
  unfold upload_voice.
  apply stays_bind; [apply stays_get_world | intros w1].
  destruct (tts_model w1); [ | apply stays_raise].
  apply stays_bind;
    [destruct (filename file); [apply stays_ret | apply stays_raise] | intros suffix].
  apply (stays_bind_post _ _ _ _ (owned (voice_file X name) w0));
    [apply stays_NamedTemporaryFile | apply yields_NamedTemporaryFile | intros tmp Htmp].
  apply stays_try_finally.
  - apply stays_try_except; [ | intros e; apply stays_raise].
    apply stays_bind; [apply stays_file_read | intros content].
    apply stays_bind; [now apply stays_write_file | intros _].
    apply stays_bind; [now apply stays_sf_read | intros [audio sr]].
    apply stays_bind; [apply stays_lift | intros converted].
    apply stays_bind; [apply stays_sf_write; now left | intros _].
    apply stays_bind; [apply stays_lift | intros duration].
    apply stays_ret.
  - apply stays_bind; [now apply stays_path_exists | intros present].
    destruct present; [now apply stays_unlink | apply stays_ret].
Qed.

Lemma generate_tts_stays X text name e c w0 :
  stays (voice_file X name) w0 (generate_tts X text (Some name) e c).
Proof.
  unfold generate_tts.
  apply stays_bind; [apply stays_get_world | intros w1].
  destruct (tts_model w1) as [model | ]; [ | apply stays_raise].
  destruct (String.eqb text ""); [apply stays_raise | ].
  apply stays_try_except; [ | intros ex; apply stays_raise].
  apply (stays_bind_post _ _ _ _ (fun r => r = None \/ r = Some (voice_file X name))).
  - destruct (String.eqb name ""); [apply stays_ret | ].
    apply stays_bind; [apply stays_path_exists; now left | intros present].
    destruct present; [apply stays_ret | apply stays_raise].
  - intros w r _. destruct (String.eqb name ""); cbn; [intros [= <-]; now left | ].
    unfold mbind, M_bind, path_exists. cbn.
    destruct (fs w !! _); cbn; [intros [= <-]; now right | discriminate].
  - intros r Hr.
    apply stays_bind; [ | intros wav].
    { apply stays_synthesize. intros p ->. destruct Hr as [[=] | [= <-]]. now left. }
    apply (stays_bind_post _ _ _ _ (owned (voice_file X name) w0));
      [apply stays_NamedTemporaryFile | apply yields_NamedTemporaryFile | intros tmp Htmp].
    apply stays_bind; [now apply stays_ta_save | intros _].
    apply stays_ret.
Qed.

Lemma delete_voice_stays X name w0 :
  stays (voice_file X name) w0 (delete_voice X name).
Proof.
  unfold delete_voice.
  apply stays_bind; [apply stays_path_exists; now left | intros present].
  destruct present; [ | apply stays_raise].
  apply stays_try_except; [ | intros e; apply stays_raise].
  apply stays_bind; [apply stays_unlink; now left | intros _].
  apply stays_ret.
Qed.

(** C2, as the code has it. The name is used as it comes, never
    refused and never rewritten.  When it holds no "/" (and no zero
    byte, which no file name can hold), the file it stands for is
    [voices/<name>.wav], and upload, generate and delete keep to that
    file and to temporary files of their own, files in the temporary
    directory that were not there when the request began: they touch no
    other file, and every other file is on disk as it was. *)
Theorem voice_ops_confined_without_separator :
  forall X name,
    contains "/" name = false ->
    contains NUL name = false ->
    voice_file X name = cwd X ++ ["voices"; name +:+ ".wav"]
    /\ inside_voices (cwd X) (voice_file X name) = true
    /\ forall w,
         (forall file, keeps_to (voice_file X name) w (fst (upload_voice X file name w)))
         /\ (forall text e c,
                keeps_to (voice_file X name) w
                  (fst (generate_tts X text (Some name) e c w)))
         /\ keeps_to (voice_file X name) w (fst (delete_voice X name w)).
Proof.
  intros X name Hname _.
  assert (Hvf : voice_file X name = cwd X ++ ["voices"; name +:+ ".wav"]).
  { unfold voice_file, resolve. now apply os_resolve_voice_plain. }
  split; [exact Hvf | ]. split; [rewrite Hvf; apply inside_voices_child | ].
  intros w. split; [ | split].
  - intros file. apply upload_voice_stays, keeps_to_refl.
  - intros text e c. apply generate_tts_stays, keeps_to_refl.
  - apply delete_voice_stays, keeps_to_refl.
Qed.

Lemma voice_ops_confined_without_separator_witness :
  voice_file lab_ready "narrator" = ["srv"; "tts"; "voices"; "narrator.wav"]
  /\ inside_voices (cwd lab_ready) (voice_file lab_ready "narrator") = true
  /\ keeps_to (voice_file lab_ready "narrator") (boot lab_ready ∅)
       (fst (upload_voice lab_ready (upload_of "a.wav" "abc") "narrator" (boot lab_ready ∅))).
Proof.
  pose proof (voice_ops_confined_without_separator lab_ready "narrator" eq_refl eq_refl)
    as (H1 & H2 & H3).
  split; [exact H1 | ]. split; [exact H2 | ].
  apply (proj1 (H3 (boot lab_ready ∅))).
Defined.

(** C2 as stated fails: uploading under the name "../../etc" succeeds,
    keeps the name as given, and writes [/srv/etc.wav], two levels
    above the voices directory [/srv/tts/voices]. *)
Lemma upload_voice_traversal_escapes :
  snd (upload_voice lab_ready (upload_of "a.wav" "abc") "../../etc" (boot lab_ready ∅))
  = Ret {| up_success := true;
           up_voice_name := "../../etc";
           up_path := "voices/../../etc.wav";
           up_duration_seconds := 0%float;
           up_sample_rate := 24000 |}
  /\ is_Some (fs (fst (upload_voice lab_ready (upload_of "a.wav" "abc") "../../etc"
                         (boot lab_ready ∅))) !! ["srv"; "etc.wav"])
  /\ inside_voices (cwd lab_ready) ["srv"; "etc.wav"] = false
  /\ ~ confined lab_ready (boot lab_ready ∅)
         (fst (upload_voice lab_ready (upload_of "a.wav" "abc") "../../etc"
                 (boot lab_ready ∅))).
Proof.
  split; [vm_compute; reflexivity | ].
  split; [vm_compute; eexists; reflexivity | ].
  split; [reflexivity | ].
  intros (evs & Hlog & Hall).
  assert (Hevs : evs = [EvCreate ["tmp"; "tmp0.wav"]; EvUploadRead;
                        EvWrite ["tmp"; "tmp0.wav"]; EvRead ["tmp"; "tmp0.wav"];
                        EvWrite ["srv"; "etc.wav"]; EvStat ["tmp"; "tmp0.wav"];
                        EvUnlink ["tmp"; "tmp0.wav"]]).
  { apply (app_inv_head (log (boot lab_ready ∅))). rewrite <- Hlog.
    vm_compute. reflexivity. }
  destruct (Hall (EvWrite ["srv"; "etc.wav"]) ["srv"; "etc.wav"]) as [H | H].
  - rewrite Hevs. do 4 right. left. reflexivity.
  - left. reflexivity.
  - discriminate H.
  - discriminate H.
Qed.

(** ** The engine life cycle *)

Lemma footprint_load_attempts Q w w' :
  footprint Q w w' -> tts_model w' = tts_model w /\ load_attempts w' = load_attempts w.
Proof.
  intros (Hm & evs & Hlog & Hall). split; [exact Hm | ].
  unfold load_attempts. rewrite Hlog, omap_app.
  assert (Hnone : omap (fun e => match e with EvLoad d => Some d | _ => None end) evs = []).
  { clear Hlog. induction Hall as [ | e evs (He & _) _ IH]; [reflexivity | ].
    destruct e; cbn in He |- *; try discriminate He; exact IH. }
  rewrite Hnone. apply app_nil_r.
Qed.

(** C7, as the code has it. The loads of start-up are those of
    [startup_attempts], and the model is that of [startup_model].  With
    the chatterbox package importable and a [cuda] load that, when it
    fails, fails with an [Exception]: start-up tries [cuda] once, first;
    it tries [cpu] once, after [cuda], exactly when the [cuda] load
    failed; the model is the first that loaded, and [None] when both
    failed.  From [None] nothing recovers: whatever requests are served,
    the model stays [None], no load is attempted again, and
    [generate_tts] answers 503 "TTS model not loaded" without changing
    the world. *)
Theorem engine_lifecycle :
  forall X disk,
    load_attempts (boot X disk) = startup_attempts X
    /\ tts_model (boot X disk) = startup_model X
    /\ (CHATTERBOX_AVAILABLE X = true ->
        (forall e, from_pretrained X cuda = Raise e -> is_Exception e = true) ->
        load_attempts (boot X disk)
        = match from_pretrained X cuda with
          | Ret _ => [cuda]
          | Raise _ => [cuda; cpu]
          end
        /\ tts_model (boot X disk)
           = match from_pretrained X cuda with
             | Ret m => Some m
             | Raise _ =>
                 match from_pretrained X cpu with
                 | Ret m => Some m
                 | Raise _ => None
                 end
             end)
    /\ (tts_model (boot X disk) = None ->
        forall rqs text voice e c,
          tts_model (fst (serve X rqs (boot X disk))) = None
          /\ load_attempts (fst (serve X rqs (boot X disk))) = startup_attempts X
          /\ generate_tts X text voice e c (fst (serve X rqs (boot X disk)))
             = (fst (serve X rqs (boot X disk)),
                Raise (HTTPException 503 "TTS model not loaded"))).
Proof.
  intros X disk.
  assert (Hboot : load_attempts (boot X disk) = startup_attempts X
                  /\ tts_model (boot X disk) = startup_model X).
  { unfold boot, startup_event, startup_attempts, startup_model.
    destruct (CHATTERBOX_AVAILABLE X); cbn [negb]; [ | split; reflexivity].
    unfold try_except, mbind, M_bind, load_model, modify. cbn.
    destruct (from_pretrained X cuda) as [m | ex]; cbn; [split; reflexivity | ].
    destruct (is_Exception ex); cbn; [ | split; reflexivity].
    destruct (from_pretrained X cpu) as [m | ex2]; cbn; [split; reflexivity | ].
    destruct (is_Exception ex2); split; reflexivity. }
  destruct Hboot as [Ha Hm]. split; [exact Ha | ]. split; [exact Hm | ].
  split.
  { intros Hpkg Hexn. rewrite Ha, Hm. unfold startup_attempts, startup_model.
    rewrite Hpkg. destruct (from_pretrained X cuda) as [m | ex]; [split; reflexivity | ].
    rewrite (Hexn ex eq_refl). split; reflexivity. }
  intros Hnone rqs text voice e c.
  destruct (footprint_load_attempts _ _ _ (serve_footprint X rqs (boot X disk)))
    as [Hm' Ha'].
  rewrite Hnone in Hm'. rewrite Ha in Ha'.
  split; [exact Hm' | ]. split; [exact Ha' | ].
  now apply generate_tts_unloaded.
Qed.

Lemma engine_lifecycle_witness :
  load_attempts (boot lab_failed ∅) = [cuda; cpu]
  /\ tts_model (boot lab_failed ∅) = None
  /\ generate_tts lab_failed "hello" None 0x1p-1%float 0x1p-1%float
       (fst (serve lab_failed
               [PostGenerate "hello" None 0x1p-1%float 0x1p-1%float; GetRoot; GetVoices]
               (boot lab_failed ∅)))
     = (fst (serve lab_failed
               [PostGenerate "hello" None 0x1p-1%float 0x1p-1%float; GetRoot; GetVoices]
               (boot lab_failed ∅)),
        Raise (HTTPException 503 "TTS model not loaded")).
Proof.
  pose proof (engine_lifecycle lab_failed ∅) as (_ & _ & Hload & Hrest).
  destruct (Hload eq_refl) as (Ha & Hm); [intros e [= <-]; reflexivity | ].
  split; [exact Ha | ]. split; [exact Hm | ].
  apply (Hrest eq_refl
           [PostGenerate "hello" None 0x1p-1%float 0x1p-1%float; GetRoot; GetVoices]
           "hello" None).
Defined.

(** C7 as stated fails: when the chatterbox package cannot be
    imported, start-up returns before any load.  The preferred backend
    is not attempted, not even once, and the engine is unloaded from the
    start. *)
Lemma startup_without_package_loads_nothing :
  CHATTERBOX_AVAILABLE lab_no_package = false
  /\ load_attempts (boot lab_no_package ∅) = []
  /\ ~ In cuda (load_attempts (boot lab_no_package ∅))
  /\ tts_model (boot lab_no_package ∅) = None.
Proof.
  split; [reflexivity | ]. split; [reflexivity | ]. split; [ | reflexivity].
  intros [].
Qed.

(** ** The handlers on the concrete deployment *)

Lemma upload_voice_model_not_loaded_witness :
  tts_model (boot lab_failed ∅) = None
  /\ upload_voice lab_failed (upload_of "a.wav" "abc") "narrator" (boot lab_failed ∅)
     = (boot lab_failed ∅, Raise (HTTPException 503 "TTS model not loaded")).
Proof.
  split; [reflexivity | ].
  apply (upload_voice_model_not_loaded lab_failed (upload_of "a.wav" "abc") "narrator"
           (boot lab_failed ∅)).
  reflexivity.
Defined.

Lemma generate_tts_empty_text_witness :
  generate_tts lab_ready "" (Some "narrator") 0x1p-1%float 0x1p-1%float (boot lab_ready ∅)
  = (boot lab_ready ∅, Raise (HTTPException 400 "Text is required")).
Proof.
  apply (generate_tts_empty_text lab_ready (Some "narrator") 0x1p-1%float 0x1p-1%float
           (boot lab_ready ∅) {| model_device := cuda; model_sr := 24000 |}).
  reflexivity.
Defined.

Lemma generate_tts_missing_voice_is_500_witness :
  fs (boot lab_ready ∅) !! voice_file lab_ready "ghost" = None
  /\ status_of (snd (generate_tts lab_ready "hello" (Some "ghost") 0x1p-1%float 0x1p-1%float
                       (boot lab_ready ∅))) = Some 500
  /\ synth_calls (fst (generate_tts lab_ready "hello" (Some "ghost") 0x1p-1%float 0x1p-1%float
                         (boot lab_ready ∅))) = synth_calls (boot lab_ready ∅).
Proof.
  split; [reflexivity | ].
  apply (generate_tts_missing_voice_is_500 lab_ready "hello" "ghost" 0x1p-1%float 0x1p-1%float
           (boot lab_ready ∅) {| model_device := cuda; model_sr := 24000 |});
    [reflexivity | discriminate | discriminate | reflexivity].
Defined.

Lemma generate_tts_leaves_output_file_witness :
  snd (generate_tts lab_ready "hello" None 0x1p-1%float 0x1p-1%float (boot lab_ready ∅))
  = Ret {| fr_path := ["tmp"; "tmp0.wav"];
           fr_media_type := "audio/wav";
           fr_filename := "generated_audio.wav" |}
  /\ is_Some (fs (fst (generate_tts lab_ready "hello" None 0x1p-1%float 0x1p-1%float
                         (boot lab_ready ∅))) !! ["tmp"; "tmp0.wav"]).
Proof.
  split; [vm_compute; reflexivity | ].
  apply (generate_tts_leaves_output_file lab_ready "hello" None 0x1p-1%float 0x1p-1%float
           (boot lab_ready ∅)
           (fst (generate_tts lab_ready "hello" None 0x1p-1%float 0x1p-1%float
                   (boot lab_ready ∅)))
           {| fr_path := ["tmp"; "tmp0.wav"];
              fr_media_type := "audio/wav";
              fr_filename := "generated_audio.wav" |}).
  vm_compute. reflexivity.
Defined.

(** Two syntheses leave two files behind; an upload leaves only the
    voice it stored. *)
Lemma generate_tts_files_accumulate :
  dom (fs (fst (serve lab_ready
                  [PostGenerate "hello" None 0x1p-1%float 0x1p-1%float;
                   PostGenerate "again" None 0x1p-1%float 0x1p-1%float]
                  (boot lab_ready ∅))))
  = {[ ["tmp"; "tmp0.wav"]; ["tmp"; "tmp1.wav"] ]}
  /\ dom (fs (fst (serve lab_ready
                     [PostUploadVoice (upload_of "a.wav" "abc") "narrator"]
                     (boot lab_ready ∅))))
     = {[ ["srv"; "tts"; "voices"; "narrator.wav"] ]}.
Proof. split; vm_compute; reflexivity. Qed.

(** Against a loaded engine and a stored voice the request runs the
    engine once, with that voice as the prompt. *)
Lemma generate_tts_known_voice :
  synth_calls (fst (serve lab_ready
                      [PostUploadVoice (upload_of "a.wav" "abc") "narrator";
                       PostGenerate "hello" (Some "narrator") 0x1p-1%float 0x1p-1%float]
                      (boot lab_ready ∅))) = 1%nat
  /\ In (EvSynth "hello" (Some ["srv"; "tts"; "voices"; "narrator.wav"]))
        (log (fst (serve lab_ready
                     [PostUploadVoice (upload_of "a.wav" "abc") "narrator";
                      PostGenerate "hello" (Some "narrator") 0x1p-1%float 0x1p-1%float]
                     (boot lab_ready ∅)))).
Proof. split; [vm_compute; reflexivity | ]. vm_compute. do 9 right. left. reflexivity. Qed.

(** A silent waveform with samples in it comes back as it is. *)
Lemma peak_normalize_silence (n : nat) :
  peak_normalize (repeat 0%float (S n)) = Ret (repeat 0%float (S n)).
Proof.
  assert (Hpeak : forall k, fold_left np_maximum (np_abs (repeat 0%float k)) 0%float = 0%float).
  { induction k as [ | k IH]; [reflexivity | exact IH]. }
  unfold peak_normalize. change (np_abs (repeat 0%float (S n)))
    with (PrimFloat.abs 0 :: np_abs (repeat 0%float n)).
  cbn [np_max]. change (PrimFloat.abs 0) with 0%float. rewrite Hpeak. reflexivity.
Qed.

(** In binary64 the scaled peak is [peak * (0.85 / peak)] as rounded:
    0.85 for most peaks, one unit in the last place off for some. *)
Lemma peak_normalize_rounds :
  peak_normalize [0x1p-1%float] = Ret [0x1.b333333333333p-1%float]
  /\ peak_normalize [0x1.6666666666666p-1%float] = Ret [0x1.b333333333334p-1%float].
Proof. split; vm_compute; reflexivity. Qed.

(** * Further properties of the handlers *)

(** ** Temporary names *)

Lemma substring_append_l (a b : string) :
  substring 0 (String.length a) (a +:+ b) = a.
Proof.
  induction a as [ | x a IH]; simpl.
  - now destruct b.
  - now rewrite IH.
Qed.

Lemma substring_all (b : string) : substring 0 (String.length b) b = b.
Proof. induction b as [ | x b IH]; simpl; [reflexivity | now rewrite IH]. Qed.

Lemma substring_append_r (a b : string) :
  substring (String.length a) (String.length b) (a +:+ b) = b.
Proof.
  induction a as [ | x a IH]; simpl; [apply substring_all | exact IH].
Qed.

Lemma rfind_wav (a : string) : rfind "." (a +:+ ".wav") = Some (String.length a).
Proof.
  induction a as [ | x a IH]; [reflexivity | ].
  simpl. now rewrite IH.
Qed.

Lemma append_assoc (a b c : string) : (a +:+ b) +:+ c = a +:+ b +:+ c.
Proof.
  induction a as [ | x a IH]; [reflexivity | ].
  change (String x ((a +:+ b) +:+ c) = String x (a +:+ b +:+ c)).
  now rewrite IH.
Qed.

Lemma all_chars_contains f (c : ascii) (s : string) :
  all_chars f s = true -> f c = false -> contains c s = false.
Proof.
  intros Hs Hc. induction s as [ | a s IH]; simpl; [reflexivity | ].
  simpl in Hs. apply andb_true_iff in Hs as [Ha Hs]. rewrite (IH Hs), orb_false_r.
  destruct (Ascii.eqb_spec a c) as [-> | _]; [congruence | reflexivity].
Qed.

Lemma all_chars_pretty_N_go f (x : N) (s : string) :
  (forall d, f (pretty_N_char d) = true) ->
  all_chars f s = true -> all_chars f (pretty_N_go x s) = true.
Proof.
  intros Hf. revert s. induction (N.lt_wf_0 x) as [x _ IH]. intros s Hs.
  destruct (N.eq_dec x 0%N) as [-> | Hx]; [now rewrite pretty_N_go_0 | ].
  rewrite pretty_N_go_step by lia. apply IH.
  - apply N.div_lt; lia.
  - simpl. now rewrite Hf, Hs.
Qed.

Lemma all_chars_pretty_nat (n : nat) : all_chars is_digit (pretty n) = true.
Proof.
  unfold pretty, pretty_nat, pretty, pretty_N.
  destruct (decide (N.of_nat n = 0%N)); [reflexivity | ].
  apply all_chars_pretty_N_go; [ | reflexivity].
  intros d. unfold pretty_N_char. now repeat case_match.
Qed.

Lemma substring_tail (a b : string) :
  substring (String.length a) (String.length (a +:+ b) - String.length a) (a +:+ b) = b.
Proof.
  rewrite length_append.
  replace (String.length a + String.length b - String.length a)%nat
    with (String.length b) by lia.
  apply substring_append_r.
Qed.

Lemma append_nil_r (a : string) : a +:+ "" = a.
Proof.
  induction a as [ | x a IH]; [reflexivity | ].
  change (String x (a +:+ "") = String x a). now rewrite IH.
Qed.

Lemma rfind_none (c : ascii) (s : string) : contains c s = false -> rfind c s = None.
Proof.
  induction s as [ | a s IH]; simpl; [reflexivity | ].
  intros H. apply orb_false_iff in H as [Ha Hs]. now rewrite (IH Hs), Ha.
Qed.

Lemma rfind_none_inv (c : ascii) (s : string) : rfind c s = None -> contains c s = false.
Proof.
  induction s as [ | a s IH]; simpl; [reflexivity | ].
  destruct (rfind c s); [discriminate | ].
  destruct (Ascii.eqb a c); [discriminate | ]. intros _. now apply IH.
Qed.

Lemma rfind_append (c : ascii) (a t : string) :
  contains c t = false -> rfind c (a +:+ String c t) = Some (String.length a).
Proof.
  intros Ht. induction a as [ | x a IH]; simpl.
  - now rewrite (rfind_none c t Ht), Ascii.eqb_refl.
  - now rewrite IH.
Qed.

(** From the last [c] of a string on there is one [c], the first
    character. *)
Lemma rfind_tail (c : ascii) (s : string) (i : nat) :
  rfind c s = Some i ->
  exists t, substring i (String.length s - i) s = String c t /\ contains c t = false.
Proof.
  revert i. induction s as [ | a s IH]; intros i; simpl; [discriminate | ].
  destruct (rfind c s) as [j | ] eqn:Hj.
  - intros [= <-]. simpl. now apply IH.
  - destruct (Ascii.eqb_spec a c) as [-> | _]; [ | discriminate].
    intros [= <-]. exists s. simpl. rewrite substring_all.
    split; [reflexivity | now apply rfind_none_inv].
Qed.

(** [PurePath.suffix] is empty, or a dot followed by no further dot. *)
Lemma name_suffix_shape (name : string) :
  name_suffix name = ""
  \/ exists t, name_suffix name = String "." t /\ contains "." t = false.
Proof.
  unfold name_suffix. destruct (rfind "." name) as [i | ] eqn:Hi; [ | now left].
  destruct ((0 <? i)%nat && (i <? String.length name - 1)%nat); [ | now left].
  right. now apply rfind_tail.
Qed.

(** The extension [os.path.splitext] finds in a temporary name is the
    suffix the name was made with. *)
Lemma tmp_name_ext (n : nat) (suffix : string) :
  suffix = "" \/ (exists t, suffix = String "." t /\ contains "." t = false) ->
  splitext_ext ("tmp" +:+ pretty n +:+ suffix) = suffix.
Proof.
  intros Hs. unfold splitext_ext.
  change (lstrip_dots ("tmp" +:+ pretty n +:+ suffix)) with ("tmp" +:+ pretty n +:+ suffix).
  assert (Hbody : contains "." ("tmp" +:+ pretty n) = false).
  { rewrite contains_append. cbn [contains Ascii.eqb Bool.eqb orb].
    apply (all_chars_contains is_digit); [apply all_chars_pretty_nat | reflexivity]. }
  rewrite <- (append_assoc "tmp" (pretty n) suffix).
  destruct Hs as [-> | (t & -> & Ht)].
  - rewrite append_nil_r. now rewrite rfind_none.
  - rewrite (rfind_append "." _ t Ht). apply substring_tail.
Qed.

Lemma fresh_tmp_ext (f : gmap FsPath FileData) (name : string) (tmp : FsPath) :
  fresh_tmp f (name_suffix name) = Some tmp ->
  splitext_ext (List.last tmp "") = name_suffix name.
Proof.
  unfold fresh_tmp. intros H. apply find_some in H as [Hin _].
  apply in_map_iff in Hin as (n & <- & _).
  apply tmp_name_ext, name_suffix_shape.
Qed.

(** ** The file name of a voice *)

Lemma lstrip_dots_cons (a : ascii) (s : string) :
  Ascii.eqb a "." = false -> lstrip_dots (String a s) = String a s.
Proof.
  intros Ha. destruct a as [[] [] [] [] [] [] [] []]; try reflexivity. discriminate Ha.
Qed.

(** [<name>.wav] has the extension ".wav" unless the name is made of
    dots only; then it has none. *)
Lemma splitext_wav (name : string) :
  splitext_ext (name +:+ ".wav") = if only_dots name then "" else ".wav".
Proof.
  induction name as [ | a name IH]; [reflexivity | ].
  cbn [only_dots]. destruct (Ascii.eqb_spec a ".") as [-> | Ha].
  - cbn [andb]. rewrite <- IH. reflexivity.
  - cbn [andb]. unfold splitext_ext.
    change (String a name +:+ ".wav") with (String a (name +:+ ".wav")).
    rewrite lstrip_dots_cons by now apply Ascii.eqb_neq.
    change (String a (name +:+ ".wav")) with (String a name +:+ ".wav").
    rewrite rfind_wav. apply substring_tail.
Qed.

Lemma utf8_length_append (a b : string) :
  utf8_length (a +:+ b) = (utf8_length a + utf8_length b)%nat.
Proof.
  induction a as [ | c a IH]; [reflexivity | ].
  change (String c a +:+ b) with (String c (a +:+ b)). cbn [utf8_length].
  rewrite IH. lia.
Qed.

Lemma plain_name_spec (name : string) :
  plain_name name = true ->
  contains "/" name = false /\ contains NUL name = false
  /\ (utf8_length name + 4 <= NAME_MAX)%nat.
Proof.
  unfold plain_name. intros H.
  apply andb_true_iff in H as [H Hlen]. apply andb_true_iff in H as [Hsep Hnul].
  apply negb_true_iff in Hsep, Hnul. apply Nat.leb_le in Hlen. auto.
Qed.

(** What [sf.write] says to the file of a plain voice name. *)
Lemma sf_write_error_plain (name : string) :
  plain_name name = true ->
  (only_dots name = false ->
   sf_write_error (joinpath VOICES_DIR (name +:+ ".wav")) = None)
  /\ (only_dots name = true ->
      exists msg, sf_write_error (joinpath VOICES_DIR (name +:+ ".wav"))
                  = Some (PyException "TypeError" msg)).
Proof.
  intros Hp. destruct (plain_name_spec name Hp) as (Hsep & _ & Hlen).
  unfold sf_write_error. rewrite (joinpath_voices_plain name Hsep).
  cbn [parts List.last]. rewrite splitext_wav.
  split; intros ->.
  - cbn [String.eqb Ascii.eqb Bool.eqb]. rewrite utf8_length_append.
    replace (NAME_MAX <? utf8_length name + utf8_length ".wav")%nat with false;
      [reflexivity | ].
    symmetry. apply Nat.ltb_ge. change (utf8_length ".wav") with 4%nat. lia.
  - cbn [String.eqb]. eauto.
Qed.

Lemma append_inj_r (a b s : string) : a +:+ s = b +:+ s -> a = b.
Proof.
  revert b. induction a as [ | x a IH]; intros [ | y b] H.
  - reflexivity.
  - apply (f_equal String.length) in H. rewrite !length_append in H. simpl in H. lia.
  - apply (f_equal String.length) in H. rewrite !length_append in H. simpl in H. lia.
  - simpl in H. injection H as -> H. f_equal. now apply IH.
Qed.

Lemma tmp_path_inj (suffix : string) (n m : nat) :
  tmp_path n suffix = tmp_path m suffix -> n = m.
Proof.
  unfold tmp_path. intros [= H].
  apply (pretty_nat_inj n m), (append_inj_r (pretty n) (pretty m) suffix H).
Qed.

(** [tempfile] always finds a name: a disk of [k] files cannot hold all
    of the first [k + 1] candidates. *)
Lemma fresh_tmp_total (f : gmap FsPath FileData) (suffix : string) :
  exists p, fresh_tmp f suffix = Some p.
Proof.
  unfold fresh_tmp.
  destruct (List.find _ _) as [p | ] eqn:Hfind; [now exists p | exfalso].
  set (cands := map (fun n => tmp_path n suffix) (seq 0 (S (size f)))) in *.
  assert (Hin : forall p, In p cands -> p ∈ dom f).
  { intros p Hp. pose proof (find_none _ _ Hfind p Hp) as Hb. cbn in Hb.
    apply elem_of_dom. destruct (f !! p); [eauto | discriminate]. }
  assert (Hnd : NoDup cands).
  { unfold cands. apply NoDup_fmap_2; [ | apply NoDup_seq].
    intros n m. apply tmp_path_inj. }
  assert (Hlen : (length cands <= size (dom f))%nat).
  { rewrite <- (size_list_to_set (C := gset FsPath) cands Hnd).
    apply subseteq_size. intros p Hp. apply elem_of_list_to_set in Hp.
    apply Hin. now apply list_elem_of_In. }
  rewrite size_dom in Hlen. unfold cands in Hlen.
  rewrite length_map, length_seq in Hlen. lia.
Qed.

Lemma in_tmpdir_voice (cwd : FsPath) (f : string) :
  in_tmpdir (cwd ++ ["voices"; f]) = false.
Proof.
  destruct cwd as [ | a [ | b [ | c cwd]]]; try reflexivity.
Qed.

(** ** Uploading a voice *)

(** [upload_voice] from the point where the temporary file exists. *)
Lemma upload_voice_loaded X file name orig model tmp (w : World) :
  tts_model w = Some model ->
  filename file = Some orig ->
  tmp_error (path_suffix (Path orig)) = None ->
  fresh_tmp (fs w) (path_suffix (Path orig)) = Some tmp ->
  upload_voice X file name w
  = try_finally
      (try_except
         (content ← file_read file;
          write_file tmp (RawBytes content);;
          '(audio_data, original_sr) ← sf_read X tmp;
          converted_audio ← lift (convert_to_voice_format (SCIPY_AVAILABLE X)
                                    (signal_resample X) audio_data original_sr 24000);
          let output_path := joinpath VOICES_DIR (name +:+ ".wav") in
          sf_write X output_path converted_audio 24000;;
          duration ← lift (py_truediv (Z.of_nat (length converted_audio)) 24000);
          mret {| up_success := true;
                  up_voice_name := name;
                  up_path := str_path output_path;
                  up_duration_seconds := round2 X duration;
                  up_sample_rate := 24000 |})
         (fun e => raise (HTTPException 500 ("Failed to process voice: " +:+ str_exn e))))
      (present ← path_exists tmp; if present : bool then unlink tmp else mret tt)
      (emit (EvCreate tmp) (set_fs (<[tmp := RawBytes ""]> (fs w)) w)).
Proof.
  intros Hm Hn Hok Htmp.
  unfold upload_voice. rewrite bind_apply. unfold get_world. cbv beta iota.
  rewrite Hm, Hn. rewrite bind_apply. unfold mret at 1, M_ret at 1. cbv beta iota.
  rewrite bind_apply. unfold NamedTemporaryFile at 1. cbv beta iota.
  rewrite Hok, Htmp. reflexivity.
Qed.

(** [upload_voice] when no temporary file can be made: the error of
    [tempfile] leaves the handler as it is, before the [try]. *)
Lemma upload_voice_no_tmp X file name orig model e (w : World) :
  tts_model w = Some model ->
  filename file = Some orig ->
  tmp_error (path_suffix (Path orig)) = Some e ->
  upload_voice X file name w = (w, Raise e).
Proof.
  intros Hm Hn Herr.
  unfold upload_voice. rewrite bind_apply. unfold get_world. cbv beta iota.
  rewrite Hm, Hn. rewrite bind_apply. unfold mret at 1, M_ret at 1. cbv beta iota.
  rewrite bind_apply. unfold NamedTemporaryFile at 1. cbv beta iota.
  now rewrite Herr.
Qed.

(** The [finally] clause, run after a body that left the temporary file
    in place: it checks for the file and unlinks it; the body's outcome
    stands. *)
Lemma try_finally_run A (body : M A) (tmp : FsPath) (w1 w2 : World) (r : result A) :
  body w1 = (w2, r) ->
  is_Some (fs w2 !! tmp) ->
  try_finally body
    (present ← path_exists tmp; if present : bool then unlink tmp else mret tt) w1
  = (emit (EvUnlink tmp) (set_fs (delete tmp (fs w2)) (emit (EvStat tmp) w2)), r).
Proof.
  intros Hb [d Hd]. unfold try_finally. rewrite Hb.
  rewrite bind_apply. unfold path_exists at 1. cbv beta iota. rewrite Hd.
  unfold unlink. cbn [fs emit]. rewrite Hd. reflexivity.
Qed.

(** What the [try] block of [upload_voice] does when every step works. *)
Lemma upload_voice_body_ok X file name tmp content audio sr converted (w1 : World) :
  read_outcome file = Ret content ->
  sf_decode X (splitext_ext (List.last tmp "")) content = Ret (audio, sr) ->
  convert_to_voice_format (SCIPY_AVAILABLE X) (signal_resample X) audio sr 24000
  = Ret converted ->
  sf_write_error (joinpath VOICES_DIR (name +:+ ".wav")) = None ->
  try_except
    (content ← file_read file;
          write_file tmp (RawBytes content);;
          '(audio_data, original_sr) ← sf_read X tmp;
          converted_audio ← lift (convert_to_voice_format (SCIPY_AVAILABLE X)
                                    (signal_resample X) audio_data original_sr 24000);
          let output_path := joinpath VOICES_DIR (name +:+ ".wav") in
          sf_write X output_path converted_audio 24000;;
          duration ← lift (py_truediv (Z.of_nat (length converted_audio)) 24000);
          mret {| up_success := true;
                  up_voice_name := name;
                  up_path := str_path output_path;
                  up_duration_seconds := round2 X duration;
                  up_sample_rate := 24000 |})
    (fun e => raise (HTTPException 500 ("Failed to process voice: " +:+ str_exn e))) w1
  = (emit (EvWrite (voice_file X name))
       (set_fs (<[voice_file X name := WavFile (map (pcm16 X) converted) 24000]>
                  (<[tmp := RawBytes content]> (fs w1)))
          (emit (EvRead tmp)
             (emit (EvWrite tmp)
                (set_fs (<[tmp := RawBytes content]> (fs w1)) (emit EvUploadRead w1))))),
     Ret {| up_success := true;
            up_voice_name := name;
            up_path := str_path (joinpath VOICES_DIR (name +:+ ".wav"));
            up_duration_seconds :=
              round2 X (PrimFloat.div (float_of_Z (Z.of_nat (length converted)))
                          (float_of_Z 24000));
            up_sample_rate := 24000 |}).
Proof.
  intros Hread Hdec Hconv Hwrite. unfold try_except.
  rewrite bind_apply. unfold file_read at 1. rewrite Hread. cbv beta iota.
  rewrite bind_apply. unfold write_file at 1, modify at 1. cbv beta iota.
  rewrite bind_apply. unfold sf_read at 1. cbv beta iota.
  cbn [fs emit set_fs]. rewrite lookup_insert_eq, Hdec. cbv beta iota.
  rewrite bind_apply. unfold lift at 1. rewrite Hconv. cbv beta iota zeta.
  rewrite bind_apply. unfold sf_write. rewrite Hwrite.
  unfold write_file at 1, modify at 1. cbv beta iota.
  rewrite bind_apply. unfold lift at 1. reflexivity.
Qed.

(** Storing a voice and dropping the temporary input, seen from the
    disk as it was before the request. *)
Lemma stored_then_cleaned (f : gmap FsPath FileData) (tmp vf : FsPath) (c0 c d : FileData) :
  f !! tmp = None -> vf <> tmp ->
  delete tmp (<[vf := d]> (<[tmp := c]> (<[tmp := c0]> f))) = <[vf := d]> f.
Proof.
  intros Hfree Hne. apply map_eq. intros p.
  rewrite lookup_delete, !lookup_insert.
  repeat case_decide; subst; congruence.
Qed.

(** An upload in which every step works, step by step: [tmp] is the
    temporary input. *)
Lemma upload_voice_ok_run X file name orig content audio sr converted (w : World) model :
  plain_name name = true ->
  only_dots name = false ->
  tts_model w = Some model ->
  filename file = Some orig ->
  tmp_error (path_suffix (Path orig)) = None ->
  read_outcome file = Ret content ->
  sf_decode X (path_suffix (Path orig)) content = Ret (audio, sr) ->
  convert_to_voice_format (SCIPY_AVAILABLE X) (signal_resample X) audio sr 24000
  = Ret converted ->
  exists tmp w',
    fs w !! tmp = None
    /\ voice_file X name <> tmp
    /\ tts_model w' = tts_model w
    /\ fs w' = delete tmp (<[voice_file X name := WavFile (map (pcm16 X) converted) 24000]>
                             (<[tmp := RawBytes content]> (<[tmp := RawBytes ""]> (fs w))))
    /\ upload_voice X file name w
       = (w', Ret {| up_success := true;
                     up_voice_name := name;
                     up_path := str_path (joinpath VOICES_DIR (name +:+ ".wav"));
                     up_duration_seconds :=
                       round2 X (PrimFloat.div (float_of_Z (Z.of_nat (length converted)))
                                   (float_of_Z 24000));
                     up_sample_rate := 24000 |}).
Proof.
  intros Hplain Hdots Hm Hn Hok Hread Hdec Hconv.
  destruct (plain_name_spec name Hplain) as (Hname & _ & _).
  destruct (fresh_tmp_total (fs w) (path_suffix (Path orig))) as [tmp Htmp].
  destruct (fresh_tmp_spec _ _ _ Htmp) as [Hdir Hfree].
  assert (Hne : voice_file X name <> tmp).
  { intros <-. unfold voice_file, resolve in Hdir.
    rewrite (os_resolve_voice_plain _ _ Hname), in_tmpdir_voice in Hdir. discriminate. }
  exists tmp. eexists. split; [exact Hfree | ]. split; [exact Hne | ].
  rewrite (upload_voice_loaded X file name orig model tmp w Hm Hn Hok Htmp).
  erewrite try_finally_run;
    [ | apply (upload_voice_body_ok X file name tmp content audio sr converted);
        try assumption | ].
  - split; [ | split]; [ | | reflexivity]; reflexivity.
  - unfold path_suffix in Htmp |- *. now rewrite (fresh_tmp_ext _ _ _ Htmp).
  - now apply (proj1 (sf_write_error_plain name Hplain)).
  - cbn [fs emit set_fs]. rewrite lookup_insert_ne by exact Hne.
    rewrite lookup_insert_eq. eauto.
Qed.

(** X1. A successful upload under a plain name that is not made of
    dots only: the answer carries the name, the relative path, the
    duration and 24000; on disk the only change is that
    [voices/<name>.wav] now holds the converted samples as 16-bit PCM at
    24 kHz, whatever it held before; the temporary input is gone and the
    model is untouched. *)
Theorem upload_voice_stores :
  forall X file name orig content audio sr converted (w : World) model,
    plain_name name = true ->
    only_dots name = false ->
    tts_model w = Some model ->
    filename file = Some orig ->
    tmp_error (path_suffix (Path orig)) = None ->
    read_outcome file = Ret content ->
    sf_decode X (path_suffix (Path orig)) content = Ret (audio, sr) ->
    convert_to_voice_format (SCIPY_AVAILABLE X) (signal_resample X) audio sr 24000
    = Ret converted ->
    snd (upload_voice X file name w)
    = Ret {| up_success := true;
             up_voice_name := name;
             up_path := "voices/" +:+ name +:+ ".wav";
             up_duration_seconds :=
               round2 X (PrimFloat.div (float_of_Z (Z.of_nat (length converted)))
                           (float_of_Z 24000));
             up_sample_rate := 24000 |}
    /\ fs (fst (upload_voice X file name w))
       = <[voice_file X name := WavFile (map (pcm16 X) converted) 24000]> (fs w)
    /\ tts_model (fst (upload_voice X file name w)) = tts_model w.
Proof.
  intros X file name orig content audio sr converted w model
         Hplain Hdots Hm Hn Hok Hread Hdec Hconv.
  destruct (upload_voice_ok_run X file name orig content audio sr converted w model
              Hplain Hdots Hm Hn Hok Hread Hdec Hconv)
    as (tmp & w' & Hfree & Hne & Hmodel & Hfs & Hrun).
  destruct (plain_name_spec name Hplain) as (Hname & _ & _).
  rewrite Hrun. cbn [fst snd]. split; [ | split; [ | exact Hmodel]].
  - rewrite (joinpath_voices_plain name Hname). reflexivity.
  - rewrite Hfs. now apply stored_then_cleaned.
Qed.

Lemma upload_voice_stores_witness :
  snd (upload_voice lab_ready (upload_of "a.wav" "abc") "narrator" (boot lab_ready ∅))
  = Ret {| up_success := true;
           up_voice_name := "narrator";
           up_path := "voices/narrator.wav";
           up_duration_seconds := 0%float;
           up_sample_rate := 24000 |}
  /\ exists samples,
       fs (fst (upload_voice lab_ready (upload_of "a.wav" "abc") "narrator"
                  (boot lab_ready ∅)))
       = <[voice_file lab_ready "narrator" := WavFile samples 24000]> ∅
       /\ length samples = 3%nat.
Proof.
  pose proof (upload_voice_stores lab_ready (upload_of "a.wav" "abc") "narrator" "a.wav" "abc"
                abc_audio 24000 abc_converted
                (boot lab_ready ∅) lab_model
                eq_refl eq_refl eq_refl eq_refl eq_refl eq_refl) as H.
  destruct H as (H1 & H2 & _); [vm_compute; reflexivity | vm_compute; reflexivity | ].
  split; [exact H1 | ].
  exists (map (pcm16 lab_ready) abc_converted). split; [exact H2 | reflexivity].
Defined.

(** What the [try] block of [upload_voice] does when reading, decoding
    or converting fails, or [sf.write] refuses the file name: nothing is
    stored under [voices]. *)
Lemma upload_voice_body_fail X file name tmp e (w1 : World) :
  upload_failure X file (splitext_ext (List.last tmp "")) name = Some e ->
  exists w2,
    try_except
      (content ← file_read file;
          write_file tmp (RawBytes content);;
          '(audio_data, original_sr) ← sf_read X tmp;
          converted_audio ← lift (convert_to_voice_format (SCIPY_AVAILABLE X)
                                    (signal_resample X) audio_data original_sr 24000);
          let output_path := joinpath VOICES_DIR (name +:+ ".wav") in
          sf_write X output_path converted_audio 24000;;
          duration ← lift (py_truediv (Z.of_nat (length converted_audio)) 24000);
          mret {| up_success := true;
                  up_voice_name := name;
                  up_path := str_path output_path;
                  up_duration_seconds := round2 X duration;
                  up_sample_rate := 24000 |})
      (fun e => raise (HTTPException 500 ("Failed to process voice: " +:+ str_exn e))) w1
    = (w2, Raise (wrapped "Failed to process voice: " e))
    /\ tts_model w2 = tts_model w1
    /\ (fs w2 = fs w1 \/ exists c, fs w2 = <[tmp := RawBytes c]> (fs w1)).
Proof.
  intros Hp. unfold upload_failure, upload_pipeline in Hp. unfold try_except, wrapped.
  rewrite bind_apply. unfold file_read at 1.
  destruct (read_outcome file) as [content | e0]; cbv beta iota.
  2:{ injection Hp as ->. destruct (is_Exception e); eexists; cbn;
        (split; [reflexivity | split; [reflexivity | now left]]). }
  rewrite bind_apply. unfold write_file at 1, modify at 1. cbv beta iota.
  rewrite bind_apply. unfold sf_read at 1. cbv beta iota.
  cbn [fs emit set_fs]. rewrite lookup_insert_eq.
  destruct (sf_decode X _ content) as [[audio sr] | e0]; cbv beta iota.
  2:{ injection Hp as ->. destruct (is_Exception e); eexists; cbn;
        (split; [reflexivity | split; [reflexivity | right; eauto]]). }
  rewrite bind_apply. unfold lift at 1.
  destruct (convert_to_voice_format _ _ audio sr 24000) as [converted | e0];
    cbv beta iota zeta.
  2:{ injection Hp as ->. destruct (is_Exception e); eexists; cbn;
        (split; [reflexivity | split; [reflexivity | right; eauto]]). }
  rewrite bind_apply. unfold sf_write. rewrite Hp. unfold raise at 1. cbv beta iota.
  destruct (is_Exception e); eexists; cbn;
    (split; [reflexivity | split; [reflexivity | right; eauto]]).
Qed.

(** An upload whose [try] block fails, seen from outside. *)
Lemma upload_voice_fail_run X file name orig e (w : World) model :
  tts_model w = Some model ->
  filename file = Some orig ->
  tmp_error (path_suffix (Path orig)) = None ->
  upload_failure X file (path_suffix (Path orig)) name = Some e ->
  snd (upload_voice X file name w) = Raise (wrapped "Failed to process voice: " e)
  /\ fs (fst (upload_voice X file name w)) = fs w
  /\ tts_model (fst (upload_voice X file name w)) = tts_model w.
Proof.
  intros Hm Hn Hok Hp.
  destruct (fresh_tmp_total (fs w) (path_suffix (Path orig))) as [tmp Htmp].
  destruct (fresh_tmp_spec _ _ _ Htmp) as [_ Hfree].
  rewrite (upload_voice_loaded X file name orig model tmp w Hm Hn Hok Htmp).
  destruct (upload_voice_body_fail X file name tmp e
              (emit (EvCreate tmp) (set_fs (<[tmp := RawBytes ""]> (fs w)) w)))
    as (w2 & Hbody & Hmodel & Hfs).
  { unfold path_suffix in Htmp, Hp. now rewrite (fresh_tmp_ext _ _ _ Htmp). }
  cbn [fs emit set_fs tts_model] in Hmodel, Hfs.
  erewrite try_finally_run; [ | exact Hbody | ].
  2:{ destruct Hfs as [-> | [c ->]]; rewrite lookup_insert_eq; eauto. }
  cbn [fst snd fs emit set_fs tts_model]. split; [reflexivity | split; [ | exact Hmodel]].
  destruct Hfs as [-> | [c ->]].
  - rewrite delete_insert_eq. now apply delete_id.
  - rewrite insert_insert_eq, delete_insert_eq. now apply delete_id.
Qed.

(** X2. An upload that fails leaves the disk exactly as it was: no
    voice written, no temporary file left.  When the temporary input
    can be made and the body cannot be read, decoded or converted, the
    caller gets 500 "Failed to process voice: ..." with the cause quoted
    (or the cause itself when it is not an [Exception], as a
    cancellation is); when all that works and the name is a plain name
    made of dots only, [sf.write] finds no extension in the file name,
    and the caller gets 500 as well.  When [tempfile] cannot make the
    temporary input (the extension of the client's file name is too long
    or holds a zero byte), its [OSError] or [ValueError] reaches the
    caller as it is, and nothing at all has happened. *)
Theorem upload_voice_failure_leaves_disk :
  forall X file name orig (w : World) model,
    tts_model w = Some model ->
    filename file = Some orig ->
    (forall e,
        tmp_error (path_suffix (Path orig)) = None ->
        upload_pipeline X file (path_suffix (Path orig)) = Raise e ->
        snd (upload_voice X file name w) = Raise (wrapped "Failed to process voice: " e)
        /\ fs (fst (upload_voice X file name w)) = fs w
        /\ tts_model (fst (upload_voice X file name w)) = tts_model w)
    /\ (forall converted,
          tmp_error (path_suffix (Path orig)) = None ->
          upload_pipeline X file (path_suffix (Path orig)) = Ret converted ->
          plain_name name = true -> only_dots name = true ->
          status_of (snd (upload_voice X file name w)) = Some 500
          /\ fs (fst (upload_voice X file name w)) = fs w)
    /\ (tmp_error (path_suffix (Path orig)) <> None ->
        exists msg,
          upload_voice X file name w
          = (w, Raise (PyException
                         (if contains NUL (path_suffix (Path orig))
                          then "ValueError" else "OSError") msg))).
Proof.
  intros X file name orig w model Hm Hn.
  split; [ | split].
  - intros e Hok Hp. apply (upload_voice_fail_run X file name orig e w model Hm Hn Hok).
    unfold upload_failure. now rewrite Hp.
  - intros converted Hok Hpipe Hplain Hdots.
    destruct (proj2 (sf_write_error_plain name Hplain) Hdots) as (msg & Hmsg).
    destruct (upload_voice_fail_run X file name orig (PyException "TypeError" msg) w model
                Hm Hn Hok) as (Hres & Hfs & _).
    { unfold upload_failure. now rewrite Hpipe. }
    rewrite Hres. split; [reflexivity | exact Hfs].
  - intros Herr. unfold tmp_error in Herr |- *.
    destruct (contains NUL (path_suffix (Path orig))) eqn:Hnul.
    + eexists. apply (upload_voice_no_tmp X file name orig model _ w Hm Hn).
      unfold tmp_error. now rewrite Hnul.
    + destruct (NAME_MAX <? tmp_name_length (path_suffix (Path orig)))%nat eqn:Hlen;
        [ | contradiction].
      eexists. apply (upload_voice_no_tmp X file name orig model _ w Hm Hn).
      unfold tmp_error. now rewrite Hnul, Hlen.
Qed.

Lemma upload_voice_failure_leaves_disk_witness :
  status_of (snd (upload_voice lab_ready (upload_of "a.wav" "") "narrator" (boot lab_ready ∅)))
  = Some 500
  /\ fs (fst (upload_voice lab_ready (upload_of "a.wav" "") "narrator" (boot lab_ready ∅)))
     = ∅
  /\ status_of (snd (upload_voice lab_ready (upload_of "a.wav" "abc") ".." (boot lab_ready ∅)))
     = Some 500
  /\ fs (fst (upload_voice lab_ready (upload_of "a.wav" "abc") ".." (boot lab_ready ∅)))
     = ∅.
Proof.
  destruct (upload_voice_failure_leaves_disk lab_ready (upload_of "a.wav" "") "narrator"
              "a.wav" (boot lab_ready ∅) lab_model eq_refl eq_refl) as (Hfail & _ & _).
  destruct (Hfail (PyException "LibsndfileError" "Format not recognised.") eq_refl eq_refl)
    as (H1 & H2 & _).
  destruct (upload_voice_failure_leaves_disk lab_ready (upload_of "a.wav" "abc") ".."
              "a.wav" (boot lab_ready ∅) lab_model eq_refl eq_refl) as (_ & Hdots & _).
  destruct (Hdots abc_converted eq_refl) as (H3 & H4);
    [vm_compute; reflexivity | reflexivity | reflexivity | ].
  split; [now rewrite H1 | ]. split; [exact H2 | ]. split; [exact H3 | exact H4].
Defined.

(** ** Deleting a voice *)

(** [delete_voice], step by step. *)
Lemma delete_voice_run X name (w : World) :
  delete_voice X name w
  = match fs w !! voice_file X name with
    | Some _ =>
        (emit (EvUnlink (voice_file X name))
           (set_fs (delete (voice_file X name) (fs w))
              (emit (EvStat (voice_file X name)) w)),
         Ret {| del_success := true;
                del_message := "Voice '" +:+ name +:+ "' deleted" |})
    | None =>
        (emit (EvStat (voice_file X name)) w,
         Raise (HTTPException 404 ("Voice '" +:+ name +:+ "' not found")))
    end.
Proof.
  unfold delete_voice. fold (voice_file X name).
  rewrite bind_apply. unfold path_exists at 1. cbv beta iota.
  destruct (fs w !! voice_file X name) as [d | ] eqn:Hd; [ | reflexivity].
  unfold try_except. rewrite bind_apply. unfold unlink at 1.
  cbn [fs emit]. rewrite Hd. reflexivity.
Qed.

(** X3. For a plain name, [delete_voice] on a stored voice answers
    success and removes that one file; on a name with no file it answers
    404 and changes nothing on disk.  The model is untouched either
    way. *)
Theorem delete_voice_outcome :
  forall X name (w : World),
    plain_name name = true ->
    match fs w !! voice_file X name with
    | Some _ =>
        snd (delete_voice X name w)
        = Ret {| del_success := true;
                 del_message := "Voice '" +:+ name +:+ "' deleted" |}
        /\ fs (fst (delete_voice X name w)) = delete (voice_file X name) (fs w)
    | None =>
        snd (delete_voice X name w)
        = Raise (HTTPException 404 ("Voice '" +:+ name +:+ "' not found"))
        /\ fs (fst (delete_voice X name w)) = fs w
    end
    /\ tts_model (fst (delete_voice X name w)) = tts_model w.
Proof.
  intros X name w _. rewrite delete_voice_run.
  destruct (fs w !! voice_file X name); repeat split.
Qed.

Lemma delete_voice_outcome_witness :
  plain_name "ghost" = true
  /\ snd (delete_voice lab_ready "ghost" (boot lab_ready ∅))
     = Raise (HTTPException 404 "Voice 'ghost' not found")
  /\ fs (fst (delete_voice lab_ready "ghost" (boot lab_ready ∅))) = ∅.
Proof.
  split; [reflexivity | ].
  destruct (delete_voice_outcome lab_ready "ghost" (boot lab_ready ∅) eq_refl)
    as ((Hres & Hfs) & _).
  split; [exact Hres | exact Hfs].
Defined.

(** ** Synthesising *)

(** [generate_tts] past its two guards. *)
Lemma generate_tts_loaded X text voice e c model (w : World) :
  tts_model w = Some model ->
  text <> "" ->
  generate_tts X text voice e c w
  = try_except
      (reference_voice ←
         match voice with
         | Some name =>
             if String.eqb name "" then mret None
             else
               let voice_path := resolve X (joinpath VOICES_DIR (name +:+ ".wav")) in
               present ← path_exists voice_path;
               if present : bool then mret (Some voice_path)
               else raise (HTTPException 404 ("Voice '" +:+ name +:+ "' not found"))
         | None => mret None
         end;
       wav ← synthesize X model text reference_voice e c;
       output_file ← NamedTemporaryFile ".wav";
       ta_save X output_file wav (model_sr model);;
       mret {| fr_path := output_file;
               fr_media_type := "audio/wav";
               fr_filename := "generated_audio.wav" |})
      (fun ex => raise (HTTPException 500 ("Failed to generate TTS: " +:+ str_exn ex))) w.
Proof.
  intros Hm Ht. unfold generate_tts. rewrite bind_apply. unfold get_world.
  cbv beta iota. rewrite Hm. apply String.eqb_neq in Ht. now rewrite Ht.
Qed.

(** The voice lookup of [generate_tts] when the file, if one is asked
    for, is there: the path to hand to the engine, after one [exists]
    check. *)
Lemma reference_lookup X voice (w : World) :
  (forall p, reference_path X voice = Some p -> is_Some (fs w !! p)) ->
  match voice with
  | Some name =>
      if String.eqb name "" then mret None
      else
        let voice_path := resolve X (joinpath VOICES_DIR (name +:+ ".wav")) in
        present ← path_exists voice_path;
        if present : bool then mret (Some voice_path)
        else raise (HTTPException 404 ("Voice '" +:+ name +:+ "' not found"))
  | None => mret None
  end w
  = (match reference_path X voice with
     | Some p => emit (EvStat p) w
     | None => w
     end, Ret (reference_path X voice)).
Proof.
  intros Hex. unfold reference_path in *. destruct voice as [name | ]; [ | reflexivity].
  destruct (String.eqb name ""); [reflexivity | ].
  cbv zeta. fold (voice_file X name). rewrite bind_apply. unfold path_exists at 1.
  cbv beta iota. destruct (Hex _ eq_refl) as [d ->]. reflexivity.
Qed.

(** [generate_tts] on a loaded engine, a non-empty text and a voice
    file that is there if one is asked for, step by step. *)
Lemma generate_tts_run X text voice e c model tmp (w : World) :
  tts_model w = Some model ->
  text <> "" ->
  (forall p, reference_path X voice = Some p -> is_Some (fs w !! p)) ->
  fresh_tmp (fs w) ".wav" = Some tmp ->
  let ref := reference_path X voice in
  let w1 := match ref with Some p => emit (EvStat p) w | None => w end in
  let w2 := emit (EvSynth text ref) w1 in
  let w3 := emit (EvCreate tmp) (set_fs (<[tmp := RawBytes ""]> (fs w)) w2) in
  generate_tts X text voice e c w
  = match snd (synthesize X model text ref e c w) with
    | Raise ex => (w2, Raise (wrapped "Failed to generate TTS: " ex))
    | Ret wav =>
        match ta_encode X wav (model_sr model) with
        | Raise ex => (w3, Raise (wrapped "Failed to generate TTS: " ex))
        | Ret d =>
            (emit (EvWrite tmp) (set_fs (<[tmp := d]> (<[tmp := RawBytes ""]> (fs w))) w3),
             Ret {| fr_path := tmp;
                    fr_media_type := "audio/wav";
                    fr_filename := "generated_audio.wav" |})
        end
    end.
Proof.
  intros Hm Ht Hex Htmp ref w1 w2 w3.
  rewrite (generate_tts_loaded X text voice e c model w Hm Ht).
  unfold try_except. rewrite bind_apply.
  pose proof (reference_lookup X voice w Hex) as Hlook. cbv zeta in Hlook.
  rewrite Hlook. clear Hlook. fold ref. fold w1. cbv beta iota.
  rewrite bind_apply.
  assert (Hfs1 : fs w1 = fs w) by (unfold w1; now destruct ref).
  assert (Hsyn : synthesize X model text ref e c w1
                 = (w2, snd (synthesize X model text ref e c w))).
  { unfold synthesize. cbn [snd]. rewrite Hfs1. reflexivity. }
  rewrite Hsyn.
  destruct (snd (synthesize X model text ref e c w)) as [wav | ex].
  2:{ unfold wrapped. now destruct (is_Exception ex). }
  rewrite bind_apply. unfold NamedTemporaryFile at 1.
  change (tmp_error ".wav") with (@None exn). cbv iota.
  assert (Hfs2 : fs w2 = fs w) by exact Hfs1.
  rewrite Hfs2, Htmp. fold w3.
  rewrite bind_apply. unfold ta_save. rewrite bind_apply. unfold lift at 1.
  destruct (ta_encode X wav (model_sr model)) as [d | ex].
  2:{ unfold wrapped. now destruct (is_Exception ex). }
  unfold write_file, modify. cbn [fs emit set_fs w3]. reflexivity.
Qed.

(** X4. A synthesis that works: engine loaded, text given, the voice
    file (if a name is given) on disk, the engine and the encoder
    answering.  The voice file is checked once, the engine runs once
    with that file as its prompt, and the answer is a new temporary
    file holding the encoded audio; nothing else on disk changes. *)
Theorem generate_tts_success :
  forall X text voice e c model wav d (w : World),
    tts_model w = Some model ->
    text <> "" ->
    (forall p, reference_path X voice = Some p -> is_Some (fs w !! p)) ->
    snd (synthesize X model text (reference_path X voice) e c w) = Ret wav ->
    ta_encode X wav (model_sr model) = Ret d ->
    exists tmp,
      fs w !! tmp = None
      /\ snd (generate_tts X text voice e c w)
         = Ret {| fr_path := tmp;
                  fr_media_type := "audio/wav";
                  fr_filename := "generated_audio.wav" |}
      /\ fs (fst (generate_tts X text voice e c w)) = <[tmp := d]> (fs w)
      /\ log (fst (generate_tts X text voice e c w))
         = log w
           ++ match reference_path X voice with Some p => [EvStat p] | None => [] end
           ++ [EvSynth text (reference_path X voice); EvCreate tmp; EvWrite tmp].
Proof.
  intros X text voice e c model wav d w Hm Ht Hex Hsyn Henc.
  destruct (fresh_tmp_total (fs w) ".wav") as [tmp Htmp].
  destruct (fresh_tmp_spec _ _ _ Htmp) as [_ Hfree].
  exists tmp. split; [exact Hfree | ].
  rewrite (generate_tts_run X text voice e c model tmp w Hm Ht Hex Htmp).
  rewrite Hsyn, Henc. cbn [fst snd fs log emit set_fs].
  split; [reflexivity | ]. split; [now rewrite insert_insert_eq | ].
  destruct (reference_path X voice); cbn [log emit]; rewrite <- ?app_assoc; reflexivity.
Qed.

(** X5. A synthesis in which the engine raises: the caller gets 500
    "Failed to generate TTS: ..." with the cause quoted, the engine was
    called once, and no file was created. *)
Theorem generate_tts_engine_failure :
  forall X text voice e c model ex (w : World),
    tts_model w = Some model ->
    text <> "" ->
    (forall p, reference_path X voice = Some p -> is_Some (fs w !! p)) ->
    snd (synthesize X model text (reference_path X voice) e c w) = Raise ex ->
    snd (generate_tts X text voice e c w) = Raise (wrapped "Failed to generate TTS: " ex)
    /\ fs (fst (generate_tts X text voice e c w)) = fs w
    /\ synth_calls (fst (generate_tts X text voice e c w)) = S (synth_calls w).
Proof.
  intros X text voice e c model ex w Hm Ht Hex Hsyn.
  destruct (fresh_tmp_total (fs w) ".wav") as [tmp Htmp].
  rewrite (generate_tts_run X text voice e c model tmp w Hm Ht Hex Htmp).
  rewrite Hsyn. cbn [fst snd]. split; [reflexivity | ].
  split.
  - cbn [fs emit]. now destruct (reference_path X voice).
  - rewrite synth_calls_emit. cbn [is_synth].
    destruct (reference_path X voice); [rewrite synth_calls_emit; cbn [is_synth] | ]; lia.
Qed.

(** X6. A synthesis in which writing the audio fails: the caller gets
    500, and the temporary file made for the output stays on disk,
    empty. *)
Theorem generate_tts_save_failure :
  forall X text voice e c model wav ex (w : World),
    tts_model w = Some model ->
    text <> "" ->
    (forall p, reference_path X voice = Some p -> is_Some (fs w !! p)) ->
    snd (synthesize X model text (reference_path X voice) e c w) = Ret wav ->
    ta_encode X wav (model_sr model) = Raise ex ->
    snd (generate_tts X text voice e c w) = Raise (wrapped "Failed to generate TTS: " ex)
    /\ exists tmp,
         fs w !! tmp = None
         /\ in_tmpdir tmp = true
         /\ fs (fst (generate_tts X text voice e c w)) = <[tmp := RawBytes ""]> (fs w).
Proof.
  intros X text voice e c model wav ex w Hm Ht Hex Hsyn Henc.
  destruct (fresh_tmp_total (fs w) ".wav") as [tmp Htmp].
  destruct (fresh_tmp_spec _ _ _ Htmp) as [Hdir Hfree].
  rewrite (generate_tts_run X text voice e c model tmp w Hm Ht Hex Htmp).
  rewrite Hsyn, Henc. cbn [fst snd]. split; [reflexivity | ].
  exists tmp. repeat split; assumption.
Qed.

(** ** Upload, then use *)

(** X7. A voice just uploaded under a plain name that is not made of
    dots only is found by [generate_tts]: the engine is run on the
    stored file, the converted samples as 16-bit PCM, and when it and
    the encoder answer, the request succeeds. *)
Theorem upload_then_generate :
  forall X file name orig content audio sr converted (w : World) model text e c wav d,
    plain_name name = true ->
    only_dots name = false ->
    tts_model w = Some model ->
    filename file = Some orig ->
    tmp_error (path_suffix (Path orig)) = None ->
    read_outcome file = Ret content ->
    sf_decode X (path_suffix (Path orig)) content = Ret (audio, sr) ->
    convert_to_voice_format (SCIPY_AVAILABLE X) (signal_resample X) audio sr 24000
    = Ret converted ->
    text <> "" ->
    model_generate X model text (Some (WavFile (map (pcm16 X) converted) 24000)) e c
    = Ret wav ->
    ta_encode X wav (model_sr model) = Ret d ->
    exists tmp,
      snd (generate_tts X text (Some name) e c (fst (upload_voice X file name w)))
      = Ret {| fr_path := tmp;
               fr_media_type := "audio/wav";
               fr_filename := "generated_audio.wav" |}
      /\ In (EvSynth text (Some (voice_file X name)))
            (log (fst (generate_tts X text (Some name) e c
                         (fst (upload_voice X file name w))))).
Proof.
  intros X file name orig content audio sr converted w model text e c wav d
         Hplain Hdots Hm Hn Hok Hread Hdec Hconv Ht Hgen Henc.
  destruct (upload_voice_ok_run X file name orig content audio sr converted w model
              Hplain Hdots Hm Hn Hok Hread Hdec Hconv)
    as (tmp0 & w1 & Hfree & Hne & Hmodel & Hfs & Hrun).
  rewrite Hrun. cbn [fst].
  rewrite (stored_then_cleaned _ _ _ _ _ _ Hfree Hne) in Hfs.
  assert (Hnn : name <> "") by (intros ->; discriminate Hdots).
  assert (Href : reference_path X (Some name) = Some (voice_file X name)).
  { unfold reference_path. apply String.eqb_neq in Hnn. now rewrite Hnn. }
  assert (Hthere : fs w1 !! voice_file X name
                   = Some (WavFile (map (pcm16 X) converted) 24000)).
  { rewrite Hfs. apply lookup_insert_eq. }
  destruct (fresh_tmp_total (fs w1) ".wav") as [tmp Htmp].
  exists tmp.
  rewrite (generate_tts_run X text (Some name) e c model tmp w1);
    [ | congruence | exact Ht | | exact Htmp].
  2:{ intros p Hp. rewrite Href in Hp. injection Hp as <-. rewrite Hthere. eauto. }
  rewrite Href. unfold synthesize. cbn [snd]. rewrite Hthere, Hgen, Henc.
  cbn [fst snd log emit set_fs]. split; [reflexivity | ].
  apply in_or_app. left. apply in_or_app. left. apply in_or_app. right. now left.
Qed.

(** X8. Uploading a voice that was not there, under a plain name
    that is not made of dots only, and deleting it again puts the disk
    back as it was; deleting it a second time answers 404. *)
Theorem upload_then_delete :
  forall X file name orig content audio sr converted (w : World) model,
    plain_name name = true ->
    only_dots name = false ->
    tts_model w = Some model ->
    filename file = Some orig ->
    tmp_error (path_suffix (Path orig)) = None ->
    read_outcome file = Ret content ->
    sf_decode X (path_suffix (Path orig)) content = Ret (audio, sr) ->
    convert_to_voice_format (SCIPY_AVAILABLE X) (signal_resample X) audio sr 24000
    = Ret converted ->
    fs w !! voice_file X name = None ->
    snd (delete_voice X name (fst (upload_voice X file name w)))
    = Ret {| del_success := true; del_message := "Voice '" +:+ name +:+ "' deleted" |}
    /\ fs (fst (delete_voice X name (fst (upload_voice X file name w)))) = fs w
    /\ snd (delete_voice X name
              (fst (delete_voice X name (fst (upload_voice X file name w)))))
       = Raise (HTTPException 404 ("Voice '" +:+ name +:+ "' not found")).
Proof.
  intros X file name orig content audio sr converted w model
         Hplain Hdots Hm Hn Hok Hread Hdec Hconv Habsent.
  destruct (upload_voice_ok_run X file name orig content audio sr converted w model
              Hplain Hdots Hm Hn Hok Hread Hdec Hconv)
    as (tmp0 & w1 & Hfree & Hne & Hmodel & Hfs & Hrun).
  rewrite Hrun. cbn [fst].
  rewrite (stored_then_cleaned _ _ _ _ _ _ Hfree Hne) in Hfs.
  rewrite (delete_voice_run X name w1). rewrite Hfs, lookup_insert_eq. cbn [fst snd].
  split; [reflexivity | ].
  assert (Hback : delete (voice_file X name)
                    (<[voice_file X name := WavFile (map (pcm16 X) converted) 24000]> (fs w))
                  = fs w).
  { rewrite delete_insert_eq. now apply delete_id. }
  split; [cbn [fs emit set_fs]; exact Hback | ].
  rewrite delete_voice_run. cbn [fs emit set_fs]. rewrite Hback, Habsent. reflexivity.
Qed.

(** ** Listing the voices *)

Lemma voice_entry_run X (p : FsPath) (w : World) :
  voice_entry X p w = (emit (EvRead p) w, Ret (voice_info X (fs w) p)).
Proof.
  unfold voice_entry, sf_read, voice_info.
  destruct (fs w !! p) as [[b | s sr] | ]; [ | | reflexivity].
  - destruct (sf_decode X _ b) as [[a sr] | ex]; reflexivity.
  - reflexivity.
Qed.

Lemma voice_entries_run X (ps : list FsPath) (w : World) :
  voice_entries X ps w
  = ({| tts_model := tts_model w; fs := fs w; log := log w ++ map EvRead ps |},
     Ret (omap (voice_info X (fs w)) ps)).
Proof.
  revert w. induction ps as [ | p ps IH]; intros w.
  - cbn. rewrite app_nil_r. now destruct w.
  - cbn [voice_entries]. rewrite bind_apply, voice_entry_run.
    rewrite bind_apply, IH. cbn [emit fs log tts_model map omap list_omap].
    rewrite <- app_assoc. reflexivity.
Qed.

Lemma list_voices_run X (w : World) :
  list_voices X w
  = ({| tts_model := tts_model w; fs := fs w;
        log := log w ++ map EvRead (voice_paths X w) |},
     Ret (omap (voice_info X (fs w)) (voice_paths X w))).
Proof.
  unfold list_voices. rewrite bind_apply. unfold get_world. cbv beta iota.
  apply voice_entries_run.
Qed.

Lemma name_suffix_wav (a : string) : a <> "" -> name_suffix (a +:+ ".wav") = ".wav".
Proof.
  intros Ha. unfold name_suffix. rewrite rfind_wav, length_append.
  replace (String.length a + String.length ".wav" - String.length a)%nat
    with (String.length ".wav") by lia.
  rewrite substring_append_r.
  destruct a as [ | x a]; [contradiction | ].
  replace ((0 <? String.length (String x a))%nat
           && (String.length (String x a)
               <? String.length (String x a) + String.length ".wav" - 1)%nat)
    with true; [reflexivity | ].
  symmetry. apply andb_true_iff. split; apply Nat.ltb_lt; simpl; lia.
Qed.

(** A voice stored under a plain, non-empty name is listed under that
    name. *)
Lemma name_stem_wav (a : string) : a <> "" -> name_stem (a +:+ ".wav") = a.
Proof.
  intros Ha. unfold name_stem. rewrite (name_suffix_wav a Ha), length_append.
  replace (String.length a + String.length ".wav" - String.length ".wav")%nat
    with (String.length a) by lia.
  apply substring_append_l.
Qed.

Lemma is_voice_file_plain X (name : string) :
  contains "/" name = false -> is_voice_file X (voice_file X name) = true.
Proof.
  intros Hname. unfold voice_file, resolve, is_voice_file, resolve.
  rewrite (os_resolve_voice_plain _ _ Hname), os_resolve_voices.
  replace (cwd X ++ ["voices"; name +:+ ".wav"])
    with ((cwd X ++ ["voices"]) ++ [name +:+ ".wav"]) by now rewrite <- app_assoc.
  rewrite removelast_last, last_last.
  rewrite bool_decide_eq_true_2 by reflexivity.
  destruct ((cwd X ++ ["voices"]) ++ [name +:+ ".wav"]) eqn:Hl;
    [now apply app_eq_nil in Hl as [_ Hl] | ].
  cbn [andb]. rewrite length_append.
  replace (String.length name + String.length ".wav" - 4)%nat
    with (String.length name) by (simpl; lia).
  pose proof (substring_append_r name ".wav") as Hs. simpl String.length in Hs.
  rewrite Hs.
  replace (4 <=? String.length name + String.length ".wav")%nat with true; [reflexivity | ].
  symmetry. apply Nat.leb_le. simpl. lia.
Qed.

Lemma length_omap_le {A B} (f : A -> option B) (l : list A) :
  (length (omap f l) <= length l)%nat.
Proof.
  induction l as [ | x l IH]; cbn; [lia | ]. destruct (f x); cbn; lia.
Qed.

(** A voice on disk under a plain, non-empty name is among the entries
    [list_voices] computes. *)
Lemma stored_voice_listed X (w : World) (name : string) (s : list float) (sr : Z) :
  contains "/" name = false -> name <> "" -> sr <> 0 ->
  fs w !! voice_file X name = Some (WavFile s sr) ->
  In {| vi_name := name;
        vi_duration_seconds :=
          round2 X (PrimFloat.div (float_of_Z (Z.of_nat (length s))) (float_of_Z sr));
        vi_sample_rate := sr |}
     (omap (voice_info X (fs w)) (voice_paths X w)).
Proof.
  intros Hname Hnn Hsr Hstored.
  apply list_elem_of_In, list_elem_of_omap. exists (voice_file X name). split.
  - apply list_elem_of_In. unfold voice_paths. apply filter_In.
    split; [ | now apply is_voice_file_plain].
    apply in_map_iff. exists (voice_file X name, WavFile s sr).
    split; [reflexivity | ]. apply list_elem_of_In, elem_of_map_to_list. exact Hstored.
  - unfold voice_info. rewrite Hstored. unfold py_truediv.
    destruct (Z.eqb_spec sr 0) as [-> | _]; [contradiction | ].
    cbn [audio_len]. do 2 f_equal.
    unfold voice_file, resolve. rewrite (os_resolve_voice_plain _ _ Hname).
    replace (cwd X ++ ["voices"; name +:+ ".wav"])
      with ((cwd X ++ ["voices"]) ++ [name +:+ ".wav"]) by now rewrite <- app_assoc.
    rewrite last_last. now apply name_stem_wav.
Qed.

(** X9. [list_voices] never fails and changes neither the disk nor
    the model.  It lists at most one entry per file; every entry stands
    for a [.wav] file directly under [voices], by its stem; and every
    voice stored under a plain, non-empty name with a non-zero sample
    rate is listed with that name, its rate and its duration. *)
Theorem list_voices_outcome :
  forall X (w : World),
    exists l,
      snd (list_voices X w) = Ret l
      /\ fs (fst (list_voices X w)) = fs w
      /\ tts_model (fst (list_voices X w)) = tts_model w
      /\ (length l <= size (fs w))%nat
      /\ (forall i, In i l ->
            exists p, is_voice_file X p = true
                      /\ is_Some (fs w !! p)
                      /\ vi_name i = name_stem (List.last p ""))
      /\ (forall name s sr,
            contains "/" name = false -> name <> "" -> sr <> 0 ->
            fs w !! voice_file X name = Some (WavFile s sr) ->
            In {| vi_name := name;
                  vi_duration_seconds :=
                    round2 X (PrimFloat.div (float_of_Z (Z.of_nat (length s)))
                                (float_of_Z sr));
                  vi_sample_rate := sr |} l).
Proof.
  intros X w. rewrite list_voices_run. cbn [fst snd fs tts_model].
  eexists. split; [reflexivity | ]. split; [reflexivity | ]. split; [reflexivity | ].
  split; [ | split].
  - etransitivity; [apply length_omap_le | ]. unfold voice_paths.
    etransitivity; [apply List.filter_length_le | ].
    rewrite length_map, length_map_to_list. lia.
  - intros i Hi. apply list_elem_of_In, list_elem_of_omap in Hi as (p & Hp & Hinfo).
    apply list_elem_of_In in Hp. unfold voice_paths in Hp.
    apply filter_In in Hp as [_ Hvoice].
    exists p. split; [exact Hvoice | ].
    unfold voice_info in Hinfo.
    destruct (fs w !! p) as [data | ]; [ | discriminate]. split; [eauto | ].
    destruct data as [b | s sr].
    + destruct (sf_decode X _ b) as [[a sr] | ]; [ | discriminate].
      destruct (py_truediv _ sr); [ | discriminate]. now injection Hinfo as <-.
    + destruct (py_truediv _ sr); [ | discriminate]. now injection Hinfo as <-.
  - intros name s sr Hname Hnn Hsr Hstored. now apply stored_voice_listed.
Qed.

(** X10. A voice just uploaded under a plain name that is not made of
    dots only shows up in the listing, under that name, at 24000 Hz,
    with the duration the upload reported. *)
Theorem upload_then_list :
  forall X file name orig content audio sr converted (w : World) model,
    plain_name name = true ->
    only_dots name = false ->
    tts_model w = Some model ->
    filename file = Some orig ->
    tmp_error (path_suffix (Path orig)) = None ->
    read_outcome file = Ret content ->
    sf_decode X (path_suffix (Path orig)) content = Ret (audio, sr) ->
    convert_to_voice_format (SCIPY_AVAILABLE X) (signal_resample X) audio sr 24000
    = Ret converted ->
    exists r l,
      snd (upload_voice X file name w) = Ret r
      /\ snd (list_voices X (fst (upload_voice X file name w))) = Ret l
      /\ In {| vi_name := up_voice_name r;
               vi_duration_seconds := up_duration_seconds r;
               vi_sample_rate := up_sample_rate r |} l
      /\ up_voice_name r = name /\ up_sample_rate r = 24000.
Proof.
  intros X file name orig content audio sr converted w model
         Hplain Hdots Hm Hn Hok Hread Hdec Hconv.
  destruct (upload_voice_ok_run X file name orig content audio sr converted w model
              Hplain Hdots Hm Hn Hok Hread Hdec Hconv)
    as (tmp0 & w1 & Hfree & Hne & Hmodel & Hfs & Hrun).
  destruct (plain_name_spec name Hplain) as (Hname & _ & _).
  assert (Hnn : name <> "") by (intros ->; discriminate Hdots).
  rewrite Hrun. cbn [fst snd].
  rewrite (stored_then_cleaned _ _ _ _ _ _ Hfree Hne) in Hfs.
  eexists. eexists. split; [reflexivity | ].
  rewrite list_voices_run. cbn [snd]. split; [reflexivity | ].
  cbn [up_voice_name up_duration_seconds up_sample_rate].
  split; [ | split; reflexivity].
  rewrite <- (length_map (pcm16 X) converted).
  apply stored_voice_listed; [exact Hname | exact Hnn | discriminate | ].
  rewrite Hfs. apply lookup_insert_eq.
Qed.

(** [generate_tts] when the named voice is not on disk. *)
Lemma generate_tts_missing_run X text name e c model (w : World) :
  tts_model w = Some model ->
  text <> "" -> name <> "" ->
  fs w !! voice_file X name = None ->
  generate_tts X text (Some name) e c w
  = (emit (EvStat (voice_file X name)) w,
     Raise (HTTPException 500
              ("Failed to generate TTS: 404: Voice '" +:+ name +:+ "' not found"))).
Proof.
  intros Hm Ht Hn Hfs.
  rewrite (generate_tts_loaded X text (Some name) e c model w Hm Ht).
  unfold try_except. rewrite bind_apply.
  apply String.eqb_neq in Hn. rewrite Hn. cbv zeta. fold (voice_file X name).
  rewrite bind_apply. unfold path_exists at 1. cbv beta iota. rewrite Hfs.
  reflexivity.
Qed.

(** X11. Whatever a generate request does, every file that was on disk
    is still there with the same content: the handler only ever adds a
    temporary file.  The model is never replaced. *)
Theorem generate_tts_keeps_files :
  forall X text voice e c (w : World),
    (forall p data, fs w !! p = Some data ->
                    fs (fst (generate_tts X text voice e c w)) !! p = Some data)
    /\ tts_model (fst (generate_tts X text voice e c w)) = tts_model w.
Proof.
  intros X text voice e c w.
  assert (Hcase : (exists model, tts_model w = Some model) \/ tts_model w = None)
    by (destruct (tts_model w); eauto).
  destruct Hcase as [[model Hm] | Hm].
  2:{ rewrite (generate_tts_unloaded X text voice e c w Hm). split; [auto | reflexivity]. }
  destruct (String.eqb_spec text "") as [-> | Ht].
  { assert (Hrun : generate_tts X "" voice e c w
                   = (w, Raise (HTTPException 400 "Text is required"))).
    { unfold generate_tts. rewrite bind_apply. unfold get_world. cbv beta iota.
      now rewrite Hm. }
    rewrite Hrun. split; [auto | reflexivity]. }
  destruct (fresh_tmp_total (fs w) ".wav") as [tmp Htmp].
  destruct (fresh_tmp_spec _ _ _ Htmp) as [_ Hfree].
  assert (Hfresh : forall p data, fs w !! p = Some data -> p <> tmp) by congruence.
  assert (Hgood : (forall p, reference_path X voice = Some p -> is_Some (fs w !! p)) ->
                  (forall p data, fs w !! p = Some data ->
                                  fs (fst (generate_tts X text voice e c w)) !! p = Some data)
                  /\ tts_model (fst (generate_tts X text voice e c w)) = tts_model w).
  { intros Hex.
    rewrite (generate_tts_run X text voice e c model tmp w Hm Ht Hex Htmp).
    destruct (snd (synthesize X model text (reference_path X voice) e c w)) as [wav | ex].
    - destruct (ta_encode X wav (model_sr model)) as [d | ex];
        (split; [ | cbn; now destruct (reference_path X voice)]);
        intros p data Hp; cbn [fst fs emit set_fs];
        rewrite ?lookup_insert_ne by (symmetry; eauto); exact Hp.
    - split; [ | cbn; now destruct (reference_path X voice)].
      intros p data Hp. cbn [fst fs emit]. now destruct (reference_path X voice). }
  destruct voice as [name | ]; [ | apply Hgood; discriminate].
  destruct (String.eqb_spec name "") as [-> | Hn]; [apply Hgood; discriminate | ].
  destruct (fs w !! voice_file X name) as [d | ] eqn:Hv.
  - apply Hgood. unfold reference_path. apply String.eqb_neq in Hn. rewrite Hn.
    intros p [= <-]. rewrite Hv. eauto.
  - rewrite (generate_tts_missing_run X text name e c model w Hm Ht Hn Hv).
    split; [auto | reflexivity].
Qed.

(** ** The engine handle and the health check *)

Lemma boot_model X disk : tts_model (boot X disk) = startup_model X.
Proof.
  unfold boot, startup_event, startup_model.
  destruct (CHATTERBOX_AVAILABLE X); cbn [negb]; [ | reflexivity].
  unfold try_except, mbind, M_bind, load_model, modify. cbn.
  destruct (from_pretrained X cuda) as [m | ex]; cbn; [reflexivity | ].
  destruct (is_Exception ex); cbn; [ | reflexivity].
  destruct (from_pretrained X cpu) as [m | ex2]; cbn; [reflexivity | ].
  now destruct (is_Exception ex2).
Qed.

(** X12. No sequence of requests replaces the model or loads one: the
    handle set at start-up is the one every later request sees, loaded
    or not. *)
Theorem serve_keeps_engine :
  forall X rqs (w : World),
    tts_model (fst (serve X rqs w)) = tts_model w
    /\ load_attempts (fst (serve X rqs w)) = load_attempts w.
Proof.
  intros X rqs w. apply (footprint_load_attempts (fun _ => True)), serve_footprint.
Qed.

(** X13. The health check after start-up and any requests: always
    "running", with [model_loaded] telling whether the cuda load or,
    after it failed, the cpu load worked; it changes nothing. *)
Theorem root_reports_engine :
  forall X disk rqs,
    root X (fst (serve X rqs (boot X disk)))
    = (fst (serve X rqs (boot X disk)),
       Ret {| root_status := "running";
              root_model_loaded :=
                match startup_model X with Some _ => true | None => false end;
              root_chatterbox_available := CHATTERBOX_AVAILABLE X |}).
Proof.
  intros X disk rqs. unfold root. rewrite bind_apply. unfold get_world. cbv beta iota.
  destruct (footprint_load_attempts _ _ _ (serve_footprint X rqs (boot X disk)))
    as [Hm _].
  rewrite Hm, boot_model. reflexivity.
Qed.

(** ** Names that leave the voices directory *)

Lemma is_absolute_slash (s : string) : is_absolute (Path (String "/" s)) = true.
Proof.
  unfold is_absolute, Path. cbn [anchor].
  destruct s as [ | a s]; [reflexivity | ].
  destruct a as [[] [] [] [] [] [] [] []]; try reflexivity.
  destruct s as [ | b s]; [reflexivity | ].
  destruct b as [[] [] [] [] [] [] [] []]; reflexivity.
Qed.

Lemma wav_name_contains (name : string) :
  contains "/" (name +:+ ".wav") = contains "/" name.
Proof. rewrite contains_append. cbn. now rewrite orb_false_r. Qed.

(** X14. A name of the form "../<plain>" stands for [<plain>.wav] in
    the process's own directory, one level above [voices]; a name that
    starts with "/" stands for the same file wherever the process runs:
    the voices directory plays no part in it. *)
Theorem voice_file_escapes :
  forall X name,
    contains "/" name = false ->
    (voice_file X ("../" +:+ name) = cwd X ++ [name +:+ ".wav"]
     /\ inside_voices (cwd X) (voice_file X ("../" +:+ name)) = false)
    /\ forall X', voice_file X ("/" +:+ name) = voice_file X' ("/" +:+ name).
Proof.
  intros X name Hname.
  destruct (wav_name_not_special name) as (H0 & H1 & H2).
  assert (Hparts : parts (Path ("../" +:+ name +:+ ".wav")) = [".."; name +:+ ".wav"]).
  { unfold Path. cbn [parts].
    change (split_on "/" ("../" +:+ name +:+ ".wav"))
      with (".." :: split_on "/" (name +:+ ".wav")).
    rewrite split_on_no_separator by (now rewrite wav_name_contains).
    cbn [List.filter]. change (String.eqb ".." "") with false.
    change (String.eqb ".." ".") with false. cbn [orb negb].
    rewrite H0, H1. reflexivity. }
  assert (Hvf : voice_file X ("../" +:+ name) = cwd X ++ [name +:+ ".wav"]).
  { unfold voice_file, resolve, joinpath.
    change (("../" +:+ name) +:+ ".wav") with ("../" +:+ name +:+ ".wav").
    change (is_absolute (Path ("../" +:+ name +:+ ".wav"))) with false.
    cbv iota. unfold os_resolve. cbn [is_absolute parts].
    rewrite Hparts. change (parts VOICES_DIR) with ["voices"].
    cbn [app fold_left]. unfold step_component at 3.
    change (String.eqb "voices" "..") with false. cbv iota.
    unfold step_component at 2. change (String.eqb ".." "..") with true. cbv iota.
    rewrite removelast_last. unfold step_component. now rewrite H2. }
  split; [split; [exact Hvf | ] | ].
  - rewrite Hvf. unfold inside_voices. rewrite os_resolve_voices.
    replace (length (cwd X ++ ["voices"]) <? length (cwd X ++ [name +:+ ".wav"]))%nat
      with false; [apply andb_false_r | ].
    symmetry. apply Nat.ltb_ge. rewrite !length_app. cbn. lia.
  - intros X'. unfold voice_file, resolve, joinpath.
    change (("/" +:+ name) +:+ ".wav") with (String "/" (name +:+ ".wav")).
    rewrite is_absolute_slash. unfold os_resolve. now rewrite is_absolute_slash.
Qed.

Lemma voice_file_escapes_witness :
  contains "/" "etc" = false
  /\ voice_file lab_ready "../etc" = cwd lab_ready ++ ["etc.wav"]
  /\ inside_voices (cwd lab_ready) (voice_file lab_ready "../etc") = false
  /\ voice_file lab_ready "/etc" = voice_file lab_failed "/etc".
Proof.
  destruct (voice_file_escapes lab_ready "etc" eq_refl) as ((Hfile & Hout) & Habs).
  split; [reflexivity | ].
  split; [exact Hfile | ].
  split; [exact Hout | exact (Habs lab_failed)].
Defined.

(** * Further properties of the normaliser *)

(** X15. At the target rate the resampler is never consulted: the
    result is the same whatever SciPy's availability and whatever the
    resampler would do, and a waveform of at least one frame comes back
    with one sample per frame. *)
Theorem convert_same_rate :
  forall scipy rs scipy' rs' (a : Audio) (target : Z),
    convert_to_voice_format scipy rs a target target
    = convert_to_voice_format scipy' rs' a target target
    /\ (audio_len a <> 0%nat ->
        exists out, convert_to_voice_format scipy rs a target target = Ret out
                    /\ length out = audio_len a).
Proof.
  intros scipy rs scipy' rs' a target.
  assert (Heq : forall s r, convert_to_voice_format s r a target target
                            = peak_normalize (to_mono a)).
  { intros s r. unfold convert_to_voice_format. now rewrite resample_step_same_rate. }
  split; [now rewrite !Heq | ].
  intros Hlen. rewrite Heq.
  destruct (peak_normalize_returns (to_mono a)) as (out & Hout & Hl).
  - intros Hnil. apply Hlen. now rewrite <- to_mono_length, Hnil.
  - exists out. split; [exact Hout | ]. rewrite Hl. apply to_mono_length.
Qed.

(** X16. Silence with samples in it, mono or stereo, comes back as
    mono silence of the same length: the peak is 0 and nothing is
    divided by it. *)
Theorem convert_silence :
  forall scipy rs (target : Z) (n : nat),
    convert_to_voice_format scipy rs (Mono (repeat 0%float (S n))) target target
    = Ret (repeat 0%float (S n))
    /\ convert_to_voice_format scipy rs
         (Multi (repeat [0%float; 0%float] (S n))) target target
       = Ret (repeat 0%float (S n)).
Proof.
  intros scipy rs target n.
  assert (Hmono : to_mono (Multi (repeat [0%float; 0%float] (S n))) = repeat 0%float (S n)).
  { unfold to_mono. generalize (S n). intros k.
    induction k as [ | k IH]; [reflexivity | ]. cbn [repeat map]. now rewrite IH. }
  unfold convert_to_voice_format. rewrite !resample_step_same_rate, Hmono.
  cbn [to_mono]. split; apply peak_normalize_silence.
Qed.

(** ** Samples that are not numbers *)

Lemma SFeqb_refl (s : spec_float) : s <> S754_nan -> SFeqb s s = true.
Proof.
  intros Hs. unfold SFeqb, SFcompare. destruct s as [sg | sg | | sg m ex].
  - reflexivity.
  - now destruct sg.
  - contradiction.
  - rewrite Z.compare_refl.
    assert (Hm : PosDef.Pos.compare_cont Eq m m = Eq) by apply Pos.compare_refl.
    rewrite Hm. now destruct sg.
Qed.

Lemma is_nan_Prim2SF (x : float) :
  PrimFloat.is_nan x = true <-> Prim2SF x = S754_nan.
Proof.
  unfold PrimFloat.is_nan. rewrite FloatAxioms.eqb_spec. split.
  - intros H. destruct (Prim2SF x) eqn:Hx; try reflexivity;
      rewrite SFeqb_refl in H by discriminate; discriminate.
  - intros ->. reflexivity.
Qed.

Lemma is_nan_abs (x : float) :
  PrimFloat.is_nan x = true -> PrimFloat.is_nan (PrimFloat.abs x) = true.
Proof.
  rewrite !is_nan_Prim2SF, FloatAxioms.abs_spec. now intros ->.
Qed.

Lemma ltb_zero_nan (p : float) :
  PrimFloat.is_nan p = true -> PrimFloat.ltb 0 p = false.
Proof.
  rewrite is_nan_Prim2SF, FloatAxioms.ltb_spec. now intros ->.
Qed.

Lemma fold_maximum_nan (l : list float) (acc : float) :
  PrimFloat.is_nan acc = true -> fold_left np_maximum l acc = acc.
Proof.
  revert acc. induction l as [ | y l IH]; intros acc Hacc; [reflexivity | ].
  cbn [fold_left]. unfold np_maximum at 2. rewrite Hacc. now apply IH.
Qed.

Lemma fold_maximum_has_nan (l : list float) (acc : float) :
  PrimFloat.is_nan acc = true \/ (exists y, In y l /\ PrimFloat.is_nan y = true) ->
  PrimFloat.is_nan (fold_left np_maximum l acc) = true.
Proof.
  revert acc. induction l as [ | z l IH]; intros acc [Hacc | (y & Hy & Hnan)].
  - exact Hacc.
  - destruct Hy.
  - now rewrite fold_maximum_nan.
  - cbn [fold_left]. apply IH. destruct Hy as [-> | Hy]; [left | right; eauto].
    unfold np_maximum. destruct (PrimFloat.is_nan acc) eqn:Hacc; [exact Hacc | ].
    now rewrite Hnan.
Qed.

(** X17. A waveform with a NaN among its samples is returned
    unscaled: the peak is NaN, and [peak > 0] is false. *)
Theorem convert_nan_unscaled :
  forall scipy rs (samples : list float) (target : Z),
    (exists y, In y samples /\ PrimFloat.is_nan y = true) ->
    convert_to_voice_format scipy rs (Mono samples) target target = Ret samples.
Proof.
  intros scipy rs samples target (y & Hy & Hnan).
  unfold convert_to_voice_format. rewrite resample_step_same_rate. cbn [to_mono].
  unfold peak_normalize, np_abs.
  destruct samples as [ | x xs]; [destruct Hy | ].
  cbn [map np_max].
  rewrite ltb_zero_nan; [reflexivity | ].
  apply fold_maximum_has_nan. destruct Hy as [-> | Hy].
  - left. now apply is_nan_abs.
  - right. exists (PrimFloat.abs y). split; [now apply in_map | now apply is_nan_abs].
Qed.

Lemma convert_nan_unscaled_witness :
  convert_to_voice_format true index_resample
    (Mono [0x1p-1%float; PrimFloat.nan; 0x1p-2%float]) 24000 24000
  = Ret [0x1p-1%float; PrimFloat.nan; 0x1p-2%float].
Proof.
  apply (convert_nan_unscaled true index_resample
           [0x1p-1%float; PrimFloat.nan; 0x1p-2%float] 24000).
  exists PrimFloat.nan. split; [right; left; reflexivity | reflexivity].
Defined.

(** ** The further properties on the concrete deployment *)

Lemma generate_tts_success_witness :
  exists tmp,
    fs (boot lab_ready ∅) !! tmp = None
    /\ snd (generate_tts lab_ready "hello" None 0x1p-1%float 0x1p-1%float (boot lab_ready ∅))
       = Ret {| fr_path := tmp;
                fr_media_type := "audio/wav";
                fr_filename := "generated_audio.wav" |}
    /\ fs (fst (generate_tts lab_ready "hello" None 0x1p-1%float 0x1p-1%float
                  (boot lab_ready ∅)))
       = <[tmp := WavFile [0x1p-2%float; (-0x1p-2)%float] 24000]> (fs (boot lab_ready ∅))
    /\ log (fst (generate_tts lab_ready "hello" None 0x1p-1%float 0x1p-1%float
                   (boot lab_ready ∅)))
       = log (boot lab_ready ∅)
         ++ match reference_path lab_ready None with Some p => [EvStat p] | None => [] end
         ++ [EvSynth "hello" (reference_path lab_ready None); EvCreate tmp; EvWrite tmp].
Proof.
  apply (generate_tts_success lab_ready "hello" None 0x1p-1%float 0x1p-1%float lab_model
           [0x1p-2%float; (-0x1p-2)%float]
           (WavFile [0x1p-2%float; (-0x1p-2)%float] 24000) (boot lab_ready ∅));
    [reflexivity | discriminate | discriminate | reflexivity | reflexivity].
Defined.

Lemma generate_tts_engine_failure_witness :
  snd (generate_tts lab_engine_down "hello" None 0x1p-1%float 0x1p-1%float
         (boot lab_engine_down ∅))
  = Raise (HTTPException 500 "Failed to generate TTS: CUDA out of memory")
  /\ fs (fst (generate_tts lab_engine_down "hello" None 0x1p-1%float 0x1p-1%float
                (boot lab_engine_down ∅))) = ∅.
Proof.
  pose proof (generate_tts_engine_failure lab_engine_down "hello" None
                0x1p-1%float 0x1p-1%float lab_model
                (PyException "RuntimeError" "CUDA out of memory") (boot lab_engine_down ∅))
    as H.
  destruct H as (H1 & H2 & _);
    [reflexivity | discriminate | discriminate | reflexivity | ].
  split; [exact H1 | exact H2].
Defined.

Lemma generate_tts_save_failure_witness :
  snd (generate_tts lab_encoder_down "hello" None 0x1p-1%float 0x1p-1%float
         (boot lab_encoder_down ∅))
  = Raise (HTTPException 500 "Failed to generate TTS: Couldn't open the output file")
  /\ exists tmp,
       fs (boot lab_encoder_down ∅) !! tmp = None
       /\ in_tmpdir tmp = true
       /\ fs (fst (generate_tts lab_encoder_down "hello" None 0x1p-1%float 0x1p-1%float
                     (boot lab_encoder_down ∅)))
          = <[tmp := RawBytes ""]> (fs (boot lab_encoder_down ∅)).
Proof.
  apply (generate_tts_save_failure lab_encoder_down "hello" None
           0x1p-1%float 0x1p-1%float lab_model [0x1p-2%float; (-0x1p-2)%float]
           (PyException "RuntimeError" "Couldn't open the output file")
           (boot lab_encoder_down ∅));
    [reflexivity | discriminate | discriminate | reflexivity | reflexivity].
Defined.

Lemma upload_then_generate_witness :
  exists tmp,
    snd (generate_tts lab_ready "hello" (Some "narrator") 0x1p-1%float 0x1p-1%float
           (fst (upload_voice lab_ready (upload_of "a.wav" "abc") "narrator"
                   (boot lab_ready ∅))))
    = Ret {| fr_path := tmp;
             fr_media_type := "audio/wav";
             fr_filename := "generated_audio.wav" |}
    /\ In (EvSynth "hello" (Some (voice_file lab_ready "narrator")))
          (log (fst (generate_tts lab_ready "hello" (Some "narrator")
                       0x1p-1%float 0x1p-1%float
                       (fst (upload_voice lab_ready (upload_of "a.wav" "abc") "narrator"
                               (boot lab_ready ∅)))))).
Proof.
  apply (upload_then_generate lab_ready (upload_of "a.wav" "abc") "narrator" "a.wav" "abc"
           abc_audio 24000 abc_converted (boot lab_ready ∅) lab_model
           "hello" 0x1p-1%float 0x1p-1%float [0x1p-2%float; (-0x1p-2)%float]
           (WavFile [0x1p-2%float; (-0x1p-2)%float] 24000));
    try reflexivity; discriminate.
Defined.

Lemma upload_then_delete_witness :
  fs (fst (delete_voice lab_ready "narrator"
             (fst (upload_voice lab_ready (upload_of "a.wav" "abc") "narrator"
                     (boot lab_ready ∅))))) = ∅
  /\ snd (delete_voice lab_ready "narrator"
            (fst (delete_voice lab_ready "narrator"
                    (fst (upload_voice lab_ready (upload_of "a.wav" "abc") "narrator"
                            (boot lab_ready ∅))))))
     = Raise (HTTPException 404 "Voice 'narrator' not found").
Proof.
  pose proof (upload_then_delete lab_ready (upload_of "a.wav" "abc") "narrator" "a.wav" "abc"
                abc_audio 24000 abc_converted (boot lab_ready ∅) lab_model
                eq_refl eq_refl eq_refl eq_refl eq_refl eq_refl eq_refl) as H.
  destruct H as (_ & H2 & H3); [vm_compute; reflexivity | reflexivity | ].
  split; [exact H2 | exact H3].
Defined.

Lemma upload_then_list_witness :
  exists r l,
    snd (upload_voice lab_ready (upload_of "a.wav" "abc") "narrator" (boot lab_ready ∅))
    = Ret r
    /\ snd (list_voices lab_ready
              (fst (upload_voice lab_ready (upload_of "a.wav" "abc") "narrator"
                      (boot lab_ready ∅)))) = Ret l
    /\ In {| vi_name := up_voice_name r;
             vi_duration_seconds := up_duration_seconds r;
             vi_sample_rate := up_sample_rate r |} l
    /\ up_voice_name r = "narrator" /\ up_sample_rate r = 24000.
Proof.
  apply (upload_then_list lab_ready (upload_of "a.wav" "abc") "narrator" "a.wav" "abc"
           abc_audio 24000 abc_converted (boot lab_ready ∅) lab_model);
    try reflexivity; discriminate.
Defined.

(** * Properties of the image client *)

(** ** The file-name sanitizer *)

Lemma all_chars_append f (a b : string) :
  all_chars f (a +:+ b) = all_chars f a && all_chars f b.
Proof.
  induction a as [ | c a IH]; simpl; [reflexivity | ].
  now rewrite IH, andb_assoc.
Qed.

Lemma all_chars_filter f (s : string) : all_chars f (str_filter f s) = true.
Proof.
  induction s as [ | c s IH]; simpl; [reflexivity | ].
  destruct (f c) eqn:Hc; simpl; [now rewrite Hc | exact IH].
Qed.

Lemma all_chars_rstrip f (s : string) :
  all_chars f s = true -> all_chars f (rstrip s) = true.
Proof.
  induction s as [ | c s IH]; simpl; [reflexivity | ].
  intros H. apply andb_true_iff in H as [Hc Hs]. specialize (IH Hs).
  destruct (rstrip s) as [ | d t].
  - destruct (isspace c); simpl; [reflexivity | now rewrite Hc].
  - simpl in *. now rewrite Hc.
Qed.

Lemma length_str_filter f (s : string) :
  (String.length (str_filter f s) <= String.length s)%nat.
Proof.
  induction s as [ | c s IH]; simpl; [lia | ]. destruct (f c); simpl; lia.
Qed.

Lemma length_rstrip (s : string) : (String.length (rstrip s) <= String.length s)%nat.
Proof.
  induction s as [ | c s IH]; simpl; [lia | ].
  destruct (rstrip s); [destruct (isspace c) | ]; simpl in *; lia.
Qed.

Lemma rstrip_no_trailing_space (c : ascii) (s : string) :
  isspace c = true -> endswith c (rstrip s) = false.
Proof.
  intros Hc. induction s as [ | a s IH]; simpl; [reflexivity | ].
  destruct (rstrip s) as [ | d t] eqn:Hr.
  - destruct (isspace a) eqn:Ha; simpl; [reflexivity | ].
    destruct (Ascii.eqb_spec a c) as [-> | _]; [congruence | reflexivity].
  - exact IH.
Qed.

(** A string that does not end in white space is its own [rstrip]. *)
Lemma rstrip_fixed (s : string) :
  (forall c, isspace c = true -> endswith c s = false) -> rstrip s = s.
Proof.
  induction s as [ | a s IH]; intros H; simpl; [reflexivity | ].
  destruct s as [ | b s].
  - simpl. specialize (H a). simpl in H.
    destruct (isspace a); [ | reflexivity].
    specialize (H eq_refl). now rewrite Ascii.eqb_refl in H.
  - rewrite IH; [reflexivity | ]. intros c Hc. exact (H c Hc).
Qed.

Lemma str_filter_fixed f (s : string) : all_chars f s = true -> str_filter f s = s.
Proof.
  induction s as [ | c s IH]; simpl; [reflexivity | ].
  intros H. apply andb_true_iff in H as [Hc Hs]. now rewrite Hc, IH.
Qed.

(** X18. What the sanitizer lets through: only letters, digits,
    spaces, hyphens and underscores, so no "/", no backslash and no
    "."; nothing is added, and the result does not end in white space. *)
Theorem safe_prompt_charset :
  forall prompt_prefix,
    all_chars keeps (safe_prompt prompt_prefix) = true
    /\ contains "/" (safe_prompt prompt_prefix) = false
    /\ contains "\" (safe_prompt prompt_prefix) = false
    /\ contains "." (safe_prompt prompt_prefix) = false
    /\ (String.length (safe_prompt prompt_prefix) <= String.length prompt_prefix)%nat
    /\ forall c, isspace c = true -> endswith c (safe_prompt prompt_prefix) = false.
Proof.
  intros p. unfold safe_prompt.
  assert (Hall : all_chars keeps (rstrip (str_filter keeps p)) = true)
    by apply all_chars_rstrip, all_chars_filter.
  split; [exact Hall | ].
  repeat split; try (apply (all_chars_contains keeps); [exact Hall | reflexivity]).
  - etransitivity; [apply length_rstrip | apply length_str_filter].
  - intros c Hc. now apply rstrip_no_trailing_space.
Qed.

(** X19. The sanitizer leaves alone what is already clean, and so
    cleaning twice is cleaning once. *)
Theorem safe_prompt_idempotent :
  forall prompt_prefix,
    safe_prompt (safe_prompt prompt_prefix) = safe_prompt prompt_prefix
    /\ (all_chars keeps prompt_prefix = true ->
        (forall c, isspace c = true -> endswith c prompt_prefix = false) ->
        safe_prompt prompt_prefix = prompt_prefix).
Proof.
  intros p.
  assert (Hfix : forall s, all_chars keeps s = true ->
                           (forall c, isspace c = true -> endswith c s = false) ->
                           safe_prompt s = s).
  { intros s Hs Hend. unfold safe_prompt. rewrite (str_filter_fixed keeps s Hs).
    now apply rstrip_fixed. }
  split; [ | apply Hfix].
  apply Hfix.
  - apply all_chars_rstrip, all_chars_filter.
  - intros c Hc. now apply rstrip_no_trailing_space.
Qed.

(** ** Where the images go *)

Lemma all_chars_zeros (k : nat) :
  all_chars is_digit (string_of_list_ascii (repeat "0"%char k)) = true.
Proof. induction k as [ | k IH]; [reflexivity | exact IH]. Qed.

Lemma all_chars_format_03d (n : nat) : all_chars is_digit (format_03d n) = true.
Proof.
  unfold format_03d. now rewrite all_chars_append, all_chars_zeros, all_chars_pretty_nat.
Qed.

Lemma all_chars_impl (f g : ascii -> bool) (s : string) :
  (forall c, f c = true -> g c = true) -> all_chars f s = true -> all_chars g s = true.
Proof.
  intros Hfg. induction s as [ | c s IH]; simpl; [reflexivity | ].
  intros H. apply andb_true_iff in H as [Hc Hs]. now rewrite (Hfg c Hc), IH.
Qed.

Lemma is_digit_keeps (c : ascii) : is_digit c = true -> keeps c = true.
Proof. unfold is_digit, keeps, isalnum. now intros ->. Qed.

Lemma all_chars_image_filename (prompt_prefix : string) (i : nat) :
  all_chars filename_char (image_filename prompt_prefix i) = true.
Proof.
  unfold image_filename. rewrite !all_chars_append.
  assert (Hk : forall c, keeps c = true -> filename_char c = true)
    by (intros c Hc; unfold filename_char; now rewrite Hc).
  rewrite (all_chars_impl keeps filename_char _ Hk)
    by apply all_chars_rstrip, all_chars_filter.
  rewrite (all_chars_impl is_digit filename_char (format_03d (i + 1)))
    by (try apply all_chars_format_03d; intros c Hc; now apply Hk, is_digit_keeps).
  reflexivity.
Qed.

Lemma contains_startswith (c : ascii) (s : string) :
  contains c s = false -> startswith c s = false.
Proof. destruct s as [ | a s]; simpl; [reflexivity | ]. now intros [H _]%orb_false_iff. Qed.

(** X20. Every image is saved directly in [output_dir]: its path is
    [output_dir], a "/" when [output_dir] is not empty and does not end
    in one, and a file name with no "/" and no backslash in it, made of
    the cleaned prompt, "_", the image's position counted from 1 in at
    least three digits, and ".png". *)
Theorem image_path_in_output_dir :
  forall output_dir prompt_prefix i,
    contains "/" (image_filename prompt_prefix i) = false
    /\ contains "\" (image_filename prompt_prefix i) = false
    /\ image_filename prompt_prefix i
       = safe_prompt prompt_prefix +:+ "_" +:+ format_03d (i + 1) +:+ ".png"
    /\ (3 <= String.length (format_03d (i + 1)))%nat
    /\ all_chars is_digit (format_03d (i + 1)) = true
    /\ image_path output_dir prompt_prefix i
       = (if String.eqb output_dir "" || endswith "/" output_dir
          then output_dir
          else output_dir +:+ "/") +:+ image_filename prompt_prefix i.
Proof.
  intros dir p i.
  pose proof (all_chars_image_filename p i) as Hall.
  assert (Hslash : contains "/" (image_filename p i) = false)
    by (apply (all_chars_contains filename_char); [exact Hall | reflexivity]).
  split; [exact Hslash | ].
  split; [apply (all_chars_contains filename_char); [exact Hall | reflexivity] | ].
  split; [reflexivity | ].
  split.
  { unfold format_03d. rewrite length_append.
    assert (Hz : forall k, String.length (string_of_list_ascii (repeat "0"%char k)) = k)
      by (induction k as [ | k IH]; simpl; [reflexivity | now rewrite IH]).
    rewrite Hz. lia. }
  split; [apply all_chars_format_03d | ].
  unfold image_path, os_path_join. rewrite (contains_startswith _ _ Hslash).
  destruct (String.eqb dir "" || endswith "/" dir); [reflexivity | ].
  symmetry. apply append_assoc.
Qed.

(** ** The loop of [_save_images] *)

Lemma save_image_run Y output_dir prompt_prefix i base64_image saved_paths w :
  (forall e, image_open Y base64_image = Raise e -> is_Exception e = true) ->
  (forall image e, image_open Y base64_image = Ret image ->
                   png_encode Y image = Raise e -> is_Exception e = true) ->
  save_image Y output_dir prompt_prefix i base64_image saved_paths w
  = match image_open Y base64_image with
    | Ret image =>
        match png_encode Y image with
        | Ret data =>
            (emit (EvWrite (image_file Y output_dir prompt_prefix i))
               (set_fs (<[image_file Y output_dir prompt_prefix i := data]> (fs w)) w),
             Ret (saved_paths ++ [image_path output_dir prompt_prefix i]))
        | Raise _ => (w, Ret saved_paths)
        end
    | Raise _ => (w, Ret saved_paths)
    end.
Proof.
  intros Hopen Hsave.
  unfold save_image, try_except. rewrite bind_apply. unfold lift at 1.
  destruct (image_open Y base64_image) as [image | e] eqn:Ho.
  - cbv zeta. rewrite bind_apply. unfold image_save at 1. rewrite bind_apply.
    unfold lift at 1.
    destruct (png_encode Y image) as [data | e] eqn:Hs.
    + reflexivity.
    + now rewrite (Hsave image e eq_refl Hs).
  - now rewrite (Hopen e eq_refl).
Qed.

Lemma save_loop_run Y output_dir prompt_prefix base64_images :
  (forall b e, In b base64_images -> image_open Y b = Raise e -> is_Exception e = true) ->
  (forall b image e, In b base64_images -> image_open Y b = Ret image ->
                     png_encode Y image = Raise e -> is_Exception e = true) ->
  forall i saved_paths w,
  exists w',
    save_loop Y output_dir prompt_prefix i base64_images saved_paths w
    = (w', Ret (saved_paths
                ++ map (image_path output_dir prompt_prefix)
                     (saved_positions Y i base64_images)))
    /\ (forall n, In n (saved_positions Y i base64_images) ->
          is_Some (fs w' !! image_file Y output_dir prompt_prefix n))
    /\ (forall q, is_Some (fs w !! q) -> is_Some (fs w' !! q))
    /\ (forall q, is_Some (fs w' !! q) ->
          is_Some (fs w !! q)
          \/ exists n, In n (saved_positions Y i base64_images)
                       /\ q = image_file Y output_dir prompt_prefix n).
Proof.
  induction base64_images as [ | b rest IH]; intros Hopen Hsave i saved_paths w.
  - exists w. cbn [save_loop saved_positions map]. rewrite app_nil_r.
    split; [reflexivity | ].
    split; [intros n [] | ]. split; [auto | auto].
  - assert (Hopen' : forall b' e, In b' rest -> image_open Y b' = Raise e ->
                                  is_Exception e = true)
      by (intros b' e Hin; apply Hopen; now right).
    assert (Hsave' : forall b' image e, In b' rest -> image_open Y b' = Ret image ->
                                        png_encode Y image = Raise e -> is_Exception e = true)
      by (intros b' image e Hin; apply (Hsave b'); now right).
    cbn [save_loop saved_positions]. rewrite bind_apply.
    rewrite save_image_run;
      [ | intros e He; apply (Hopen b e); [now left | exact He]
        | intros image e Ho Hs; apply (Hsave b image e); [now left | exact Ho | exact Hs]].
    unfold saves_image.
    destruct (image_open Y b) as [image | e].
    + destruct (png_encode Y image) as [data | e].
      * set (w1 := emit _ _).
        destruct (IH Hopen' Hsave' (S i) (saved_paths ++ [image_path output_dir prompt_prefix i]) w1)
          as (w' & Hrun & Hsaved & Hkeep & Honly).
        exists w'. rewrite Hrun. cbn [app map]. rewrite <- app_assoc. cbn [app].
        split; [reflexivity | ].
        split; [ | split].
        -- intros n [<- | Hin]; [ | now apply Hsaved].
           apply Hkeep. subst w1. cbn [fs emit set_fs].
           rewrite lookup_insert_eq. now eexists.
        -- intros q Hq. apply Hkeep. subst w1. cbn [fs emit set_fs].
           destruct (decide (image_file Y output_dir prompt_prefix i = q)) as [<- | Hne].
           ++ rewrite lookup_insert_eq. now eexists.
           ++ now rewrite lookup_insert_ne.
        -- intros q Hq. destruct (Honly q Hq) as [Hold | (n & Hin & ->)].
           ++ subst w1. cbn [fs emit set_fs] in Hold.
              destruct (decide (image_file Y output_dir prompt_prefix i = q)) as [<- | Hne].
              ** right. exists i. split; [now left | reflexivity].
              ** rewrite lookup_insert_ne in Hold by exact Hne. now left.
           ++ right. exists n. split; [now right | reflexivity].
      * destruct (IH Hopen' Hsave' (S i) saved_paths w)
          as (w' & Hrun & Hsaved & Hkeep & Honly).
        exists w'. rewrite Hrun. cbn [app].
        split; [reflexivity | ].
        split; [exact Hsaved | ]. split; [exact Hkeep | exact Honly].
    + destruct (IH Hopen' Hsave' (S i) saved_paths w)
        as (w' & Hrun & Hsaved & Hkeep & Honly).
      exists w'. rewrite Hrun. cbn [app].
      split; [reflexivity | ].
      split; [exact Hsaved | ]. split; [exact Hkeep | exact Honly].
Qed.

(** X21. When the output directory can be made and no picture fails
    with anything but an [Exception], [_save_images] never raises: it
    returns, in order, the paths of the pictures that opened and were
    saved, each numbered by its place in the input (a picture that fails
    leaves a gap in the numbering and does not stop the others).  Every
    returned path is a file afterwards, no file that was there is
    removed, and no file appears other than the returned ones. *)
Theorem save_images_paths :
  forall Y base64_images output_dir prompt_prefix w,
    makedirs Y output_dir = Ret tt ->
    (forall b e, In b base64_images -> image_open Y b = Raise e -> is_Exception e = true) ->
    (forall b image e, In b base64_images -> image_open Y b = Ret image ->
                       png_encode Y image = Raise e -> is_Exception e = true) ->
    exists w',
      _save_images Y base64_images output_dir prompt_prefix w
      = (w', Ret (map (image_path output_dir prompt_prefix)
                    (saved_positions Y 0 base64_images)))
        /\ (forall n, In n (saved_positions Y 0 base64_images) ->
            is_Some (fs w' !! image_file Y output_dir prompt_prefix n))
      /\ (forall q, is_Some (fs w !! q) -> is_Some (fs w' !! q))
      /\ (forall q, is_Some (fs w' !! q) ->
            is_Some (fs w !! q)
            \/ exists n, In n (saved_positions Y 0 base64_images)
                         /\ q = image_file Y output_dir prompt_prefix n).
Proof.
  intros Y base64_images output_dir prompt_prefix w Hdir Hopen Hsave.
  destruct (save_loop_run Y output_dir prompt_prefix base64_images Hopen Hsave 0%nat [] w)
    as (w' & Hrun & Hrest).
  exists w'. split; [ | exact Hrest].
  unfold _save_images. rewrite bind_apply. unfold lift at 1. rewrite Hdir.
  exact Hrun.
Qed.

Lemma save_images_paths_witness :
  exists w',
    _save_images studio ["QUFB"; ""; "QkJC"] "out" "a cat!"
      {| tts_model := None; fs := ∅; log := [] |}
    = (w', Ret ["out/a cat_001.png"; "out/a cat_003.png"])
    /\ is_Some (fs w' !! ["srv"; "out"; "a cat_003.png"]).
Proof.
  destruct (save_images_paths studio ["QUFB"; ""; "QkJC"] "out" "a cat!"
              {| tts_model := None; fs := ∅; log := [] |})
    as (w' & Hrun & Hsaved & _).
  - reflexivity.
  - intros b e _. cbn. destruct (String.eqb b ""); [ | discriminate].
    intros [= <-]. reflexivity.
  - intros b image e _ _. cbn. discriminate.
  - exists w'. split; [exact Hrun | ].
    apply (Hsaved 2%nat). right. left. reflexivity.
Defined.

(** * The request of [generate_hires_image] *)

Lemma more_models_run (models : list string) :
  forall i args,
    more_models i models args = args ++ map extra_model_args (firstn (3 - i) models).
Proof.
  induction models as [ | model rest IH]; intros i args.
  - cbn [more_models]. rewrite firstn_nil. cbn [map]. now rewrite app_nil_r.
  - cbn [more_models]. destruct (3 <=? i)%nat eqn:Hi.
    + apply Nat.leb_le in Hi. replace (3 - i)%nat with 0%nat by lia.
      cbn [firstn map]. now rewrite app_nil_r.
    + apply Nat.leb_gt in Hi. rewrite IH.
      replace (3 - i)%nat with (S (3 - S i)) by lia.
      cbn [firstn map]. now rewrite <- app_assoc.
Qed.

(** X22. ADetailer gets the two switches, the full settings of the
    first model and the short settings of the second and third model,
    in the order of the list: models after the third are left out
    without notice. *)
Theorem adetailer_args_three_models :
  forall first rest,
    adetailer_args (first :: rest)
    = Ret ([JBool true; JBool false; first_model_args first]
           ++ map extra_model_args (firstn 2 rest))
    /\ (forall more, (2 <= length rest)%nat ->
          adetailer_args (first :: rest ++ more) = adetailer_args (first :: rest)).
Proof.
  intros first rest.
  assert (Hrun : forall l, adetailer_args (first :: l)
                           = Ret ([JBool true; JBool false; first_model_args first]
                                  ++ map extra_model_args (firstn 2 l))).
  { intros l. unfold adetailer_args. now rewrite more_models_run. }
  split; [apply Hrun | ].
  intros more Hlen. rewrite !Hrun, firstn_app.
  replace (2 - length rest)%nat with 0%nat by lia.
  cbn [firstn]. now rewrite app_nil_r.
Qed.

Lemma build_payload_plain (a : HiResArgs) (x y : Z) :
  hr_resize (width a) (hr_scale a) = Ret x ->
  hr_resize (height a) (hr_scale a) = Ret y ->
  use_adetailer a = false ->
  exists payload,
    build_payload a = Ret payload
    /\ dict_get "alwayson_scripts" payload = None
    /\ dict_get "hr_resize_x" payload = Some (JInt x)
    /\ dict_get "hr_resize_y" payload = Some (JInt y).
Proof.
  intros Hx Hy Hoff. unfold build_payload. rewrite Hx, Hy, Hoff.
  eexists. split; [reflexivity | ]. repeat split.
Qed.

Lemma build_payload_adetailer (a : HiResArgs) (x y : Z) (args : list json) :
  hr_resize (width a) (hr_scale a) = Ret x ->
  hr_resize (height a) (hr_scale a) = Ret y ->
  use_adetailer a = true ->
  adetailer_args (match adetailer_models a with
                  | None => ["face_yolov8n.pt"]
                  | Some models => models
                  end) = Ret args ->
  exists payload,
    build_payload a = Ret payload
    /\ dict_get "alwayson_scripts" payload
       = Some (JDict [("ADetailer", JDict [("args", JList args)])])
    /\ dict_get "hr_resize_x" payload = Some (JInt x)
    /\ dict_get "hr_resize_y" payload = Some (JInt y).
Proof.
  intros Hx Hy Hon Hargs. unfold build_payload. rewrite Hx, Hy, Hon, Hargs.
  eexists. split; [reflexivity | ]. repeat split.
Qed.

(** X23. When both target sizes can be computed: without ADetailer the
    payload has no "alwayson_scripts" entry and the list of models is
    not looked at, so that even an empty list is accepted; with
    ADetailer an empty list of models makes the call raise IndexError
    while the payload is built, a missing list stands for the single
    model "face_yolov8n.pt", and a list with a first model puts the
    arguments of that list under "alwayson_scripts" / "ADetailer" /
    "args". *)
Theorem payload_adetailer_section :
  forall (a : HiResArgs) (x y : Z),
    hr_resize (width a) (hr_scale a) = Ret x ->
    hr_resize (height a) (hr_scale a) = Ret y ->
    (forall models,
        exists payload,
          build_payload (with_adetailer false models a) = Ret payload
          /\ dict_get "alwayson_scripts" payload = None
          /\ build_payload (with_adetailer false (Some []) a) = Ret payload)
    /\ build_payload (with_adetailer true (Some []) a)
       = Raise (PyException "IndexError" "list index out of range")
    /\ build_payload (with_adetailer true None a)
       = build_payload (with_adetailer true (Some ["face_yolov8n.pt"]) a)
    /\ (forall first rest,
          exists payload,
            build_payload (with_adetailer true (Some (first :: rest)) a) = Ret payload
            /\ dict_get "alwayson_scripts" payload
               = Some (JDict [("ADetailer",
                               JDict [("args",
                                       JList ([JBool true; JBool false; first_model_args first]
                                              ++ map extra_model_args (firstn 2 rest)))])])).
Proof.
  intros a x y Hx Hy.
  split; [ | split; [ | split]].
  - intros models.
    destruct (build_payload_plain (with_adetailer false models a) x y Hx Hy eq_refl)
      as (payload & Hrun & Hnone & _).
    exists payload. split; [exact Hrun | ]. split; [exact Hnone | ].
    rewrite <- Hrun. unfold build_payload. cbn [with_adetailer width height hr_scale
      use_adetailer]. now rewrite Hx, Hy.
  - unfold build_payload. cbn [with_adetailer width height hr_scale use_adetailer
      adetailer_models]. now rewrite Hx, Hy.
  - reflexivity.
  - intros first rest.
    destruct (build_payload_adetailer (with_adetailer true (Some (first :: rest)) a) x y
                ([JBool true; JBool false; first_model_args first]
                 ++ map extra_model_args (firstn 2 rest)) Hx Hy eq_refl)
      as (payload & Hrun & Hargs & _).
    + cbn [with_adetailer adetailer_models]. unfold adetailer_args.
      now rewrite more_models_run.
    + exists payload. split; [exact Hrun | exact Hargs].
Qed.

Lemma payload_adetailer_section_witness :
  hr_resize 832 0x1.8p+0 = Ret 1248
  /\ hr_resize 1216 0x1.8p+0 = Ret 1824
  /\ build_payload (with_adetailer true (Some []) (default_args "a cat"))
     = Raise (PyException "IndexError" "list index out of range")
  /\ build_payload (default_args "a cat")
     = build_payload (with_adetailer true (Some ["face_yolov8n.pt"]) (default_args "a cat")).
Proof.
  destruct (payload_adetailer_section (default_args "a cat") 1248 1824)
    as (_ & Hempty & Hdefault & _).
  - vm_compute. reflexivity.
  - vm_compute. reflexivity.
  - split; [vm_compute; reflexivity | ].
    split; [vm_compute; reflexivity | ].
    split; [exact Hempty | exact Hdefault].
Defined.

(** * The base URL of the client *)

Lemma rstrip_char_not_endswith (c : ascii) (s : string) :
  endswith c (rstrip_char c s) = false.
Proof.
  induction s as [ | a s IH]; [reflexivity | ].
  cbn [rstrip_char]. destruct (rstrip_char c s) as [ | b t].
  - destruct (Ascii.eqb a c) eqn:Hac; [reflexivity | ]. cbn [endswith]. exact Hac.
  - exact IH.
Qed.

Lemma rstrip_char_fixed (c : ascii) (s : string) :
  endswith c s = false -> rstrip_char c s = s.
Proof.
  induction s as [ | a s IH]; [reflexivity | ].
  destruct s as [ | b s'].
  - cbn [endswith rstrip_char]. now intros ->.
  - intros Hend. change (endswith c (String a (String b s'))) with (endswith c (String b s')) in Hend.
    specialize (IH Hend).
    change (rstrip_char c (String a (String b s')))
      with (match rstrip_char c (String b s') with
            | EmptyString => if Ascii.eqb a c then EmptyString else String a EmptyString
            | t => String a t
            end).
    now rewrite IH.
Qed.

Lemma rstrip_char_split (c : ascii) (s : string) :
  exists k, s = rstrip_char c s +:+ str_repeat c k.
Proof.
  induction s as [ | a s IH]; [now exists 0%nat | ].
  destruct IH as (k & Hk). cbn [rstrip_char].
  destruct (rstrip_char c s) as [ | b t].
  - destruct (Ascii.eqb a c) eqn:Hac.
    + apply Ascii.eqb_eq in Hac as ->. exists (S k).
      cbn in Hk. rewrite Hk at 1. reflexivity.
    + exists k. cbn in Hk. rewrite Hk at 1. reflexivity.
  - exists k. rewrite Hk at 1. reflexivity.
Qed.

(** X24. The client keeps the base URL it is given up to its trailing
    slashes: only slashes at the end are dropped, all of them, so the
    stored URL never ends in a slash (and an endpoint path appended to
    it starts after exactly its own slash); a URL without a trailing
    slash is kept as it is, and stripping twice changes nothing. *)
Theorem init_base_url_strips_slashes :
  forall base_url,
    (exists k, base_url = init_base_url base_url +:+ str_repeat "/" k)
    /\ endswith "/" (init_base_url base_url) = false
    /\ (endswith "/" base_url = false -> init_base_url base_url = base_url)
    /\ init_base_url (init_base_url base_url) = init_base_url base_url.
Proof.
  intros base_url. unfold init_base_url.
  split; [apply rstrip_char_split | ].
  split; [apply rstrip_char_not_endswith | ].
  split; [apply rstrip_char_fixed | ].
  apply rstrip_char_fixed, rstrip_char_not_endswith.
Qed.
